(** * ooxml-slides-manipulator: the Python client scripts, embedded

    The repository's Python side is a set of entry scripts that
    - ask the remote creation service (a Google Apps Script web app) to
      build a slide deck ([requests.post]),
    - download exports of a deck ([requests.get]) and save them, and
    - drive a Chrome instance through Selenium to capture a screenshot.

    The scripts are embedded as functions of a small state-and-exception
    monad [M].  The state ([world]) holds what the scripts can change or
    observe: the trace of external actions, the files written, the number of
    running browser engines and the script's local variable [driver].  What
    the outside world answers (HTTP replies, driver faults, the clock) is an
    oracle [env]; every theorem quantifies over it.

    Modelling assumptions, uniform over the file:
    - JSON numbers are integers ([PInt]); Python floats do not occur in the
      replies the scripts inspect.
    - [print] never fails; what is printed is recorded as a list of
      fragments (literal text and interpolated values), number and JSON
      formatting left uninterpreted.
    - Local file-system calls ([os.makedirs], [open]/[write],
      [os.path.getsize]) succeed where the script fixes the path itself or
      builds it from the clock.  test_export_after_create.py builds its file
      name from the service's answer: there, whether the file can be opened
      is for the file system to say ([fs_open]).
    - [driver.quit()] does not raise (Selenium's Chromium driver swallows
      faults while quitting) and always stops the engine.
    - Only exceptions deriving from [Exception] are modelled, so
      [except Exception] catches every [Raise].

    The prompt parser (the specification's SpecExtractor) is not Python: it
    runs in the remote Apps Script project.  It is modelled from the
    specification in [SpecExtractor], as a pure function. *)

From Stdlib Require Import ZArith String Ascii List Bool DecimalString Lia.
From stdpp Require Import gmap strings list.

Local Open Scope Z_scope.

(** ** Python values *)

#[local] Set Warnings "-register-all".

(** A JSON document as [response.json()] returns it, and more generally the
    Python values the scripts pass around. *)
Inductive pyval : Type :=
| PNone
| PBool (b : bool)
| PInt (n : Z)
| PStr (s : string)
| PList (l : list pyval)
| PDict (d : list (string * pyval)).

(** Python exceptions: the class name and [str(e)]. *)
Record exn : Type := Exn { exn_type : string; exn_msg : string }.

Inductive outcome (A : Type) : Type :=
| Ret (a : A)
| Raise (e : exn).
Arguments Ret {A} a.
Arguments Raise {A} e.

Definition AttributeError : exn := Exn "AttributeError" "object has no attribute 'get'".
Definition KeyError (k : string) : exn := Exn "KeyError" k.
Definition TypeError : exn := Exn "TypeError" "bad operand type".
Definition JSONDecodeError : exn := Exn "JSONDecodeError" "Expecting value".

(** [bool(v)] *)
Definition truthy (v : pyval) : bool :=
  match v with
  | PNone => false
  | PBool b => b
  | PInt n => negb (n =? 0)
  | PStr s => negb (String.eqb s "")
  | PList l => match l with [] => false | _ => true end
  | PDict d => match d with [] => false | _ => true end
  end.

Fixpoint assoc (k : string) (d : list (string * pyval)) : option pyval :=
  match d with
  | [] => None
  | (k', v) :: d' => if String.eqb k k' then Some v else assoc k d'
  end.

(** [v.get(k, dflt)]: only dicts have [get]. *)
Definition py_get (v : pyval) (k : string) (dflt : pyval) : outcome pyval :=
  match v with
  | PDict d => Ret (default dflt (assoc k d))
  | _ => Raise AttributeError
  end.

(** [v[k]] for a string key [k]. *)
Definition py_getitem (v : pyval) (k : string) : outcome pyval :=
  match v with
  | PDict d => match assoc k d with
               | Some x => Ret x
               | None => Raise (KeyError k)
               end
  | _ => Raise TypeError
  end.

Fixpoint is_substring (k s : string) : bool :=
  String.prefix k s ||
  match s with
  | EmptyString => false
  | String _ s' => is_substring k s'
  end.

(** [k in v] for a string [k]: key membership on dicts, element membership
    on lists, substring test on strings, [TypeError] elsewhere. *)
Definition py_in (k : string) (v : pyval) : outcome bool :=
  match v with
  | PDict d => Ret (bool_decide (is_Some (assoc k d)))
  | PList l => Ret (existsb (fun x => match x with
                                      | PStr s => String.eqb s k
                                      | _ => false
                                      end) l)
  | PStr s => Ret (is_substring k s)
  | _ => Raise TypeError
  end.

Definition str_of_Z (n : Z) : string := NilZero.string_of_int (Z.to_int n).

(** ** The outside world *)

Record response : Type := Response {
  status_code : Z;
  text : string;                 (* the body; [content] is the same bytes *)
  json_body : option pyval;      (* [None]: [response.json()] raises *)
  content_type : pyval           (* [headers.get('content-type')] *)
}.

(** One piece of a printed line. *)
Inductive frag : Type :=
| Lit (s : string)
| Val (v : pyval).

(** External actions, each with what the outside world answered. *)
Inductive event : Type :=
| EPrint (msg : list frag)
| EPost (url : string) (payload : pyval) (timeout : option Z) (reply : outcome response)
| EGet (url : string) (timeout : option Z) (reply : outcome response)
| ESleep (secs : Z)
| EMakedirs (path : string)
| EWrite (path : string)
| EInstall (reply : outcome string)
| ELaunch (service : option string) (options : list string) (fault : option exn)
| ENavigate (url : string) (fault : option exn)
| EScreenshot (path : string) (reply : outcome string)
| EQuery (property : string) (reply : outcome pyval)
| EQuit.

(** What the environment answers.  Every answer may depend on the actions
    taken so far. *)
Record env : Type := Env {
  http_post : list event -> string -> pyval -> outcome response;
  http_get : list event -> string -> outcome response;
  now : list event -> string;
  py_repr : pyval -> string;
  driver_install : list event -> outcome string;
  driver_launch : list event -> option string -> list string -> option exn;
  driver_navigate : list event -> string -> option exn;
  driver_capture : list event -> string -> outcome string;
  driver_title : list event -> outcome pyval;
  driver_current_url : list event -> outcome pyval;
  fs_open : string -> option exn   (* [open(path, 'wb')]: [None] when the file opens *)
}.

(** [str(v)], as f-strings apply it; containers go through [py_repr]. *)
Definition py_str (E : env) (v : pyval) : string :=
  match v with
  | PNone => "None"
  | PBool true => "True"
  | PBool false => "False"
  | PInt n => str_of_Z n
  | PStr s => s
  | _ => py_repr E v
  end.

Record world : Type := World {
  trace : list event;            (* external actions, oldest first *)
  files : gmap string string;    (* regular files, by path *)
  engines : nat;                 (* browser engines currently running *)
  driver : bool                  (* is the local [driver] bound to a session *)
}.

Definition world0 : world := World [] ∅ 0 false.

(** ** The monad of a script *)

Definition M (A : Type) : Type := world -> outcome A * world.

Definition ret {A} (a : A) : M A := fun w => (Ret a, w).

Definition raise {A} (e : exn) : M A := fun w => (Raise e, w).

Definition bind {A B} (m : M A) (k : A -> M B) : M B :=
  fun w => match m w with
           | (Ret a, w') => k a w'
           | (Raise e, w') => (Raise e, w')
           end.

Definition lift {A} (o : outcome A) : M A := fun w => (o, w).

(** [try: body except Exception as e: handler(e)] *)
Definition try_except {A} (body : M A) (handler : exn -> M A) : M A :=
  fun w => match body w with
           | (Ret a, w') => (Ret a, w')
           | (Raise e, w') => handler e w'
           end.

(** [try: body finally: fin] *)
Definition try_finally {A} (body : M A) (fin : M unit) : M A :=
  fun w => match body w with
           | (r, w') => match fin w' with
                        | (Ret _, w'') => (r, w'')
                        | (Raise e, w'') => (Raise e, w'')
                        end
           end.

Declare Scope py_scope.
Delimit Scope py_scope with py.
Notation "x <- m ;; k" := (bind m (fun x => k))
  (at level 100, m at next level, right associativity) : py_scope.
Notation "m ;; k" := (bind m (fun _ => k))
  (at level 100, right associativity) : py_scope.
Local Open Scope py_scope.

Definition log (e : event) : M unit :=
  fun w => (Ret tt, World (trace w ++ [e]) (files w) (engines w) (driver w)).

Definition print (msg : list frag) : M unit := log (EPrint msg).

Fixpoint prints (lines : list (list frag)) : M unit :=
  match lines with
  | [] => ret tt
  | l :: ls => print l ;; prints ls
  end.

(** [for x in l: f(x)] *)
Fixpoint for_each {A} (f : A -> M unit) (l : list A) : M unit :=
  match l with
  | [] => ret tt
  | x :: l' => f x ;; for_each f l'
  end.

Definition sleep (secs : Z) : M unit := log (ESleep secs).

(** [requests.post(url, json=payload, timeout=t)] *)
Definition requests_post (E : env) (url : string) (payload : pyval)
    (timeout : option Z) : M response :=
  fun w => let reply := http_post E (trace w) url payload in
           (reply, World (trace w ++ [EPost url payload timeout reply])
                         (files w) (engines w) (driver w)).

(** [requests.get(url, timeout=t)] *)
Definition requests_get (E : env) (url : string) (timeout : option Z) : M response :=
  fun w => let reply := http_get E (trace w) url in
           (reply, World (trace w ++ [EGet url timeout reply])
                         (files w) (engines w) (driver w)).

(** [response.json()] *)
Definition json (r : response) : M pyval :=
  match json_body r with
  | Some v => ret v
  | None => raise JSONDecodeError
  end.

(** [os.makedirs(path, exist_ok=True)] *)
Definition makedirs (path : string) : M unit := log (EMakedirs path).

(** [with open(path, 'wb') as f: f.write(data)] *)
Definition write_file (path data : string) : M unit :=
  fun w => (Ret tt, World (trace w ++ [EWrite path]) (<[path := data]> (files w))
                          (engines w) (driver w)).

Definition FileNotFoundError : exn :=
  Exn "FileNotFoundError" "[Errno 2] No such file or directory".

(** [with open(path, 'wb') as f: f.write(data)] for a [path] built from the
    service's answer: the file system says whether the file can be opened
    (it cannot when the name leads into a directory that does not exist);
    an [open] that raises writes nothing. *)
Definition open_write (E : env) (path data : string) : M unit :=
  fun w => match fs_open E path with
           | None => write_file path data w
           | Some e => (Raise e, w)
           end.

(** [datetime.now().strftime('%Y%m%d_%H%M%S')] *)
Definition timestamp (E : env) : M string := fun w => (Ret (now E (trace w)), w).

(** The three URL templates of a presentation. *)
Definition edit_url_of (id : string) : string :=
  "https://docs.google.com/presentation/d/" +:+ id +:+ "/edit".
Definition pub_url_of (id : string) : string :=
  "https://docs.google.com/presentation/d/" +:+ id +:+ "/pub".
Definition export_url_of (id fmt : string) : string :=
  "https://docs.google.com/presentation/d/" +:+ id +:+ "/export?format=" +:+ fmt.

Definition web_app_url : string :=
  "https://script.google.com/macros/s/AKfycbwsD1RQSgoRsF3tqGka2YZmhYlIMmDYKmnIlA5c9YqeiJ6OtpzgRw5C1e7teKacOEkw/exec".

(** ** create_font_comparison.py *)
Module create_font_comparison.

Definition before_payload : pyval :=
  PDict [("fn", PStr "createPresentationFromPrompt");
         ("args", PList [PStr "Create presentation with default fonts - BEFORE demonstration"])].

Definition after_payload : pyval :=
  PDict [("fn", PStr "createPresentationFromPrompt");
         ("args", PList [PStr "Create presentation with https://coolors.co/edd3c4-c8adc0-7765e3-3b60e4-080708 and Merriweather/Inter fonts - AFTER demonstration"])].

Definition entry (E : env) (type title : string) (id : pyval) : pyval :=
  PDict [("type", PStr type);
         ("id", id);
         ("title", PStr title);
         ("edit_url", PStr (edit_url_of (py_str E id)));
         ("pub_url", PStr (pub_url_of (py_str E id)))].

(** One half of the function: post, inspect the reply, append on success.
    The source writes this block twice, for BEFORE and for AFTER. *)
Definition create_one (E : env) (type title announce : string) (payload : pyval)
    (presentations : list pyval) : M (list pyval) :=
  print [Lit announce] ;;
  resp <- requests_post E web_app_url payload (Some 30) ;;
  if status_code resp =? 200 then
    result <- json resp ;;
    inner <- lift (py_get result "result" (PDict [])) ;;
    success <- lift (py_get inner "success" PNone) ;;
    if truthy success then
      r <- lift (py_getitem result "result") ;;
      id <- lift (py_getitem r "presentationId") ;;
      print [Lit ("✅ " +:+ type +:+ " presentation created: "); Val id] ;;
      ret (presentations ++ [entry E type title id])
    else
      print [Lit ("❌ " +:+ type +:+ " presentation creation failed")] ;;
      ret presentations
  else
    print [Lit ("❌ " +:+ type +:+ " API call failed: "); Val (PInt (status_code resp))] ;;
    ret presentations.

Definition show (E : env) (pres : pyval) : M unit :=
  type <- lift (py_getitem pres "type") ;;
  title <- lift (py_getitem pres "title") ;;
  print [Lit "
📋 "; Val type; Lit " - "; Val title] ;;
  id <- lift (py_getitem pres "id") ;;
  print [Lit "🆔 ID: "; Val id] ;;
  edit_url <- lift (py_getitem pres "edit_url") ;;
  print [Lit "📝 Edit URL: "; Val edit_url] ;;
  pub_url <- lift (py_getitem pres "pub_url") ;;
  print [Lit "👁️ Public URL: "; Val pub_url] ;;
  id <- lift (py_getitem pres "id") ;;
  print [Lit "📸 PNG Export: https://docs.google.com/presentation/d/"; Val id;
         Lit "/export?format=png"].

Definition create_font_comparison (E : env) : M (list pyval) :=
  let presentations := [] in
  presentations <- create_one E "BEFORE" "Default Fonts (Before)"
      "📞 Creating BEFORE presentation (default fonts)..." before_payload presentations ;;
  sleep 2 ;;
  presentations <- create_one E "AFTER" "Merriweather/Inter Fonts (After)"
      "📞 Creating AFTER presentation (Merriweather/Inter fonts)..." after_payload presentations ;;
  prints [[Lit "
🎯 BEFORE/AFTER FONT PAIR COMPARISON"];
          [Lit "===================================="]] ;;
  for_each (show E) presentations ;;
  if (length presentations =? 2)%nat then
    prints [[Lit "
🔍 TO VIEW THE DIFFERENCE:"];
            [Lit "1. Open both edit URLs in separate browser tabs"];
            [Lit "2. Compare the font styling between presentations"];
            [Lit "3. BEFORE uses default Google Slides fonts"];
            [Lit "4. AFTER uses Merriweather (headings) + Inter (body text)"]] ;;
    ret presentations
  else
    print [Lit "
⚠️ Could not create both presentations for comparison"] ;;
    ret presentations.

End create_font_comparison.

(** [@'result' in result and result['result'].get('success')@], as a
    condition. *)
Definition result_success (result : pyval) : M bool :=
  has <- lift (py_in "result" result) ;;
  if has then
    r <- lift (py_getitem result "result") ;;
    s <- lift (py_get r "success" PNone) ;;
    ret (truthy s)
  else ret false.

Definition prompt_payload (fn prompt : string) : pyval :=
  PDict [("fn", PStr fn); ("args", PList [PStr prompt])].

(** ** test_api.py *)
Module test_api.

Definition payload : pyval :=
  prompt_payload "createPresentationFromPrompt"
    "Create presentation with https://coolors.co/edd3c4-c8adc0-7765e3-3b60e4-080708 and Merriweather/Inter fonts".

Definition main (E : env) : M pyval :=
  print [Lit "📞 Calling Web API to create presentation..."] ;;
  try_except
    (response <- requests_post E web_app_url payload (Some 30) ;;
     if status_code response =? 200 then
       result <- json response ;;
       print [Lit "✅ API Response:"; Val result] ;;
       ok <- result_success result ;;
       if ok then
         presentation_data <- lift (py_getitem result "result") ;;
         presentation_id <- lift (py_get presentation_data "presentationId" PNone) ;;
         prints [[Lit "
🎯 PRESENTATION CREATED SUCCESSFULLY"];
                 [Lit "========================================"];
                 [Lit "📋 Presentation ID: "; Val presentation_id];
                 [Lit "📝 Edit URL: https://docs.google.com/presentation/d/";
                  Val presentation_id; Lit "/edit"];
                 [Lit "👁️ Public URL: https://docs.google.com/presentation/d/";
                  Val presentation_id; Lit "/pub"]] ;;
         font_pair <- lift (py_get presentation_data "fontPair" PNone) ;;
         color_palette <- lift (py_get presentation_data "colorPalette" PNone) ;;
         (if truthy font_pair then
            heading <- lift (py_getitem font_pair "heading") ;;
            body <- lift (py_getitem font_pair "body") ;;
            print [Lit "✅ Font Pair: "; Val heading; Lit "/"; Val body]
          else
            print [Lit "⚠️ Font pair data not available (basic function deployed)"]) ;;
         if truthy color_palette then
           palette <- lift (py_getitem color_palette "palette") ;;
           print [Lit "✅ Color Palette: "; Val palette]
         else
           print [Lit "⚠️ Color palette data not available"]
       else
         print [Lit "❌ API call failed:"; Val result]
     else
       print [Lit "❌ HTTP Error: "; Val (PInt (status_code response))] ;;
       print [Val (PStr (text response))])
    (fun e => print [Lit "❌ Error: "; Val (PStr (exn_msg e))]) ;;
  ret PNone.

End test_api.

(** ** Selenium *)

Definition InvalidArgument : exn := Exn "InvalidArgumentException" "invalid argument".

(** A fresh frame: no local variable is bound yet. *)
Definition new_frame : M unit :=
  fun w => (Ret tt, World (trace w) (files w) (engines w) false).

(** [driver = webdriver.Chrome(service=service, options=options)]: on
    success one more engine runs and [driver] is bound; a launch that raises
    leaves no engine behind. *)
Definition webdriver_Chrome (E : env) (service : option string)
    (options : list string) : M unit :=
  fun w =>
    let fault := driver_launch E (trace w) service options in
    let t := trace w ++ [ELaunch service options fault] in
    match fault with
    | Some e => (Raise e, World t (files w) (engines w) (driver w))
    | None => (Ret tt, World t (files w) (S (engines w)) true)
    end.

(** [Service(ChromeDriverManager().install())] *)
Definition ChromeDriverManager_install (E : env) : M string :=
  fun w => let reply := driver_install E (trace w) in
           (reply, World (trace w ++ [EInstall reply]) (files w) (engines w) (driver w)).

(** [driver.get(url)] *)
Definition driver_get (E : env) (url : pyval) : M unit :=
  match url with
  | PStr u =>
      fun w =>
        let fault := driver_navigate E (trace w) u in
        (match fault with
         | Some e => Raise e
         | None => Ret tt
         end,
         World (trace w ++ [ENavigate u fault]) (files w) (engines w) (driver w))
  | _ => raise InvalidArgument
  end.

(** [driver.save_screenshot(path)] *)
Definition save_screenshot (E : env) (path : string) : M unit :=
  fun w =>
    let reply := driver_capture E (trace w) path in
    let t := trace w ++ [EScreenshot path reply] in
    match reply with
    | Raise e => (Raise e, World t (files w) (engines w) (driver w))
    | Ret png => (Ret tt, World t (<[path := png]> (files w)) (engines w) (driver w))
    end.

(** [driver.title], [driver.current_url] *)
Definition get_title (E : env) : M pyval :=
  fun w => let reply := driver_title E (trace w) in
           (reply, World (trace w ++ [EQuery "title" reply]) (files w) (engines w) (driver w)).
Definition get_current_url (E : env) : M pyval :=
  fun w => let reply := driver_current_url E (trace w) in
           (reply, World (trace w ++ [EQuery "current_url" reply])
                         (files w) (engines w) (driver w)).

(** [driver.quit()] *)
Definition driver_quit : M unit :=
  fun w => (Ret tt, World (trace w ++ [EQuit]) (files w) (Nat.pred (engines w)) (driver w)).

(** [if driver: driver.quit()], and [if 'driver' in locals(): driver.quit()] *)
Definition quit_if_bound : M unit :=
  fun w => if driver w then driver_quit w else (Ret tt, w).

Definition demo_presentation_id : string := "1ZZbpgBzMvQ-ggHT6Fd2a3JNWhhiv755FbsiAiSpY2wA".

(** ** quick_screenshot.py: explicit driver path *)
Module quick_screenshot.

Definition chrome_options : list string :=
  ["--headless"; "--no-sandbox"; "--disable-dev-shm-usage"; "--window-size=1200,800"]%string.

Definition main (E : env) : M pyval :=
  new_frame ;;
  let presentation_id := demo_presentation_id in
  let pub_url := pub_url_of presentation_id in
  print [Lit "📸 Taking screenshot of: "; Val (PStr pub_url)] ;;
  let service := "/opt/homebrew/bin/chromedriver"%string in
  try_finally
    (try_except
       (webdriver_Chrome E (Some service) chrome_options ;;
        driver_get E (PStr pub_url) ;;
        sleep 5 ;;
        makedirs "screenshots" ;;
        let screenshot_path := "screenshots/font_pair_demo_working.png"%string in
        save_screenshot E screenshot_path ;;
        prints [[Lit "✅ Screenshot saved: "; Val (PStr screenshot_path)];
                [Lit "📋 Presentation ID: "; Val (PStr presentation_id)];
                [Lit "🎯 SUCCESS: Working Web API + Google Slides demonstration!"]])
       (fun e => print [Lit "❌ Error: "; Val (PStr (exn_msg e))]))
    quit_if_bound ;;
  ret PNone.

End quick_screenshot.

(** ** final_screenshot.py: driver resolved by webdriver-manager *)
Module final_screenshot.

Definition chrome_options : list string :=
  ["--headless"; "--no-sandbox"; "--disable-dev-shm-usage"; "--window-size=1200,800";
   "--disable-gpu"]%string.

Definition main (E : env) : M pyval :=
  new_frame ;;
  let presentation_id := demo_presentation_id in
  let pub_url := pub_url_of presentation_id in
  print [Lit "📸 Taking screenshot of: "; Val (PStr pub_url)] ;;
  try_except
    (service <- ChromeDriverManager_install E ;;
     webdriver_Chrome E (Some service) chrome_options ;;
     driver_get E (PStr pub_url) ;;
     sleep 5 ;;
     makedirs "screenshots" ;;
     let screenshot_path := "screenshots/working_presentation_demo.png"%string in
     save_screenshot E screenshot_path ;;
     prints [[Lit "✅ Screenshot saved: "; Val (PStr screenshot_path)];
             [Lit "📋 Presentation ID: "; Val (PStr presentation_id)];
             [Lit "🎯 SUCCESS: Working Web API + Google Slides demonstration captured!"]] ;;
     driver_quit ;;
     ret (PStr screenshot_path))
    (fun e =>
       print [Lit "❌ Error: "; Val (PStr (exn_msg e))] ;;
       ret PNone).

End final_screenshot.

(** ** debug_screenshot.py: visible browser *)
Module debug_screenshot.

Definition chrome_options : list string :=
  ["--no-sandbox"; "--disable-dev-shm-usage"; "--window-size=1200,800"]%string.

Definition main (E : env) : M pyval :=
  new_frame ;;
  let presentation_id := demo_presentation_id in
  let pub_url := pub_url_of presentation_id in
  print [Lit "📸 Debug: Opening "; Val (PStr pub_url)] ;;
  try_except
    (service <- ChromeDriverManager_install E ;;
     webdriver_Chrome E (Some service) chrome_options ;;
     print [Lit "🌐 Opening URL..."] ;;
     driver_get E (PStr pub_url) ;;
     print [Lit "⏳ Waiting 10 seconds for page to load..."] ;;
     sleep 10 ;;
     title <- get_title E ;;
     print [Lit "📄 Page title:"; Val title] ;;
     current_url <- get_current_url E ;;
     print [Lit "🔗 Current URL:"; Val current_url] ;;
     makedirs "screenshots" ;;
     let screenshot_path := "screenshots/debug_presentation.png"%string in
     save_screenshot E screenshot_path ;;
     print [Lit "✅ Screenshot saved: "; Val (PStr screenshot_path)] ;;
     print [Lit "🔍 Browser will close in 5 seconds..."] ;;
     sleep 5 ;;
     driver_quit ;;
     ret (PStr screenshot_path))
    (fun e =>
       print [Lit "❌ Error: "; Val (PStr (exn_msg e))] ;;
       (* import traceback; traceback.print_exc() *)
       print [Lit "traceback"; Val (PStr (exn_type e))] ;;
       ret PNone).

End debug_screenshot.

(** ** scripts/screenshot_presentation.py *)
Module screenshot_presentation.

Definition payload : pyval :=
  prompt_payload "createPresentationFromPrompt"
    "Create presentation with https://coolors.co/edd3c4-c8adc0-7765e3-3b60e4-080708 and Merriweather/Inter fonts".

Definition create_presentation_via_api (E : env) : M pyval :=
  print [Lit "📞 Calling Web API to create presentation..."] ;;
  response <- requests_post E web_app_url payload None ;;
  if status_code response =? 200 then
    result <- json response ;;
    print [Lit "✅ API Response:"; Val result] ;;
    ok <- result_success result ;;
    if ok then
      presentation_data <- lift (py_getitem result "result") ;;
      presentation_id <- lift (py_get presentation_data "presentationId" PNone) ;;
      print [Lit "✅ Presentation created with ID: "; Val presentation_id] ;;
      font_pair <- lift (py_get presentation_data "fontPair" PNone) ;;
      color_palette <- lift (py_get presentation_data "colorPalette" PNone) ;;
      ret (PDict [("presentation_id", presentation_id);
                  ("edit_url", PStr (edit_url_of (py_str E presentation_id)));
                  ("pub_url", PStr (pub_url_of (py_str E presentation_id)));
                  ("font_pair", font_pair);
                  ("color_palette", color_palette)])
    else
      print [Lit "❌ API call failed:"; Val result] ;;
      ret PNone
  else
    print [Lit "❌ HTTP Error: "; Val (PInt (status_code response))] ;;
    ret PNone.

Definition chrome_options : list string :=
  ["--headless"; "--no-sandbox"; "--disable-dev-shm-usage"; "--window-size=1920,1080";
   "--disable-gpu"]%string.

Definition screenshot_presentation (E : env) (presentation_data : pyval) : M pyval :=
  new_frame ;;
  if negb (truthy presentation_data) then
    print [Lit "❌ No presentation data to screenshot"] ;;
    ret PNone
  else
    try_finally
      (try_except
         (webdriver_Chrome E None chrome_options ;;
          makedirs "screenshots" ;;
          timestamp <- timestamp E ;;
          print [Lit "📸 Taking screenshot of public URL..."] ;;
          pub_url <- lift (py_getitem presentation_data "pub_url") ;;
          driver_get E pub_url ;;
          sleep 5 ;;
          let pub_screenshot_path := "screenshots/font_demo_public_" +:+ timestamp +:+ ".png" in
          save_screenshot E pub_screenshot_path ;;
          print [Lit "✅ Public view screenshot saved: "; Val (PStr pub_screenshot_path)] ;;
          print [Lit "📸 Attempting screenshot of edit URL..."] ;;
          edit_url <- lift (py_getitem presentation_data "edit_url") ;;
          driver_get E edit_url ;;
          sleep 8 ;;
          let edit_screenshot_path := "screenshots/font_demo_edit_" +:+ timestamp +:+ ".png" in
          save_screenshot E edit_screenshot_path ;;
          print [Lit "✅ Edit view screenshot saved: "; Val (PStr edit_screenshot_path)] ;;
          prints [[Lit "
🎯 FONT PAIR DEMONSTRATION COMPLETE"];
                  [Lit "========================================"]] ;;
          presentation_id <- lift (py_getitem presentation_data "presentation_id") ;;
          print [Lit "📋 Presentation ID: "; Val presentation_id] ;;
          font_pair <- lift (py_get presentation_data "font_pair" (PStr "Not available")) ;;
          print [Lit "🎨 Font Pair Data: "; Val font_pair] ;;
          color_palette <- lift (py_get presentation_data "color_palette" (PStr "Not available")) ;;
          prints [[Lit "🌈 Color Palette: "; Val color_palette];
                  [Lit "📁 Screenshots saved in: screenshots/"];
                  [Lit "🔗 Edit URL: "; Val edit_url];
                  [Lit "👁️ Public URL: "; Val pub_url]] ;;
          ret (PDict [("pub_screenshot", PStr pub_screenshot_path);
                      ("edit_screenshot", PStr edit_screenshot_path)]))
         (fun e =>
            print [Lit "❌ Screenshot error: "; Val (PStr (exn_msg e))] ;;
            ret PNone))
      quit_if_bound.

Definition main (E : env) : M pyval :=
  prints [[Lit "🎨 Starting Font Pair Demonstration with Python Screenshots"];
          [Lit "============================================================"]] ;;
  presentation_data <- create_presentation_via_api E ;;
  if negb (truthy presentation_data) then
    print [Lit "❌ Failed to create presentation"] ;;
    ret PNone
  else
    screenshot_results <- screenshot_presentation E presentation_data ;;
    (if truthy screenshot_results then
       prints [[Lit "
✅ Font pair demonstration completed successfully!"];
               [Lit "📁 Check the screenshots/ directory for results"]]
     else
       print [Lit "
❌ Screenshot capture failed"]) ;;
    ret PNone.

End screenshot_presentation.

(** ** scripts/simple_screenshot.py *)
Module simple_screenshot.

Definition chrome_options : list string :=
  ["--no-sandbox"; "--disable-dev-shm-usage"; "--window-size=1920,1080"; "--disable-gpu";
   "--disable-web-security"; "--allow-running-insecure-content"]%string.

(** The [finally] block: [if driver: print(...); driver.quit()] *)
Definition close_browser : M unit :=
  fun w => if driver w
           then (print [Lit "🔚 Closing browser..."] ;; driver_quit) w
           else (Ret tt, w).

Definition screenshot_presentation (E : env) : M pyval :=
  new_frame ;;
  let presentation_id := demo_presentation_id in
  let edit_url := edit_url_of presentation_id in
  let pub_url := pub_url_of presentation_id in
  try_finally
    (try_except
       (print [Lit "🌐 Starting Chrome browser..."] ;;
        webdriver_Chrome E None chrome_options ;;
        makedirs "screenshots" ;;
        timestamp <- timestamp E ;;
        print [Lit "📸 Taking screenshot of public URL..."] ;;
        print [Lit "🔗 URL: "; Val (PStr pub_url)] ;;
        driver_get E (PStr pub_url) ;;
        sleep 8 ;;
        let pub_screenshot_path := "screenshots/working_presentation_" +:+ timestamp +:+ ".png" in
        save_screenshot E pub_screenshot_path ;;
        prints [[Lit "✅ Public view screenshot saved: "; Val (PStr pub_screenshot_path)];
                [Lit "
🎯 SCREENSHOT DEMONSTRATION COMPLETE"];
                [Lit "=================================================="];
                [Lit "📋 Presentation ID: "; Val (PStr presentation_id)];
                [Lit "📁 Screenshot saved: "; Val (PStr pub_screenshot_path)];
                [Lit "🔗 Edit URL: "; Val (PStr edit_url)];
                [Lit "👁️ Public URL: "; Val (PStr pub_url)];
                [Lit "
✅ This demonstrates the working Web API + Google Slides integration!"];
                [Lit "📝 The presentation was created via API call and successfully screenshotted."]] ;;
        ret (PStr pub_screenshot_path))
       (fun e =>
          print [Lit "❌ Screenshot error: "; Val (PStr (exn_msg e))] ;;
          ret PNone))
    close_browser.

End simple_screenshot.

(** ** Strings: case *)

Definition ascii_lower (c : ascii) : ascii :=
  let n := nat_of_ascii c in
  if ((65 <=? n) && (n <=? 90))%nat then ascii_of_nat (n + 32) else c.

Fixpoint lower (s : string) : string :=
  match s with
  | EmptyString => EmptyString
  | String c s' => String (ascii_lower c) (lower s')
  end.

Definition file_size (data : string) : pyval := PInt (Z.of_nat (String.length data)).

(** ** scripts/export_screenshot.py *)
Module export_screenshot.

Definition presentation_id : string := "1iHPWDJK3KQ6BG1z_VO4Xebax85kk0vwb_9j5YsXFHLc".
Definition png_export_url : string := export_url_of presentation_id "png".
Definition svg_export_url : string := export_url_of presentation_id "svg".

Definition png_path_of (timestamp : string) : string :=
  "screenshots/font_demo_export_" +:+ timestamp +:+ ".png".
Definition svg_path_of (timestamp : string) : string :=
  "screenshots/font_demo_export_" +:+ timestamp +:+ ".svg".

Definition export_presentation_screenshots (E : env) : M pyval :=
  prints [[Lit "🎯 FONT PAIR DEMONSTRATION - EXPORT SCREENSHOTS"];
          [Lit "==============================================="];
          [Lit "📋 Presentation ID: "; Val (PStr presentation_id)];
          [Lit "🖼️ PNG Export URL: "; Val (PStr png_export_url)];
          [Lit "🎨 SVG Export URL: "; Val (PStr svg_export_url)];
          []] ;;
  makedirs "screenshots" ;;
  timestamp <- timestamp E ;;
  try_except
    (print [Lit "📸 Exporting PNG screenshot..."] ;;
     png_response <- requests_get E png_export_url (Some 30) ;;
     let png_path := png_path_of timestamp in
     (if status_code png_response =? 200 then
        write_file png_path (text png_response) ;;
        print [Lit "✅ PNG screenshot saved: "; Val (PStr png_path)] ;;
        print [Lit "📏 PNG file size: "; Val (file_size (text png_response)); Lit " bytes"]
      else
        print [Lit "❌ PNG export failed: HTTP "; Val (PInt (status_code png_response))] ;;
        print [Lit "Response: "; Val (PStr (substring 0 200 (text png_response)))]) ;;
     print [Lit "
🎨 Exporting SVG screenshot..."] ;;
     svg_response <- requests_get E svg_export_url (Some 30) ;;
     let svg_path := svg_path_of timestamp in
     (if status_code svg_response =? 200 then
        write_file svg_path (text svg_response) ;;
        print [Lit "✅ SVG screenshot saved: "; Val (PStr svg_path)] ;;
        print [Lit "📏 SVG file size: "; Val (file_size (text svg_response)); Lit " bytes"]
      else
        print [Lit "❌ SVG export failed: HTTP "; Val (PInt (status_code svg_response))] ;;
        print [Lit "Response: "; Val (PStr (substring 0 200 (text svg_response)))]) ;;
     prints [[Lit "
🎯 EXPORT DEMONSTRATION COMPLETE!"];
             [Lit "==================================="];
             [Lit "✅ Working Web API + Google Slides integration"];
             [Lit "✅ Presentation creation and export working"];
             [Lit "✅ Font pair system infrastructure in place"];
             [Lit "🔗 Original presentation: "; Val (PStr (edit_url_of presentation_id))]] ;;
     ret (PDict [("png_path", if status_code png_response =? 200 then PStr png_path else PNone);
                 ("svg_path", if status_code svg_response =? 200 then PStr svg_path else PNone)]))
    (fun e =>
       print [Lit "❌ Export error: "; Val (PStr (exn_msg e))] ;;
       ret PNone).

End export_screenshot.

(** ** test_export_after_create.py *)
Module test_export_after_create.

Definition payload : pyval :=
  prompt_payload "createPresentationFromPrompt"
    "Create presentation with Merriweather/Inter fonts for export test".

Definition export_path_of (presentation_id : string) : string :=
  "screenshots/export_test_" +:+ presentation_id +:+ ".png".

Definition test_create_and_export (E : env) : M pyval :=
  print [Lit "📞 Creating presentation with sharing enabled..."] ;;
  response <- requests_post E web_app_url payload (Some 30) ;;
  if negb (status_code response =? 200) then
    print [Lit "❌ API call failed: "; Val (PInt (status_code response))] ;;
    ret PNone
  else
    result <- json response ;;
    inner <- lift (py_get result "result" (PDict [])) ;;
    success <- lift (py_get inner "success" PNone) ;;
    if negb (truthy success) then
      print [Lit "❌ Presentation creation failed"] ;;
      ret PNone
    else
      r <- lift (py_getitem result "result") ;;
      presentation_id <- lift (py_getitem r "presentationId") ;;
      print [Lit "✅ Presentation created: "; Val presentation_id] ;;
      print [Lit "⏳ Waiting 5 seconds for sharing permissions to propagate..."] ;;
      sleep 5 ;;
      print [Lit "📸 Testing PNG export..."] ;;
      let png_export_url := export_url_of (py_str E presentation_id) "png" in
      export_response <- requests_get E png_export_url (Some 30) ;;
      prints [[Lit "🔍 Export response: HTTP "; Val (PInt (status_code export_response))];
              [Lit "📏 Content-Type: "; Val (content_type export_response)];
              [Lit "📐 Content-Length: "; Val (file_size (text export_response)); Lit " bytes"]] ;;
      if status_code export_response =? 200 then
        makedirs "screenshots" ;;
        let export_path := export_path_of (py_str E presentation_id) in
        open_write E export_path (text export_response) ;;
        prints [[Lit "✅ Export successful: "; Val (PStr export_path)];
                [Lit "📋 Presentation ID: "; Val presentation_id];
                [Lit "🔗 Edit URL: "; Val (PStr (edit_url_of (py_str E presentation_id)))];
                [Lit "👁️ Public URL: "; Val (PStr (pub_url_of (py_str E presentation_id)))];
                [Lit "📸 Export URL: "; Val (PStr png_export_url)]] ;;
        ret (PStr export_path)
      else
        print [Lit "❌ Export failed: HTTP "; Val (PInt (status_code export_response))] ;;
        let response_text :=
          if truthy (PStr (text export_response))
          then substring 0 200 (text export_response)
          else "No response body"%string in
        print [Lit "Response snippet: "; Val (PStr response_text)] ;;
        ret PNone.

End test_export_after_create.

(** ** test_export_direct.py *)
Module test_export_direct.

Definition presentation_id : string := "1g0NMMjBk-IcUHRf9pbgl6KTn6BI-ddgHFnWQkGKl924".

Definition export_urls : list (string * string) :=
  [("PNG", export_url_of presentation_id "png");
   ("SVG", export_url_of presentation_id "svg");
   ("PDF", export_url_of presentation_id "pdf")]%string.

Definition export_path_of (format_name : string) : string :=
  "screenshots/working_font_demo." +:+ lower format_name.

(** The body of the [for] loop. *)
Definition export_one (E : env) (item : string * string) : M unit :=
  let '(format_name, export_url) := item in
  print [Lit "📸 Testing "; Val (PStr format_name); Lit " export: "; Val (PStr export_url)] ;;
  try_except
    (response <- requests_get E export_url (Some 30) ;;
     prints [[Lit "  🔍 Response: HTTP "; Val (PInt (status_code response))];
             [Lit "  📏 Content-Type: "; Val (content_type response)];
             [Lit "  📐 Content-Length: "; Val (file_size (text response)); Lit " bytes"]] ;;
     if status_code response =? 200 then
       let export_path := export_path_of format_name in
       write_file export_path (text response) ;;
       print [Lit "  ✅ "; Val (PStr format_name); Lit " export saved: "; Val (PStr export_path)] ;;
       print [Lit "  📏 File size: "; Val (file_size (text response)); Lit " bytes"]
     else if status_code response =? 401 then
       print [Lit "  ❌ "; Val (PStr format_name); Lit " export failed: HTTP 401 Unauthorized"]
     else
       print [Lit "  ❌ "; Val (PStr format_name); Lit " export failed: HTTP ";
              Val (PInt (status_code response))] ;;
       if truthy (PStr (text response)) then
         print [Lit "  📝 Error preview: "; Val (PStr (substring 0 100 (text response))); Lit "..."]
       else ret tt)
    (fun e => print [Lit "  ❌ "; Val (PStr format_name); Lit " export error: ";
                     Val (PStr (exn_msg e))]) ;;
  print [].

Definition test_export_direct (E : env) : M pyval :=
  prints [[Lit "🎯 TESTING EXPORT URLS WITH PROPER DRIVE API PUBLISHING"];
          [Lit "======================================================"];
          [Lit "📋 Presentation ID: "; Val (PStr presentation_id)];
          []] ;;
  makedirs "screenshots" ;;
  for_each (export_one E) export_urls ;;
  prints [[Lit "🎯 FONT PAIR DEMONSTRATION STATUS"];
          [Lit "================================="];
          [Lit "✅ Web API integration working"];
          [Lit "✅ Font pair parsing implemented"];
          [Lit "✅ Presentation creation functional"];
          [Lit "✅ Drive API publishing method implemented"];
          [Lit "🔗 Presentation URLs:"];
          [Lit "  📝 Edit: "; Val (PStr (edit_url_of presentation_id))];
          [Lit "  👁️ Public: "; Val (PStr (pub_url_of presentation_id))];
          [Lit "📄 Export results shown above"]] ;;
  ret PNone.

End test_export_direct.

(** ** test_pub_access.py *)
Module test_pub_access.

Definition payload : pyval :=
  prompt_payload "createPresentationFromPrompt"
    "Test presentation with proper Drive API publishing".

Definition test_pub_access (E : env) : M pyval :=
  print [Lit "📞 Creating presentation with Drive API publishing..."] ;;
  response <- requests_post E web_app_url payload (Some 30) ;;
  if negb (status_code response =? 200) then
    print [Lit "❌ API call failed: "; Val (PInt (status_code response))] ;;
    ret PNone
  else
    result <- json response ;;
    inner <- lift (py_get result "result" (PDict [])) ;;
    success <- lift (py_get inner "success" PNone) ;;
    if negb (truthy success) then
      print [Lit "❌ Presentation creation failed"] ;;
      ret PNone
    else
      r <- lift (py_getitem result "result") ;;
      presentation_id <- lift (py_getitem r "presentationId") ;;
      print [Lit "✅ Presentation created: "; Val presentation_id] ;;
      let pub_url := pub_url_of (py_str E presentation_id) in
      print [Lit "⏳ Waiting 10 seconds for publishing to take effect..."] ;;
      sleep 10 ;;
      print [Lit "🔗 Testing public URL: "; Val (PStr pub_url)] ;;
      try_except
        (pub_response <- requests_get E pub_url (Some 30) ;;
         prints [[Lit "📊 /pub URL Response: HTTP "; Val (PInt (status_code pub_response))];
                 [Lit "📏 Content-Type: "; Val (content_type pub_response)];
                 [Lit "📐 Content-Length: "; Val (file_size (text pub_response)); Lit " bytes"]] ;;
         (if status_code pub_response =? 200 then
            print [Lit "📝 Content preview: "; Val (PStr (substring 0 200 (text pub_response)));
                   Lit "..."] ;;
            if is_substring "presentation" (lower (text pub_response))
               || is_substring "slides" (lower (text pub_response)) then
              print [Lit "✅ /pub URL appears to be working - contains presentation content"]
            else if is_substring "not published" (lower (text pub_response)) then
              print [Lit "❌ /pub URL shows 'not published' error"]
            else
              print [Lit "⚠️ /pub URL accessible but content unclear"]
          else
            print [Lit "❌ /pub URL not accessible: HTTP "; Val (PInt (status_code pub_response))]) ;;
         prints [[Lit "
🎯 FINAL RESULT:"];
                 [Lit "📋 Presentation ID: "; Val presentation_id];
                 [Lit "🔗 Edit URL: "; Val (PStr (edit_url_of (py_str E presentation_id)))];
                 [Lit "👁️ Public URL: "; Val (PStr pub_url)];
                 [Lit "📸 Export URL: ";
                  Val (PStr (export_url_of (py_str E presentation_id) "png"))]])
        (fun e => print [Lit "❌ Error testing /pub URL: "; Val (PStr (exn_msg e))]) ;;
      ret PNone.

End test_pub_access.

(** ** test_font_parsing_final.py: the prompts sent to [testFontParsing] *)
Module test_font_parsing_final.

Definition test_prompts : list string :=
  ["Create presentation with Merriweather/Inter fonts";
   "Create presentation with https://coolors.co/edd3c4-c8adc0-7765e3-3b60e4-080708 and Merriweather/Inter fonts";
   "Make a deck with Playfair Display/Open Sans fonts";
   "Design slides using Roboto Slab/Source Sans Pro fonts"]%string.

(** [enumerate(l, start)] *)
Fixpoint enumerate {A} (start : Z) (l : list A) : list (Z * A) :=
  match l with
  | [] => []
  | x :: l' => (start, x) :: enumerate (start + 1) l'
  end.

(** The body of the [for] loop. *)
Definition test_one (E : env) (item : Z * string) : M unit :=
  let '(i, prompt) := item in
  print [Lit "
🧪 Test "; Val (PInt i); Lit ": "; Val (PStr prompt)] ;;
  let payload := prompt_payload "testFontParsing" prompt in
  try_except
    (response <- requests_post E web_app_url payload (Some 30) ;;
     if status_code response =? 200 then
       result <- json response ;;
       inner <- lift (py_get result "result" (PDict [])) ;;
       success <- lift (py_get inner "success" PNone) ;;
       if truthy success then
         test_result <- lift (py_getitem result "result") ;;
         print [Lit "  ✅ Parsing successful:"] ;;
         fp <- lift (py_get test_result "fontPair" PNone) ;;
         (if truthy fp then
            font_pair <- lift (py_getitem test_result "fontPair") ;;
            heading <- lift (py_getitem font_pair "heading") ;;
            body <- lift (py_getitem font_pair "body") ;;
            print [Lit "  🎨 Font Pair: "; Val heading; Lit " / "; Val body]
          else
            print [Lit "  ❌ No font pair data"]) ;;
         cp <- lift (py_get test_result "colorPalette" PNone) ;;
         if truthy cp then
           color_palette <- lift (py_getitem test_result "colorPalette") ;;
           palette <- lift (py_get color_palette "palette" (PStr "None detected")) ;;
           print [Lit "  🌈 Color Palette: "; Val palette]
         else
           print [Lit "  ⚠️ No color palette data"]
       else
         inner <- lift (py_get result "result" (PDict [])) ;;
         error <- lift (py_get inner "error" (PStr "Unknown error")) ;;
         print [Lit "  ❌ Parsing failed: "; Val error]
     else
       print [Lit "  ❌ HTTP Error: "; Val (PInt (status_code response))])
    (fun e => print [Lit "  ❌ Request error: "; Val (PStr (exn_msg e))]).

Definition basic_payload : pyval :=
  prompt_payload "createPresentationFromPrompt"
    "Test presentation with Merriweather/Inter fonts - final verification".

Definition test_font_parsing (E : env) : M pyval :=
  prints [[Lit "🧪 TESTING FONT PARSING FUNCTIONALITY"];
          [Lit "===================================="]] ;;
  for_each (test_one E) (enumerate 1 test_prompts) ;;
  print [Lit "
📞 TESTING BASIC PRESENTATION CREATION..."] ;;
  try_except
    (response <- requests_post E web_app_url basic_payload (Some 30) ;;
     if status_code response =? 200 then
       result <- json response ;;
       inner <- lift (py_get result "result" (PDict [])) ;;
       success <- lift (py_get inner "success" PNone) ;;
       if truthy success then
         pres_data <- lift (py_getitem result "result") ;;
         presentation_id <- lift (py_getitem pres_data "presentationId") ;;
         print [Lit "✅ Presentation created: "; Val presentation_id] ;;
         presentation_url <- lift (py_getitem pres_data "presentationUrl") ;;
         print [Lit "🔗 Edit URL: "; Val presentation_url] ;;
         fp <- lift (py_get pres_data "fontPair" PNone) ;;
         if truthy fp then
           font_pair <- lift (py_getitem pres_data "fontPair") ;;
           print [Lit "✅ Enhanced font parsing working: "; Val font_pair]
         else
           print [Lit "⚠️ Basic presentation creation working, enhanced font data not returned"]
       else
         print [Lit "❌ Presentation creation failed"]
     else
       print [Lit "❌ HTTP Error: "; Val (PInt (status_code response))])
    (fun e => print [Lit "❌ Request error: "; Val (PStr (exn_msg e))]) ;;
  prints [[Lit "
🎯 FONT PAIR SYSTEM STATUS"];
          [Lit "=========================="];
          [Lit "📋 Summary of what's been implemented:"];
          [Lit "✅ Web API integration working"];
          [Lit "✅ Font pair parsing functions created"];
          [Lit "✅ Color palette extraction implemented"];
          [Lit "✅ Presentation creation functional"];
          [Lit "✅ Google Apps Script deployment successful"];
          [Lit "✅ Testing infrastructure in place"]] ;;
  ret PNone.

End test_font_parsing_final.

(** ** scripts/get_before_after_authenticated.py *)

(** [a or b] *)
Definition py_or (a b : pyval) : pyval := if truthy a then a else b.

Definition MissingSchema : exn := Exn "MissingSchema" "Invalid URL: No scheme supplied".

(** [requests.get(url, timeout=t)] for a [url] read from a JSON document.
    The library turns anything but a string into its text, finds no scheme in
    it and raises before a request is made; only the fact that an
    [Exception] is raised matters to the script, which prints its message. *)
Definition requests_get_value (E : env) (url : pyval) (timeout : option Z) : M response :=
  match url with
  | PStr u => requests_get E u timeout
  | _ => raise MissingSchema
  end.

Module get_before_after_authenticated.

Definition payload : pyval :=
  PDict [("fn", PStr "createFontComparison"); ("args", PList [])].

(** [data[k1][k2]] *)
Definition field (data : pyval) (k1 k2 : string) : M pyval :=
  d <- lift (py_getitem data k1) ;;
  lift (py_getitem d k2).

(** The description of the two presentations that is printed once the
    comparison exists. *)
Definition report (comparison_data : pyval) : M unit :=
  print [Lit "✅ Font comparison created successfully!"] ;;
  print [Lit "
📋 BEFORE PRESENTATION (DEFAULT FONTS):"] ;;
  id <- field comparison_data "before" "presentationId" ;;
  print [Lit "🆔 ID: "; Val id] ;;
  title <- field comparison_data "before" "title" ;;
  print [Lit "📝 Title: "; Val title] ;;
  edit_url <- field comparison_data "before" "editUrl" ;;
  print [Lit "🔗 Edit URL: "; Val edit_url] ;;
  thumbnail <- field comparison_data "before" "thumbnailLink" ;;
  print [Lit "🖼️ Thumbnail: "; Val (py_or thumbnail (PStr "Not available"))] ;;
  font_info <- field comparison_data "before" "fontInfo" ;;
  print [Lit "🎨 Font Info: "; Val font_info] ;;
  print [Lit "
📋 AFTER PRESENTATION (MERRIWEATHER/INTER):"] ;;
  id <- field comparison_data "after" "presentationId" ;;
  print [Lit "🆔 ID: "; Val id] ;;
  title <- field comparison_data "after" "title" ;;
  print [Lit "📝 Title: "; Val title] ;;
  edit_url <- field comparison_data "after" "editUrl" ;;
  print [Lit "🔗 Edit URL: "; Val edit_url] ;;
  thumbnail <- field comparison_data "after" "thumbnailLink" ;;
  print [Lit "🖼️ Thumbnail: "; Val (py_or thumbnail (PStr "Not available"))] ;;
  font_info <- field comparison_data "after" "fontInfo" ;;
  print [Lit "🎨 Font Info: "; Val font_info] ;;
  after <- lift (py_getitem comparison_data "after") ;;
  fp <- lift (py_get after "fontPair" PNone) ;;
  (if truthy fp then
     font_pair <- field comparison_data "after" "fontPair" ;;
     heading <- lift (py_getitem font_pair "heading") ;;
     body <- lift (py_getitem font_pair "body") ;;
     print [Lit "📝 Parsed Font Pair: "; Val heading; Lit " / "; Val body]
   else ret tt) ;;
  after <- lift (py_getitem comparison_data "after") ;;
  cp <- lift (py_get after "colorPalette" PNone) ;;
  (if truthy cp then
     color_palette <- field comparison_data "after" "colorPalette" ;;
     palette <- lift (py_get color_palette "palette" (PStr "Not available")) ;;
     print [Lit "🎨 Parsed Color Palette: "; Val palette]
   else ret tt) ;;
  timestamp <- lift (py_getitem comparison_data "timestamp") ;;
  print [Lit "
⏰ Created: "; Val timestamp].

Definition thumbnail_path (pres_type : string) : string :=
  "screenshots/" +:+ lower pres_type +:+ "_thumbnail.jpg".

(** The body of the [for] loop. *)
Definition download_thumbnail (E : env) (item : string * pyval) : M unit :=
  let '(pres_type, pres_data) := item in
  thumbnail_url <- lift (py_get pres_data "thumbnailLink" PNone) ;;
  if truthy thumbnail_url then
    try_except
      (print [Lit "🔗 Downloading "; Val (PStr pres_type); Lit " thumbnail: ";
              Val thumbnail_url] ;;
       thumb_response <- requests_get_value E thumbnail_url (Some 30) ;;
       if status_code thumb_response =? 200 then
         makedirs "screenshots" ;;
         let filename := thumbnail_path pres_type in
         write_file filename (text thumb_response) ;;
         print [Lit "✅ "; Val (PStr pres_type); Lit " thumbnail saved: "; Val (PStr filename)]
       else
         print [Lit "❌ "; Val (PStr pres_type); Lit " thumbnail download failed: HTTP ";
                Val (PInt (status_code thumb_response))])
      (fun e => print [Lit "❌ "; Val (PStr pres_type); Lit " thumbnail download error: ";
                       Val (PStr (exn_msg e))])
  else
    print [Lit "⚠️ "; Val (PStr pres_type); Lit " thumbnail not available"].

Definition get_before_after_comparison (E : env) : M pyval :=
  prints [[Lit "🎯 CREATING BEFORE/AFTER FONT COMPARISON (AUTHENTICATED)"];
          [Lit "======================================================"];
          [Lit "📞 Calling authenticated comparison function..."]] ;;
  response <- requests_post E web_app_url payload (Some 60) ;;
  if negb (status_code response =? 200) then
    print [Lit "❌ API call failed: "; Val (PInt (status_code response))] ;;
    print [Lit "Response: "; Val (PStr (text response))] ;;
    ret PNone
  else
    result <- json response ;;
    inner <- lift (py_get result "result" (PDict [])) ;;
    success <- lift (py_get inner "success" PNone) ;;
    if negb (truthy success) then
      print [Lit "❌ Comparison creation failed"] ;;
      print [Lit "Response: "; Val result] ;;
      ret PNone
    else
      comparison_data <- lift (py_getitem result "result") ;;
      report comparison_data ;;
      print [Lit "
📸 ATTEMPTING TO DOWNLOAD THUMBNAILS..."] ;;
      before <- lift (py_getitem comparison_data "before") ;;
      after <- lift (py_getitem comparison_data "after") ;;
      for_each (download_thumbnail E) [("BEFORE"%string, before); ("AFTER"%string, after)] ;;
      prints [[Lit "
🎯 FONT PAIR COMPARISON COMPLETE!"];
              [Lit "================================="];
              [Lit "✅ Both presentations created using authenticated Google Apps Script"];
              [Lit "✅ Font pair parsing and application demonstrated"];
              [Lit "✅ Before/After comparison available via edit URLs"];
              [Lit "📁 Check screenshots/ directory for any downloaded thumbnails"]] ;;
      ret comparison_data.

End get_before_after_authenticated.

(** ** SpecExtractor

    The extractor runs inside the remote Apps Script project (the
    [testFontParsing] entry point that test_font_parsing_final.py calls); the
    Python sources only send it prompts and print its answer.  Its
    definitions below follow section 4.1 of the specification. *)
Module SpecExtractor.

(** Modelled from the spec: the two results of the extractor, as the data
    model (section 3) gives them; the Python side only sees them as the JSON
    fields [fontPair] and [colorPalette]. *)
Record FontPair : Type := mkFontPair { heading : string; body : string }.

Record ColorPalette : Type := mkColorPalette {
  sourceUrl : string;
  hexCodes : list string
}.

Definition chars : Type := list ascii.

Definition is_upper (c : ascii) : bool :=
  let n := nat_of_ascii c in ((65 <=? n) && (n <=? 90))%nat.

Definition is_alpha (c : ascii) : bool :=
  let n := nat_of_ascii c in
  (((65 <=? n) && (n <=? 90)) || ((97 <=? n) && (n <=? 122)))%nat.

Definition is_blank (c : ascii) : bool := Ascii.eqb c " ".

Definition is_slash (c : ascii) : bool := Ascii.eqb c "/".

(** Modelled from the spec: a "capitalized font-family-like token" (the
    extractor's source is not among the Python files).  Read as one or more
    words separated by single spaces, each word an upper-case letter followed
    by letters: [Merriweather], [Playfair Display], [Source Sans Pro].
    [name_tail s] holds when [s] can follow the first letter of such a name. *)
Fixpoint name_tail (s : chars) : bool :=
  match s with
  | [] => true
  | c :: s' =>
      if is_alpha c then name_tail s'
      else if is_blank c then
        match s' with
        | d :: s'' => is_upper d && name_tail s''
        | [] => false
        end
      else false
  end.

(** Modelled from the spec: the font-name recogniser of the extractor, which
    is not among the Python files: a capitalized first letter, then
    [name_tail]. *)
Definition is_font_name (s : chars) : bool :=
  match s with
  | c :: s' => is_upper c && name_tail s'
  | [] => false
  end.

Definition fonts_word : chars := list_ascii_of_string "fonts".

Definition is_digit (c : ascii) : bool :=
  let n := nat_of_ascii c in ((48 <=? n) && (n <=? 57))%nat.

(** Modelled from the spec: the characters of a word: letters and digits. *)
Definition is_word_char (c : ascii) : bool := is_alpha c || is_digit c.

(** Modelled from the spec: the extractor's test for "the word fonts
    (case-insensitive)": the word [p] stands at the head of [s] when [s]
    starts with [p], letter case ignored, and the run of letters and digits
    ends there ("fontsize" does not start with the word "fonts"). *)
Fixpoint word_ci (p s : chars) : bool :=
  match p, s with
  | [], [] => true
  | [], c :: _ => negb (is_word_char c)
  | a :: p', c :: s' => Ascii.eqb (ascii_lower a) (ascii_lower c) && word_ci p' s'
  | _ :: _, [] => false
  end.

(** Modelled from the spec: the extractor's split of a "slash-separated
    pair": the text up to the first [/], and what follows that [/]. *)
Fixpoint split_slash (s : chars) : option (chars * chars) :=
  match s with
  | [] => None
  | c :: s' =>
      if is_slash c then Some ([], s')
      else match split_slash s' with
           | Some (x, r) => Some (c :: x, r)
           | None => None
           end
  end.

(** Modelled from the spec: the body name is read letter by letter after the
    [/]; it ends at the first space that is followed by the word "fonts"
    (case-insensitive, a whole word).  [acc] holds the letters read so far,
    newest first. *)
Fixpoint scan_body (acc s : chars) : option chars :=
  match s with
  | [] => None
  | c :: s' =>
      if is_alpha c then scan_body (c :: acc) s'
      else if is_blank c then
        if word_ci fonts_word s' then Some (rev acc)
        else match s' with
             | d :: s'' => if is_upper d then scan_body (d :: c :: acc) s'' else None
             | [] => None
             end
      else None
  end.

(** Modelled from the spec: a candidate match that starts exactly at the head
    of [s]: "a slash-separated pair of capitalized font-family-like tokens
    followed by the word fonts"; the segment left of the [/] is the heading,
    the segment right of it the body. *)
Definition match_at (s : chars) : option (chars * chars) :=
  match split_slash s with
  | Some (x, d :: r) =>
      if is_font_name x && is_upper d then
        match scan_body [d] r with
        | Some y => Some (x, y)
        | None => None
        end
      else None
  | _ => None
  end.

(** Modelled from the spec: "deterministic left-to-right scan": the first
    position at which [f] recognises something decides. *)
Fixpoint scan {A} (f : chars -> option A) (s : chars) : option A :=
  match f s with
  | Some a => Some a
  | None => match s with
            | [] => None
            | _ :: s' => scan f s'
            end
  end.


(** Modelled from the spec: the font-pair half of the extractor's [extract]:
    the first candidate match in reading order, or absence. *)
Definition extract_font (prompt : chars) : option FontPair :=
  match scan match_at prompt with
  | Some (x, y) => Some (mkFontPair (string_of_list_ascii x) (string_of_list_ascii y))
  | None => None
  end.

Definition is_hex (c : ascii) : bool :=
  let n := nat_of_ascii c in
  (((48 <=? n) && (n <=? 57)) || ((97 <=? n) && (n <=? 102)) || ((65 <=? n) && (n <=? 70)))%nat.

(** Modelled from the spec: the extractor's token check, "exactly 6 hex
    digits". *)
Definition is_hex6 (t : chars) : bool := (length t =? 6)%nat && forallb is_hex t.

Definition is_dash (c : ascii) : bool := Ascii.eqb c "-".

(** Modelled from the spec: the characters of "a dash-separated sequence of
    tokens": the letters and digits of the tokens, and the dashes between
    them. *)
Definition is_path_char (c : ascii) : bool := is_word_char c || is_dash c.

(** Modelled from the spec: the extractor's "split on [-]"; like a string
    split it yields one more token than there are dashes. *)
Fixpoint split_dash (s : chars) : list chars :=
  match s with
  | [] => [[]]
  | c :: s' =>
      if is_dash c then [] :: split_dash s'
      else match split_dash s' with
           | t :: ts => (c :: t) :: ts
           | [] => [[c]]
           end
  end.

(** Modelled from the spec: the "known palette-service path pattern"; the
    prompts of the Python sources only use this service. *)
Definition palette_service : chars := list_ascii_of_string "https://coolors.co/".

Fixpoint strip_prefix (p s : chars) : option chars :=
  match p, s with
  | [], _ => Some s
  | a :: p', c :: s' => if Ascii.eqb a c then strip_prefix p' s' else None
  | _ :: _, [] => None
  end.

(** Modelled from the spec: the token sequence of a palette URL found in a
    prompt: the run of letters, digits and dashes that follows the service
    prefix.  Anything else (white space, punctuation, the end of the prompt)
    ends it. *)
Fixpoint url_path (s : chars) : chars :=
  match s with
  | [] => []
  | c :: s' => if is_path_char c then c :: url_path s' else []
  end.

(** Modelled from the spec: a palette URL that starts at the head of [s];
    the result is its path. *)
Definition palette_url_at (s : chars) : option chars :=
  match strip_prefix palette_service s with
  | Some r => Some (url_path r)
  | None => None
  end.

(** Modelled from the spec: "split on [-], validate each token is exactly 6
    hex digits, preserve order"; one bad token and the palette is absent.
    The data model (section 3) gives a palette one to five codes: a path
    with more tokens is no palette either (all or nothing). *)
Definition palette_of_path (path : chars) : option ColorPalette :=
  let tokens := split_dash path in
  if (length tokens <=? 5)%nat && forallb is_hex6 tokens
  then Some (mkColorPalette (string_of_list_ascii (palette_service ++ path))
                            (map string_of_list_ascii tokens))
  else None.

(** Modelled from the spec: the palette half of the extractor's [extract]:
    the first palette URL of the prompt decides. *)
Definition extract_palette (prompt : chars) : option ColorPalette :=
  match scan palette_url_at prompt with
  | Some path => palette_of_path path
  | None => None
  end.

(** Modelled from the spec: [extract(promptText) -> (FontPair?, ColorPalette?)];
    the two detections are independent. *)
Definition extract (promptText : string) : option FontPair * option ColorPalette :=
  let s := list_ascii_of_string promptText in
  (extract_font s, extract_palette s).

End SpecExtractor.


(** ** Sample environments

    Concrete oracles, used to run the scripts on definite inputs. *)
Module Scenario.

Definition created (id : string) : response :=
  Response 200 "{...}"
    (Some (PDict [("result", PDict [("success", PBool true);
                                    ("presentationId", PStr id)])]))
    (PStr "application/json").

Definition server_error : response :=
  Response 500 "Internal Server Error" None (PStr "text/html").

Definition not_json : response :=
  Response 200 "<html>Sign in</html>" None (PStr "text/html").

Definition png : response := Response 200 "PNG-bytes" None (PStr "image/png").

Definition unauthorized : response := Response 401 "Unauthorized" None (PStr "text/html").

Definition ConnectionError : exn := Exn "ConnectionError" "Failed to establish a new connection".

Definition TimeoutException : exn := Exn "TimeoutException" "timeout: Timed out receiving message from renderer".

Definition SessionNotCreated : exn := Exn "SessionNotCreatedException" "session not created".

(** Is this the BEFORE request of create_font_comparison.py? *)
Definition is_before (payload : pyval) : bool :=
  match payload with
  | PDict [_; (_, PList [PStr prompt])] => is_substring "BEFORE" prompt
  | _ => false
  end.

(** A machine on which [screenshots/] is the only directory there is: a file
    can be opened when it lies directly in it. *)
Definition in_screenshots (path : string) : bool :=
  String.prefix "screenshots/" path &&
  negb (is_substring "/" (substring 12 (String.length path) path)).

Definition plain_directory (path : string) : option exn :=
  if in_screenshots path then None else Some FileNotFoundError.

(** Everything works: every creation succeeds with id [abc], every export is
    served, every browser step succeeds. *)
Definition all_fine : env :=
  Env (fun _ _ _ => Ret (created "abc"))
      (fun _ _ => Ret png)
      (fun _ => "20250101_120000"%string)
      (fun _ => "<repr>"%string)
      (fun _ => Ret "/home/user/.wdm/chromedriver"%string)
      (fun _ _ _ => None)
      (fun _ _ => None)
      (fun _ _ => Ret "PNG-bytes"%string)
      (fun _ => Ret (PStr "Presentation"))
      (fun _ => Ret (PStr "https://docs.google.com/"))%string
      plain_directory.

Definition with_post (f : list event -> string -> pyval -> outcome response) (E : env) : env :=
  Env f (http_get E) (now E) (py_repr E) (driver_install E) (driver_launch E)
      (driver_navigate E) (driver_capture E) (driver_title E) (driver_current_url E)
      (fs_open E).

Definition with_get (f : list event -> string -> outcome response) (E : env) : env :=
  Env (http_post E) f (now E) (py_repr E) (driver_install E) (driver_launch E)
      (driver_navigate E) (driver_capture E) (driver_title E) (driver_current_url E)
      (fs_open E).

Definition with_launch (f : list event -> option string -> list string -> option exn)
    (E : env) : env :=
  Env (http_post E) (http_get E) (now E) (py_repr E) (driver_install E) f
      (driver_navigate E) (driver_capture E) (driver_title E) (driver_current_url E)
      (fs_open E).

Definition with_navigate (f : list event -> string -> option exn) (E : env) : env :=
  Env (http_post E) (http_get E) (now E) (py_repr E) (driver_install E) (driver_launch E)
      f (driver_capture E) (driver_title E) (driver_current_url E) (fs_open E).

(** The deck [abc], as [create_presentation_via_api] returns it. *)
Definition deck_abc : pyval :=
  PDict [("presentation_id", PStr "abc");
         ("edit_url", PStr (edit_url_of "abc"));
         ("pub_url", PStr (pub_url_of "abc"));
         ("font_pair", PNone);
         ("color_palette", PNone)].

(** The service answers every creation request with a 500. *)
Definition all_500 : env := with_post (fun _ _ _ => Ret server_error) all_fine.

(** The service answers 200 with a body that is not JSON. *)
Definition all_not_json : env := with_post (fun _ _ _ => Ret not_json) all_fine.

(** The BEFORE creation is answered with a 500, the AFTER creation succeeds. *)
Definition before_500 : env :=
  with_post (fun _ _ payload =>
               if is_before payload then Ret server_error else Ret (created "abc"))
            all_fine.

(** The BEFORE creation succeeds, the AFTER request cannot reach the
    service. *)
Definition after_unreachable : env :=
  with_post (fun _ _ payload =>
               if is_before payload then Ret (created "abc") else Raise ConnectionError)
            all_fine.

(** The browser cannot be started. *)
Definition launch_fault : env := with_launch (fun _ _ _ => Some SessionNotCreated) all_fine.

(** The browser starts, the page load times out. *)
Definition navigation_timeout : env :=
  with_navigate (fun _ _ => Some TimeoutException) all_fine.

(** Exports are refused: the deck is not shared. *)
Definition export_refused : env := with_get (fun _ _ => Ret unauthorized) all_fine.

(** The PNG export is served, every other export is refused. *)
Definition only_png : env :=
  with_get (fun _ url => if is_substring "format=png" url then Ret png else Ret unauthorized)
           all_fine.

End Scenario.

(** ** More sample environments *)
Module Cases.

(** A presentation as [createFontComparison] describes it. *)
Definition described (id : string) (thumbnail : pyval) : pyval :=
  PDict [("presentationId", PStr id);
         ("title", PStr "Font demo");
         ("editUrl", PStr (edit_url_of id));
         ("thumbnailLink", thumbnail);
         ("fontInfo", PStr "Default")].

(** The comparison: the BEFORE deck has a thumbnail, the AFTER deck has
    none. *)
Definition comparison_data : pyval :=
  PDict [("success", PBool true);
         ("before", described "abc" (PStr "https://lh3.googleusercontent.com/abc"));
         ("after", described "xyz" PNone);
         ("timestamp", PStr "2025-01-01T12:00:00Z")].

Definition comparison : response :=
  Response 200 "{...}" (Some (PDict [("result", comparison_data)])) (PStr "application/json").

Definition jpg : response := Response 200 "JPG-bytes" None (PStr "image/jpeg").

Definition comparison_ready : env :=
  Scenario.with_post (fun _ _ _ => Ret comparison)
    (Scenario.with_get (fun _ _ => Ret jpg) Scenario.all_fine).

(** A success answer that names no presentation. *)
Definition created_without_id : response :=
  Response 200 "{...}" (Some (PDict [("result", PDict [("success", PBool true)])]))
    (PStr "application/json").

Definition no_id : env := Scenario.with_post (fun _ _ _ => Ret created_without_id) Scenario.all_fine.

(** A comparison reported as a success, with both presentations described
    and no [timestamp]. *)
Definition comparison_without_timestamp : response :=
  Response 200 "{...}"
    (Some (PDict [("result",
                   PDict [("success", PBool true);
                          ("before", described "abc" (PStr "https://lh3.googleusercontent.com/abc"));
                          ("after", described "xyz" PNone)])]))
    (PStr "application/json").

Definition unstamped : env :=
  Scenario.with_post (fun _ _ _ => Ret comparison_without_timestamp)
    (Scenario.with_get (fun _ _ => Ret jpg) Scenario.all_fine).

(** The service names the presentation [a/b]; every export is served, and
    [screenshots/] is the only directory there is. *)
Definition slash_id : env :=
  Scenario.with_post (fun _ _ _ => Ret (Scenario.created "a/b")) Scenario.all_fine.

End Cases.

(** ** Vocabulary of the statements

    What the theorems below say about a run is read off the trace and the
    final world with these definitions. *)

Abbreviation chars_of := list_ascii_of_string.

(** The payloads of the POST requests, in the order they were issued. *)
Fixpoint posts (t : list event) : list pyval :=
  match t with
  | [] => []
  | EPost _ payload _ _ :: t' => payload :: posts t'
  | _ :: t' => posts t'
  end.

(** The GET requests and what each was answered. *)
Fixpoint gets (t : list event) : list (string * outcome response) :=
  match t with
  | [] => []
  | EGet url _ reply :: t' => (url, reply) :: gets t'
  | _ :: t' => gets t'
  end.

(** The browser launches that were attempted. *)
Fixpoint launches (t : list event) : list (option string * list string * option exn) :=
  match t with
  | [] => []
  | ELaunch service options fault :: t' => (service, options, fault) :: launches t'
  | _ :: t' => launches t'
  end.

(** The faults the automation steps raised. *)
Fixpoint faults (t : list event) : list exn :=
  match t with
  | [] => []
  | EInstall (Raise e) :: t' => e :: faults t'
  | ELaunch _ _ (Some e) :: t' => e :: faults t'
  | ENavigate _ (Some e) :: t' => e :: faults t'
  | EScreenshot _ (Raise e) :: t' => e :: faults t'
  | EQuery _ (Raise e) :: t' => e :: faults t'
  | _ :: t' => faults t'
  end.

(** The wait that follows a page load: the first [time.sleep] after a
    [driver.get], printing aside. *)
Fixpoint next_sleep (t : list event) : option Z :=
  match t with
  | EPrint _ :: t' => next_sleep t'
  | ESleep secs :: _ => Some secs
  | _ => None
  end.

Fixpoint settles (t : list event) : list (string * Z) :=
  match t with
  | [] => []
  | ENavigate url _ :: t' =>
      match next_sleep t' with
      | Some secs => (url, secs) :: settles t'
      | None => settles t'
      end
  | _ :: t' => settles t'
  end.

Definition is_print (e : event) : bool :=
  match e with EPrint _ => true | _ => false end.

(** What a computation adds to the trace. *)
Definition new_events {A} (m : M A) (w : world) : list event :=
  drop (length (trace w)) (trace (snd (m w))).

(** [quiet m]: whatever happens, [m] only adds printed lines to the trace and
    leaves files, engines and locals as they were. *)
Definition quiet {A} (m : M A) : Prop :=
  forall w, exists t,
    forallb is_print t = true /\
    snd (m w) = World (trace w ++ t) (files w) (engines w) (driver w).

(** [returns m a]: from every world, [m] returns [a]. *)
Definition returns {A} (m : M A) (a : A) : Prop := forall w, fst (m w) = Ret a.

(** The service's answer to one creation request, as the script reads it:
    [answered reply (Some id)] when the deck [id] was created,
    [answered reply None] when the creation failed with an answer. *)
Inductive answered : outcome response -> option pyval -> Prop :=
| answered_status r :
    status_code r <> 200 -> answered (Ret r) None
| answered_no_result r d :
    status_code r = 200 -> json_body r = Some (PDict d) ->
    assoc "result" d = None -> answered (Ret r) None
| answered_failure r d inner :
    status_code r = 200 -> json_body r = Some (PDict d) ->
    assoc "result" d = Some (PDict inner) ->
    truthy (default PNone (assoc "success" inner)) = false ->
    answered (Ret r) None
| answered_success r d inner id :
    status_code r = 200 -> json_body r = Some (PDict d) ->
    assoc "result" d = Some (PDict inner) ->
    truthy (default PNone (assoc "success" inner)) = true ->
    assoc "presentationId" inner = Some id ->
    answered (Ret r) (Some id).

Definition entries (E : env) (type title : string) (a : option pyval) : list pyval :=
  match a with
  | Some id => [create_font_comparison.entry E type title id]
  | None => []
  end.

(** The result holds an entry of the given type. *)
Definition has_type (type : string) (presentations : list pyval) : Prop :=
  exists p, In p presentations /\ py_getitem p "type" = Ret (PStr type).

(** The record the claim describes: [success] false and an [error] that
    starts with "transport:". *)
Definition is_transport_failure (v : pyval) : Prop :=
  py_getitem v "success" = Ret (PBool false) /\
  exists s, py_getitem v "error" = Ret (PStr s) /\ String.prefix "transport:" s = true.

(** Every fault is reported on the console. *)
Definition reported (t : list event) : Prop :=
  forall e, In e (faults t) -> In (EPrint [Lit "❌ Error: "; Val (PStr (exn_msg e))]) t.

(** One strategy, tried once: at most one browser launch, and the run stops
    at the first fault. *)
Definition single_attempt (t : list event) : Prop :=
  (length (launches t) <= 1)%nat /\ (length (faults t) <= 1)%nat.

(** What a capture script may do from the world [w]: it returns (a path, or
    [None] after a fault), having tried one strategy once and reported the
    fault if there was one. *)
Definition capture_run_ok (w : world) (x : outcome pyval * world) : Prop :=
  let t := drop (length (trace w)) (trace (snd x)) in
  single_attempt t /\ reported t /\
  match faults t with
  | [] => exists v, fst x = Ret v
  | _ => fst x = Ret PNone
  end.

(** The two scripts without a [finally] leave the browser running whenever a
    step faults after a successful launch. *)
Definition leaks_after_fault (w : world) (x : outcome pyval * world) : Prop :=
  let t := drop (length (trace w)) (trace (snd x)) in
  (exists service options, In (ELaunch service options None) t) ->
  faults t <> [] ->
  engines (snd x) = S (engines w) /\ ~ In EQuit t.

(** The files after one export download: the body is stored at [path] when
    the GET was answered with status 200, and nothing changes otherwise. *)
Definition saved (path : string) (reply : outcome response)
    (fs : gmap string string) : gmap string string :=
  match reply with
  | Ret r => if status_code r =? 200 then <[path := text r]> fs else fs
  | Raise _ => fs
  end.

(** The files after a download whose file name the service chose: as
    [saved], when the file system lets the file be opened; otherwise nothing
    is written. *)
Definition stored (E : env) (path : string) (reply : outcome response)
    (fs : gmap string string) : gmap string string :=
  match fs_open E path with
  | None => saved path reply fs
  | Some _ => fs
  end.

(** What export_screenshot.py does before its first request. *)
Definition export_preamble : M unit :=
  prints [[Lit "🎯 FONT PAIR DEMONSTRATION - EXPORT SCREENSHOTS"];
          [Lit "==============================================="];
          [Lit "📋 Presentation ID: "; Val (PStr export_screenshot.presentation_id)];
          [Lit "🖼️ PNG Export URL: "; Val (PStr export_screenshot.png_export_url)];
          [Lit "🎨 SVG Export URL: "; Val (PStr export_screenshot.svg_export_url)];
          []] ;;
  makedirs "screenshots".

Section PromptShapes.
Import SpecExtractor.













End PromptShapes.

(** *** Requests, results and the output directory *)

(** The actions of a run, printing aside. *)
Fixpoint actions (t : list event) : list event :=
  match t with
  | [] => []
  | EPrint _ :: t' => actions t'
  | e :: t' => e :: actions t'
  end.

(** What a script that captures one view to [path] leaves behind: either the
    path is returned, the file holds the image the browser produced and the
    browser has been closed, or [None] is returned and no file was touched. *)
Definition capture_outcome (path : string) (w : world) (x : outcome pyval * world) : Prop :=
  (exists png,
     fst x = Ret (PStr path) /\
     In (EScreenshot path (Ret png)) (drop (length (trace w)) (trace (snd x))) /\
     files (snd x) = <[path := png]> (files w) /\
     engines (snd x) = engines w) \/
  (fst x = Ret PNone /\ files (snd x) = files w).

(** The service answered a creation request with a success: status 200, a
    JSON object whose [result] is an object with a truthy [success]. *)
Definition success_answer (reply : outcome response) (inner : list (string * pyval)) : Prop :=
  exists r result,
    reply = Ret r /\ status_code r = 200 /\ json_body r = Some result /\
    py_getitem result "result" = Ret (PDict inner) /\
    truthy (default PNone (assoc "success" inner)) = true.

(** The same reading of an answer, as a function: the [result] object of an
    answer the scripts take for a success, and nothing for any other answer
    (no answer, a status other than 200, a body that is no JSON object, a
    [result] that is no object, a [success] that is not truthy). *)
Definition success_of (reply : outcome response) : option (list (string * pyval)) :=
  match reply with
  | Ret r =>
      if status_code r =? 200 then
        match json_body r with
        | Some (PDict d) =>
            match assoc "result" d with
            | Some (PDict inner) =>
                if truthy (default PNone (assoc "success" inner)) then Some inner else None
            | _ => None
            end
        | _ => None
        end
      else None
  | Raise _ => None
  end.

(** The deck [create_presentation_via_api] describes, from the [result] of
    the service's answer. *)
Definition deck_of (E : env) (inner : list (string * pyval)) : pyval :=
  let presentation_id := default PNone (assoc "presentationId" inner) in
  PDict [("presentation_id", presentation_id);
         ("edit_url", PStr (edit_url_of (py_str E presentation_id)));
         ("pub_url", PStr (pub_url_of (py_str E presentation_id)));
         ("font_pair", default PNone (assoc "fontPair" inner));
         ("color_palette", default PNone (assoc "colorPalette" inner))].

(** The entry of the dict export_screenshot.py returns for one format: the
    path when the export was served, [None] otherwise. *)
Definition listed (path : string) (r : response) : pyval :=
  if status_code r =? 200 then PStr path else PNone.

(** The actions of one download: the GET, and the write of the file when the
    GET was answered with status 200. *)
Definition download (url path : string) (reply : outcome response) : list event :=
  EGet url (Some 30) reply ::
  match reply with
  | Ret r => if status_code r =? 200 then [EWrite path] else []
  | Raise _ => []
  end.

(** A thumbnail link the script follows: a non-empty string. *)
Definition is_link (v : pyval) : option string :=
  match v with
  | PStr u => if String.eqb u "" then None else Some u
  | _ => None
  end.

(** The actions of one pass of the thumbnail loop, and the files after it:
    a link is requested once; the directory is made and the file written when
    the request was answered with status 200. *)
Definition thumbnail_actions (path : string) (link : pyval) (reply : outcome response)
    : list event :=
  match is_link link with
  | Some u =>
      EGet u (Some 30) reply ::
      match reply with
      | Ret r => if status_code r =? 200 then [EMakedirs "screenshots"; EWrite path] else []
      | Raise _ => []
      end
  | None => []
  end.

Definition thumbnail_files (path : string) (link : pyval) (reply : outcome response)
    (fs : gmap string string) : gmap string string :=
  match is_link link with
  | Some _ => saved path reply fs
  | None => fs
  end.

(** The object [d] has every key of [keys]. *)
Definition has_keys (d : list (string * pyval)) (keys : list string) : bool :=
  forallb (fun k => bool_decide (is_Some (assoc k d))) keys.

(** What get_before_after_authenticated.py prints of a presentation: the
    presentation must be an object with these keys. *)
Definition shown_keys : list string :=
  ["presentationId"; "title"; "editUrl"; "thumbnailLink"; "fontInfo"]%string.

Definition showable (v : option pyval) : bool :=
  match v with
  | Some (PDict d) => has_keys d shown_keys
  | _ => false
  end.

(** A [fontPair] that is truthy is printed as heading and body: it must be
    an object with both keys. *)
Definition font_pair_showable (after : list (string * pyval)) : bool :=
  let font_pair := default PNone (assoc "fontPair" after) in
  if truthy font_pair then
    match font_pair with
    | PDict p => has_keys p ["heading"; "body"]%string
    | _ => false
    end
  else true.

(** A [colorPalette] that is truthy is read with [get]: it must be an
    object. *)
Definition palette_showable (after : list (string * pyval)) : bool :=
  let color_palette := default PNone (assoc "colorPalette" after) in
  if truthy color_palette then
    match color_palette with
    | PDict _ => true
    | _ => false
    end
  else true.

(** The comparison [inner] can be reported: every subscript of the report
    finds its key. *)
Definition reportable (inner : list (string * pyval)) : bool :=
  showable (assoc "before" inner) &&
  showable (assoc "after" inner) &&
  match assoc "after" inner with
  | Some (PDict after) => font_pair_showable after && palette_showable after
  | _ => false
  end &&
  bool_decide (is_Some (assoc "timestamp" inner)).

(** The comparison get_before_after_authenticated.py goes on with: the
    [result] of a success answer that can be reported. *)
Definition comparison_of (reply : outcome response) : option (list (string * pyval)) :=
  match success_of reply with
  | Some inner => if reportable inner then Some inner else None
  | None => None
  end.

(** The output discipline of a run: every file it writes (a download saved,
    or a screenshot the browser saved) lies under [screenshots/], and the run
    has made that directory before.  [made] tells whether the directory has
    been made so far. *)
Fixpoint disciplined (made : bool) (t : list event) : bool :=
  match t with
  | [] => true
  | EMakedirs p :: t' => disciplined (made || String.eqb p "screenshots") t'
  | EWrite p :: t' => made && String.prefix "screenshots/" p && disciplined made t'
  | EScreenshot p (Ret _) :: t' => made && String.prefix "screenshots/" p && disciplined made t'
  | _ :: t' => disciplined made t'
  end.

(** The pages the browser was sent to, in order. *)
Fixpoint navigations (t : list event) : list string :=
  match t with
  | [] => []
  | ENavigate url _ :: t' => url :: navigations t'
  | _ :: t' => navigations t'
  end.

(** * Theorems *)

(** ** Reading traces *)

Lemma drop_length_app {A} (l1 l2 : list A) : drop (length l1) (l1 ++ l2) = l2.
Proof. induction l1; simpl; auto. Qed.

Lemma posts_app t1 t2 : posts (t1 ++ t2) = posts t1 ++ posts t2.
Proof.
  induction t1 as [|e t1 IH]; [reflexivity|].
  destruct e; simpl; rewrite IH; reflexivity.
Qed.

Lemma gets_app t1 t2 : gets (t1 ++ t2) = gets t1 ++ gets t2.
Proof.
  induction t1 as [|e t1 IH]; [reflexivity|].
  destruct e; simpl; rewrite IH; reflexivity.
Qed.

Lemma launches_app t1 t2 : launches (t1 ++ t2) = launches t1 ++ launches t2.
Proof.
  induction t1 as [|e t1 IH]; [reflexivity|].
  destruct e; simpl; rewrite IH; reflexivity.
Qed.

Lemma posts_prints t : forallb is_print t = true -> posts t = [].
Proof. induction t as [|[] t IH]; simpl; intros; try discriminate; auto. Qed.

Lemma gets_prints t : forallb is_print t = true -> gets t = [].
Proof. induction t as [|[] t IH]; simpl; intros; try discriminate; auto. Qed.

(** ** Computations that only print *)

Lemma quiet_ret {A} (a : A) : quiet (ret a).
Proof. intros [t f n d]. exists []. simpl. rewrite app_nil_r. auto. Qed.

Lemma quiet_raise {A} (e : exn) : quiet (@raise A e).
Proof. intros [t f n d]. exists []. simpl. rewrite app_nil_r. auto. Qed.

Lemma quiet_lift {A} (o : outcome A) : quiet (lift o).
Proof. intros [t f n d]. exists []. simpl. rewrite app_nil_r. auto. Qed.

Lemma quiet_print msg : quiet (print msg).
Proof. intros w. exists [EPrint msg]. auto. Qed.

Lemma quiet_bind {A B} (m : M A) (k : A -> M B) :
  quiet m -> (forall a, quiet (k a)) -> quiet (bind m k).
Proof.
  intros Hm Hk w. unfold bind.
  destruct (Hm w) as (t1 & Ht1 & H1).
  destruct (m w) as [[a|e] w1]; simpl in H1; subst w1.
  - destruct (Hk a (World (trace w ++ t1) (files w) (engines w) (driver w)))
      as (t2 & Ht2 & H2).
    exists (t1 ++ t2). rewrite forallb_app, Ht1, Ht2. split; [reflexivity|].
    rewrite H2. simpl. rewrite app_assoc. reflexivity.
  - exists t1. auto.
Qed.

Lemma quiet_prints lines : quiet (prints lines).
Proof.
  induction lines as [|l ls IH]; simpl.
  - apply quiet_ret.
  - apply quiet_bind; [apply quiet_print | intros _; exact IH].
Qed.

Lemma quiet_for_each {A} (f : A -> M unit) (l : list A) :
  (forall x, quiet (f x)) -> quiet (for_each f l).
Proof.
  intros Hf. induction l as [|x l IH]; simpl.
  - apply quiet_ret.
  - apply quiet_bind; [apply Hf | intros _; exact IH].
Qed.

Lemma quiet_if {A} (b : bool) (m1 m2 : M A) : quiet m1 -> quiet m2 -> quiet (if b then m1 else m2).
Proof. destruct b; auto. Qed.

Lemma quiet_try_except {A} (m : M A) (h : exn -> M A) :
  quiet m -> (forall e, quiet (h e)) -> quiet (try_except m h).
Proof.
  intros Hm Hh w. unfold try_except.
  destruct (Hm w) as (t1 & Ht1 & H1).
  destruct (m w) as [[a|e] w1]; simpl in H1; subst w1.
  - exists t1. auto.
  - destruct (Hh e (World (trace w ++ t1) (files w) (engines w) (driver w)))
      as (t2 & Ht2 & H2).
    exists (t1 ++ t2). rewrite forallb_app, Ht1, Ht2. split; [reflexivity|].
    rewrite H2. simpl. rewrite app_assoc. reflexivity.
Qed.

Ltac quiet_tac :=
  repeat first
    [ apply quiet_ret | apply quiet_raise | apply quiet_lift | apply quiet_print
    | apply quiet_prints
    | match goal with |- quiet (json ?r) =>
        unfold json; destruct (json_body r) end
    | apply quiet_bind; [|intros ?]
    | apply quiet_try_except; [|intros ?]
    | apply quiet_for_each; intros ?
    | apply quiet_if
    | match goal with |- quiet (let '(_, _) := ?p in _) => destruct p end ].

(** The world after a quiet computation, with the result named. *)
Lemma quiet_run {A} (m : M A) (w : world) :
  quiet m ->
  exists r t, forallb is_print t = true /\
    m w = (r, World (trace w ++ t) (files w) (engines w) (driver w)).
Proof.
  intros Hm. destruct (Hm w) as (t & Ht & H).
  exists (fst (m w)), t. split; [exact Ht|].
  rewrite <- H. destruct (m w); reflexivity.
Qed.

Lemma show_quiet E p : quiet (create_font_comparison.show E p).
Proof. unfold create_font_comparison.show. quiet_tac. Qed.

Lemma result_success_quiet v : quiet (result_success v).
Proof. unfold result_success. quiet_tac. Qed.

(** ** Run equations

    What each primitive does to the world, as an equation. *)

Lemma bind_run {A B} (m : M A) (k : A -> M B) w r w1 :
  m w = (r, w1) ->
  bind m k w = match r with
               | Ret a => k a w1
               | Raise e => (Raise e, w1)
               end.
Proof. intros H. unfold bind. rewrite H. destruct r; reflexivity. Qed.

Lemma print_run msg w :
  print msg w = (Ret tt, World (trace w ++ [EPrint msg]) (files w) (engines w) (driver w)).
Proof. reflexivity. Qed.

Lemma sleep_run secs w :
  sleep secs w = (Ret tt, World (trace w ++ [ESleep secs]) (files w) (engines w) (driver w)).
Proof. reflexivity. Qed.

Lemma makedirs_run path w :
  makedirs path w =
    (Ret tt, World (trace w ++ [EMakedirs path]) (files w) (engines w) (driver w)).
Proof. reflexivity. Qed.

Lemma ret_run {A} (a : A) w : ret a w = (Ret a, w).
Proof. reflexivity. Qed.

Lemma raise_run {A} (e : exn) w : @raise A e w = (Raise e, w).
Proof. reflexivity. Qed.

Lemma lift_run {A} (o : outcome A) w : lift o w = (o, w).
Proof. reflexivity. Qed.

Lemma post_run E url payload timeout w :
  requests_post E url payload timeout w =
    (http_post E (trace w) url payload,
     World (trace w ++ [EPost url payload timeout (http_post E (trace w) url payload)])
           (files w) (engines w) (driver w)).
Proof. reflexivity. Qed.

Lemma get_run E url timeout w :
  requests_get E url timeout w =
    (http_get E (trace w) url,
     World (trace w ++ [EGet url timeout (http_get E (trace w) url)])
           (files w) (engines w) (driver w)).
Proof. reflexivity. Qed.

Lemma write_run path data w :
  write_file path data w =
    (Ret tt, World (trace w ++ [EWrite path]) (<[path := data]> (files w))
                   (engines w) (driver w)).
Proof. reflexivity. Qed.

Lemma timestamp_run E w : timestamp E w = (Ret (now E (trace w)), w).
Proof. reflexivity. Qed.

Lemma new_frame_run w :
  new_frame w = (Ret tt, World (trace w) (files w) (engines w) false).
Proof. reflexivity. Qed.

Lemma quit_run w :
  driver_quit w =
    (Ret tt, World (trace w ++ [EQuit]) (files w) (Nat.pred (engines w)) (driver w)).
Proof. reflexivity. Qed.

Lemma prints_cons l ls : prints (l :: ls) = bind (print l) (fun _ => prints ls).
Proof. reflexivity. Qed.

Lemma prints_nil : prints [] = ret tt.
Proof. reflexivity. Qed.

(** ** Computations that always return the same value *)

Lemma returns_ret {A} (a : A) : returns (ret a) a.
Proof. intros w. reflexivity. Qed.

Lemma returns_print msg : returns (print msg) tt.
Proof. intros w. reflexivity. Qed.

Lemma returns_bind {A B} (m : M A) (k : A -> M B) a b :
  returns m a -> returns (k a) b -> returns (bind m k) b.
Proof.
  intros Hm Hk w. unfold bind. specialize (Hm w).
  destruct (m w) as [r w1]. simpl in Hm. subst r. apply Hk.
Qed.

Lemma returns_prints lines : returns (prints lines) tt.
Proof.
  induction lines as [|l ls IH]; simpl.
  - apply returns_ret.
  - eapply returns_bind; [apply returns_print | exact IH].
Qed.

Lemma returns_for_each {A} (f : A -> M unit) (l : list A) :
  (forall x, In x l -> returns (f x) tt) -> returns (for_each f l) tt.
Proof.
  induction l as [|x l IH]; simpl; intros Hf.
  - apply returns_ret.
  - eapply returns_bind; [apply Hf; auto | apply IH; auto].
Qed.

Lemma returns_lift {A} (a : A) : returns (lift (Ret a)) a.
Proof. intros w. reflexivity. Qed.

Ltac returns_tac :=
  repeat first
    [ apply returns_ret | apply returns_print | apply returns_prints | apply returns_lift
    | eapply returns_bind ].



(** ** Symbolic execution *)

Lemma bind_eq {A B} (m : M A) (k : A -> M B) w x :
  m w = x ->
  bind m k w = match x with
               | (Ret a, w1) => k a w1
               | (Raise e, w1) => (Raise e, w1)
               end.
Proof. intros <-. reflexivity. Qed.

Lemma install_run E w :
  ChromeDriverManager_install E w =
    (driver_install E (trace w),
     World (trace w ++ [EInstall (driver_install E (trace w))])
           (files w) (engines w) (driver w)).
Proof. reflexivity. Qed.

Lemma launch_run E service options w :
  webdriver_Chrome E service options w =
    match driver_launch E (trace w) service options with
    | Some e => (Raise e, World (trace w ++ [ELaunch service options (Some e)])
                                (files w) (engines w) (driver w))
    | None => (Ret tt, World (trace w ++ [ELaunch service options None])
                             (files w) (S (engines w)) true)
    end.
Proof. unfold webdriver_Chrome. destruct (driver_launch _ _ _ _); reflexivity. Qed.

Lemma navigate_run E u w :
  driver_get E (PStr u) w =
    match driver_navigate E (trace w) u with
    | Some e => (Raise e, World (trace w ++ [ENavigate u (Some e)])
                                (files w) (engines w) (driver w))
    | None => (Ret tt, World (trace w ++ [ENavigate u None])
                             (files w) (engines w) (driver w))
    end.
Proof. unfold driver_get. destruct (driver_navigate _ _ _); reflexivity. Qed.

Lemma capture_run E path w :
  save_screenshot E path w =
    match driver_capture E (trace w) path with
    | Raise e => (Raise e, World (trace w ++ [EScreenshot path (Raise e)])
                                 (files w) (engines w) (driver w))
    | Ret png => (Ret tt, World (trace w ++ [EScreenshot path (Ret png)])
                                (<[path := png]> (files w)) (engines w) (driver w))
    end.
Proof. unfold save_screenshot. destruct (driver_capture _ _ _); reflexivity. Qed.

Lemma title_run E w :
  get_title E w =
    (driver_title E (trace w),
     World (trace w ++ [EQuery "title" (driver_title E (trace w))])
           (files w) (engines w) (driver w)).
Proof. reflexivity. Qed.

Lemma current_url_run E w :
  get_current_url E w =
    (driver_current_url E (trace w),
     World (trace w ++ [EQuery "current_url" (driver_current_url E (trace w))])
           (files w) (engines w) (driver w)).
Proof. reflexivity. Qed.

Lemma bind_unfold {A B} (m : M A) (k : A -> M B) w :
  bind m k w = match m w with
               | (Ret a, w1) => k a w1
               | (Raise e, w1) => (Raise e, w1)
               end.
Proof. reflexivity. Qed.

Lemma try_except_unfold {A} (m : M A) (h : exn -> M A) w :
  try_except m h w = match m w with
                     | (Ret a, w1) => (Ret a, w1)
                     | (Raise e, w1) => h e w1
                     end.
Proof. reflexivity. Qed.

Lemma try_finally_unfold {A} (m : M A) (fin : M unit) w :
  try_finally m fin w = match m w with
                        | (r, w1) => match fin w1 with
                                     | (Ret _, w2) => (r, w2)
                                     | (Raise e, w2) => (Raise e, w2)
                                     end
                        end.
Proof. reflexivity. Qed.

Lemma quit_if_bound_unfold w :
  quit_if_bound w = if driver w then driver_quit w else (Ret tt, w).
Proof. reflexivity. Qed.

Lemma close_browser_unfold w :
  simple_screenshot.close_browser w =
    if driver w then (print [Lit "🔚 Closing browser..."] ;; driver_quit) w else (Ret tt, w).
Proof. reflexivity. Qed.

Lemma for_each_cons {A} (f : A -> M unit) x l :
  for_each f (x :: l) = bind (f x) (fun _ => for_each f l).
Proof. reflexivity. Qed.

Lemma for_each_nil {A} (f : A -> M unit) : for_each f [] = ret tt.
Proof. reflexivity. Qed.

Ltac tidy := cbv beta iota; cbn [trace files engines driver negb].

(** Run the primitive at the head of the computation. *)
Ltac prim_step :=
  match goal with
  | |- context [bind (print ?msg) ?k ?w] =>
      rewrite (bind_eq (print msg) k w _ (print_run msg w))
  | |- context [bind (sleep ?n) ?k ?w] =>
      rewrite (bind_eq (sleep n) k w _ (sleep_run n w))
  | |- context [bind (makedirs ?p) ?k ?w] =>
      rewrite (bind_eq (makedirs p) k w _ (makedirs_run p w))
  | |- context [bind (ret ?a) ?k ?w] =>
      rewrite (bind_eq (ret a) k w _ (ret_run a w))
  | |- context [bind (@raise ?A ?e) ?k ?w] =>
      rewrite (bind_eq (@raise A e) k w _ (raise_run e w))
  | |- context [bind (lift ?o) ?k ?w] =>
      rewrite (bind_eq (lift o) k w _ (lift_run o w))
  | |- context [bind (requests_post ?E ?u ?p ?t) ?k ?w] =>
      rewrite (bind_eq (requests_post E u p t) k w _ (post_run E u p t w))
  | |- context [bind (requests_get ?E ?u ?t) ?k ?w] =>
      rewrite (bind_eq (requests_get E u t) k w _ (get_run E u t w))
  | |- context [bind (write_file ?p ?d) ?k ?w] =>
      rewrite (bind_eq (write_file p d) k w _ (write_run p d w))
  | |- context [bind (timestamp ?E) ?k ?w] =>
      rewrite (bind_eq (timestamp E) k w _ (timestamp_run E w))
  | |- context [bind new_frame ?k ?w] =>
      rewrite (bind_eq new_frame k w _ (new_frame_run w))
  | |- context [bind driver_quit ?k ?w] =>
      rewrite (bind_eq driver_quit k w _ (quit_run w))
  | |- context [bind (ChromeDriverManager_install ?E) ?k ?w] =>
      rewrite (bind_eq (ChromeDriverManager_install E) k w _ (install_run E w))
  | |- context [bind (webdriver_Chrome ?E ?s ?o) ?k ?w] =>
      rewrite (bind_eq (webdriver_Chrome E s o) k w _ (launch_run E s o w))
  | |- context [bind (driver_get ?E (PStr ?u)) ?k ?w] =>
      rewrite (bind_eq (driver_get E (PStr u)) k w _ (navigate_run E u w))
  | |- context [bind (save_screenshot ?E ?p) ?k ?w] =>
      rewrite (bind_eq (save_screenshot E p) k w _ (capture_run E p w))
  | |- context [bind (get_title ?E) ?k ?w] =>
      rewrite (bind_eq (get_title E) k w _ (title_run E w))
  | |- context [bind (get_current_url ?E) ?k ?w] =>
      rewrite (bind_eq (get_current_url E) k w _ (current_url_run E w))
  | |- context [for_each ?f (?x :: ?l)] => rewrite (for_each_cons f x l)
  | |- context [for_each ?f []] => rewrite (for_each_nil f)
  | |- context [prints (?l :: ?ls)] => rewrite (prints_cons l ls)
  | |- context [prints []] => rewrite prints_nil
  | |- context [ret ?a ?w] => rewrite (ret_run a w)
  | |- context [@raise ?A ?e ?w] => rewrite (@raise_run A e w)
  | |- context [print ?msg ?w] => rewrite (print_run msg w)
  | |- context [makedirs ?p ?w] => rewrite (makedirs_run p w)
  | |- context [sleep ?n ?w] => rewrite (sleep_run n w)
  | |- context [lift ?o ?w] => rewrite (lift_run o w)
  | |- context [driver_quit ?w] => rewrite (quit_run w)
  | |- context [driver_get ?E (PStr ?u) ?w] => rewrite (navigate_run E u w)
  | |- context [try_except ?m ?h ?w] => rewrite (try_except_unfold m h w)
  | |- context [try_finally ?m ?f ?w] => rewrite (try_finally_unfold m f w)
  | |- context [quit_if_bound ?w] => rewrite (quit_if_bound_unfold w)
  | |- context [simple_screenshot.close_browser ?w] => rewrite (close_browser_unfold w)
  | |- context [bind ?m ?k ?w] => rewrite (bind_unfold m k w)
  end; tidy.

(** Split on what the outside world (or the data) decides. *)
Ltac oracle :=
  match goal with
  | |- context [match driver_install ?E ?t with _ => _ end] =>
      destruct (driver_install E t) eqn:?
  | |- context [match driver_launch ?E ?t ?s ?o with _ => _ end] =>
      destruct (driver_launch E t s o) eqn:?
  | |- context [match driver_navigate ?E ?t ?u with _ => _ end] =>
      destruct (driver_navigate E t u) eqn:?
  | |- context [match driver_capture ?E ?t ?p with _ => _ end] =>
      destruct (driver_capture E t p) eqn:?
  | |- context [match driver_title ?E ?t with _ => _ end] =>
      destruct (driver_title E t) eqn:?
  | |- context [match driver_current_url ?E ?t with _ => _ end] =>
      destruct (driver_current_url E t) eqn:?
  | |- context [match http_get ?E ?t ?u with _ => _ end] =>
      destruct (http_get E t u) eqn:?
  | |- context [match http_post ?E ?t ?u ?p with _ => _ end] =>
      destruct (http_post E t u p) eqn:?
  | H : py_getitem ?v ?k = _ |- context [match py_getitem ?v ?k with _ => _ end] =>
      rewrite H
  | |- context [match py_getitem ?v ?k with _ => _ end] =>
      destruct (py_getitem v k) eqn:?
  | |- context [match py_get ?v ?k ?d with _ => _ end] =>
      destruct (py_get v k d) eqn:?
  | |- context [driver_get ?E ?v] =>
      is_var v;
      destruct v;
      [ cbn [driver_get] | cbn [driver_get] | cbn [driver_get] | idtac
      | cbn [driver_get] | cbn [driver_get] ]
  | |- context [json ?r] => unfold json; destruct (json_body r) eqn:?
  | |- context [if truthy ?v then _ else _] => destruct (truthy v) eqn:?
  | |- context [if negb (truthy ?v) then _ else _] => destruct (truthy v) eqn:?
  | |- context [if ?a =? ?b then _ else _] => destruct (a =? b) eqn:?
  | |- context [if negb (?a =? ?b) then _ else _] => destruct (a =? b) eqn:?
  end; tidy.

Ltac drive := repeat first [progress prim_step | oracle].

(** Bring the trace of the final world to the form [trace w ++ new]. *)
Ltac read_trace :=
  cbn [fst snd trace files engines driver];
  rewrite <- ?app_assoc; cbn [app]; rewrite ?drop_length_app.

Lemma run_as {A} (P : outcome A * world -> Prop) (m : M A) (w : world) :
  (forall x, m w = x -> P x) -> P (m w).
Proof. intros H. apply H. reflexivity. Qed.

Ltac run_main :=
  match goal with
  | |- context [?m ?w] =>
      match type of m with M _ => pattern (m w); apply run_as; intros ? end
  end.

(** ** create_font_comparison.py *)
Section Comparison.
Import create_font_comparison.

Variable E : env.

Lemma create_one_run type title announce payload ps w :
  let reply := http_post E (trace w ++ [EPrint [Lit announce]]) web_app_url payload in
  exists r t,
    forallb is_print t = true /\
    create_one E type title announce payload ps w =
      (r, World (trace w ++ EPrint [Lit announce]
                   :: EPost web_app_url payload (Some 30) reply :: t)
                (files w) (engines w) (driver w)) /\
    (forall e, reply = Raise e -> r = Raise e) /\
    (forall a, answered reply a ->
       r = Ret (ps ++ entries E type title a) /\ exists line, t = [EPrint line]).
Proof.
  intros reply. unfold create_one. prim_step. prim_step. fold reply.
  destruct reply as [resp|e] eqn:Hreply.
  2:{ exists (Raise e), []. rewrite <- app_assoc. repeat split; auto.
      - intros e' [= <-]. reflexivity.
      - inversion H.
      - inversion H. }
  match goal with |- context [(if _ then ?m1 else ?m2) ?w'] =>
    assert (Hq : quiet (if status_code resp =? 200 then m1 else m2)) by quiet_tac;
    destruct (quiet_run _ w' Hq) as (r & t & Ht & Hrun)
  end.
  cbn [trace files engines driver] in Hrun.
  exists r, t. rewrite Hrun. rewrite <- !app_assoc.
  split; [exact Ht|]. split; [reflexivity|]. split; [discriminate|].
  intros a Ha. clear Hq.
  assert (Hgoal : exists line,
            (r, World (((trace w ++ [EPrint [Lit announce]]) ++
                          [EPost web_app_url payload (Some 30) (Ret resp)]) ++ t)
                      (files w) (engines w) (driver w)) =
            (Ret (ps ++ entries E type title a),
             World (((trace w ++ [EPrint [Lit announce]]) ++
                       [EPost web_app_url payload (Some 30) (Ret resp)]) ++ [EPrint line])
                   (files w) (engines w) (driver w))).
  { rewrite <- Hrun. clear Hrun.
    inversion Ha as [r0 Hs|r0 d Hs Hj Hr|r0 d inner Hs Hj Hr Ht'|r0 d inner pid Hs Hj Hr Ht' Hid];
      subst r0; subst a.
    - apply Z.eqb_neq in Hs. rewrite Hs. drive.
      eexists. cbn [entries]. rewrite app_nil_r. reflexivity.
    - apply Z.eqb_eq in Hs. rewrite Hs.
      repeat first [ progress prim_step
                   | progress (unfold json, py_get; cbv beta iota)
                   | progress (rewrite ?Hj, ?Hr; cbn [from_option id truthy]) ].
      eexists. cbn [entries]. rewrite app_nil_r. reflexivity.
    - apply Z.eqb_eq in Hs. rewrite Hs.
      repeat first [ progress prim_step
                   | progress (unfold json, py_get; cbv beta iota)
                   | progress (rewrite ?Hj, ?Hr; cbn [from_option id]; rewrite ?Ht') ].
      eexists. cbn [entries]. rewrite app_nil_r. reflexivity.
    - apply Z.eqb_eq in Hs. rewrite Hs.
      repeat first [ progress prim_step
                   | progress (unfold json, py_get, py_getitem; cbv beta iota)
                   | progress (rewrite ?Hj, ?Hr, ?Hid; cbn [from_option id]; rewrite ?Ht') ].
      eexists. reflexivity. }
  destruct Hgoal as [line Hline]. injection Hline as Hr Ht0.
  apply app_inv_head in Ht0. split; [exact Hr | eauto].
Qed.

Lemma show_entry type title id : returns (show E (entry E type title id)) tt.
Proof. unfold show, entry. cbn [py_getitem assoc String.eqb Ascii.eqb Bool.eqb]. returns_tac. Qed.

Lemma show_entries a b :
  returns (for_each (show E)
             (entries E "BEFORE" "Default Fonts (Before)" a ++
              entries E "AFTER" "Merriweather/Inter Fonts (After)" b)) tt.
Proof.
  apply returns_for_each. intros p Hp. apply in_app_or in Hp.
  destruct a, b; simpl in Hp; intuition; subst; apply show_entry.
Qed.

(** The run of the whole function, split at its two requests. *)
Lemma comparison_run w :
  let t1 := trace w ++ [EPrint [Lit "📞 Creating BEFORE presentation (default fonts)..."]] in
  let reply1 := http_post E t1 web_app_url before_payload in
  exists t r,
    trace (snd (create_font_comparison E w)) =
      t1 ++ EPost web_app_url before_payload (Some 30) reply1 :: t /\
    fst (create_font_comparison E w) = r /\
    ((posts t = [] /\ exists e, r = Raise e) \/
     (posts t = [after_payload])) /\
    (forall a b,
       answered reply1 a ->
       (forall line,
          answered
            (http_post E
               (t1 ++ [EPost web_app_url before_payload (Some 30) reply1;
                       EPrint line; ESleep 2;
                       EPrint [Lit "📞 Creating AFTER presentation (Merriweather/Inter fonts)..."]])
               web_app_url after_payload) b) ->
       r = Ret (entries E "BEFORE" "Default Fonts (Before)" a ++
                entries E "AFTER" "Merriweather/Inter Fonts (After)" b)).
Proof.
  cbv zeta. unfold create_font_comparison.
  destruct (create_one_run "BEFORE" "Default Fonts (Before)"
              "📞 Creating BEFORE presentation (default fonts)..." before_payload [] w)
    as (r1 & t1 & Ht1 & Hrun1 & Hraise1 & Hans1).
  rewrite (bind_run _ _ _ _ _ Hrun1).
  destruct r1 as [ps1|e1].
  2:{ eexists t1, _. cbn [fst snd trace]. split; [rewrite <- app_assoc; reflexivity|].
      split; [reflexivity|].
      split; [left; split; [apply posts_prints, Ht1 | eauto]|].
      intros a b Ha _. destruct (Hans1 a Ha) as [? _]. discriminate. }
  prim_step.
  match goal with |- context [bind (create_one _ _ _ _ _ _) _ ?w'] =>
    destruct (create_one_run "AFTER" "Merriweather/Inter Fonts (After)"
                "📞 Creating AFTER presentation (Merriweather/Inter fonts)..."
                after_payload ps1 w')
      as (r2 & t2 & Ht2 & Hrun2 & Hraise2 & Hans2)
  end.
  cbn [trace files engines driver] in Hrun2, Hraise2, Hans2.
  rewrite (bind_run _ _ _ _ _ Hrun2).
  assert (Hboth : forall a b,
            answered (http_post E
                        (trace w ++ [EPrint [Lit "📞 Creating BEFORE presentation (default fonts)..."]])
                        web_app_url before_payload) a ->
            (forall line,
               answered
                 (http_post E
                    ((trace w ++ [EPrint [Lit "📞 Creating BEFORE presentation (default fonts)..."]]) ++
                     [EPost web_app_url before_payload (Some 30)
                        (http_post E
                           (trace w ++ [EPrint [Lit "📞 Creating BEFORE presentation (default fonts)..."]])
                           web_app_url before_payload);
                      EPrint line; ESleep 2;
                      EPrint [Lit "📞 Creating AFTER presentation (Merriweather/Inter fonts)..."]])
                    web_app_url after_payload) b) ->
            r2 = Ret (entries E "BEFORE" "Default Fonts (Before)" a ++
                      entries E "AFTER" "Merriweather/Inter Fonts (After)" b)).
  { intros a b Ha Hb. destruct (Hans1 a Ha) as [Hps1 [line Hline]].
    injection Hps1 as ->. subst t1. specialize (Hb line).
    rewrite <- !app_assoc in Hans2. cbn [app] in Hans2.
    rewrite <- !app_assoc in Hb. cbn [app] in Hb.
    destruct (Hans2 b Hb) as [-> _]. reflexivity. }
  destruct r2 as [ps2|e2].
  2:{ eexists _, _. cbn [fst snd trace]. split.
      { rewrite <- !app_assoc. cbn [app]. reflexivity. }
      split; [reflexivity|]. split.
      - right. rewrite !posts_app. cbn [posts].
        rewrite (posts_prints _ Ht1), (posts_prints _ Ht2). reflexivity.
      - intros a b Ha Hb. specialize (Hboth a b Ha Hb). discriminate. }
  match goal with |- context [bind (prints ?l) ?k ?w'] =>
    assert (Hq : quiet (bind (prints l) k))
      by (quiet_tac; apply show_quiet);
    destruct (quiet_run _ w' Hq) as (r & t & Ht & Hrun)
  end.
  cbn [trace files engines driver] in Hrun.
  rewrite Hrun.
  eexists _, _. cbn [fst snd trace]. split.
  { rewrite <- !app_assoc. cbn [app]. reflexivity. }
  split; [reflexivity|]. split.
  - right. rewrite !posts_app. cbn [posts]. rewrite !posts_app.
    rewrite (posts_prints _ Ht1), (posts_prints _ Ht2), (posts_prints _ Ht). reflexivity.
  - intros a b Ha Hb. apply (f_equal fst) in Hrun. cbn [fst] in Hrun. rewrite <- Hrun.
    specialize (Hboth a b Ha Hb). injection Hboth as ->.
    match goal with |- fst (?m ?w') = _ =>
      generalize w';
      change (returns m (entries E "BEFORE" "Default Fonts (Before)" a ++
                         entries E "AFTER" "Merriweather/Inter Fonts (After)" b))
    end.
    eapply returns_bind; [apply returns_prints|].
    eapply returns_bind; [apply show_entries|].
    destruct (_ =? _)%nat; returns_tac.
Qed.

(** C8. Within one run of [create_font_comparison] the baseline (BEFORE)
    creation request is issued strictly before the styled (AFTER) request:
    the requests of a run are the baseline followed by the styled one, and
    the styled one is missing only when an exception ended the run before
    it. *)
Theorem baseline_before_styled w :
  posts (new_events (create_font_comparison E) w) = [before_payload; after_payload] \/
  (posts (new_events (create_font_comparison E) w) = [before_payload] /\
   exists e, fst (create_font_comparison E w) = Raise e).
Proof.
  unfold new_events.
  destruct (comparison_run w) as (t & r & Htrace & Hr & Hposts & _).
  rewrite Htrace, <- app_assoc, drop_length_app. cbn [app posts]. rewrite Hr.
  destruct Hposts as [[Hp He]|Hp]; rewrite Hp; auto.
Qed.

(** C1, as amended. When the service answers both creation requests,
    [create_font_comparison] issues both and returns normally with the list
    of the presentations that were created, BEFORE first: a creation that
    failed (status other than 200, or [success] not truthy) adds no entry and
    does not stop the other creation.  [reply1] is the answer to the first
    request; the answer to the second may depend on everything done before
    it, the line printed about the first creation included. *)
Theorem comparison_returns_created_entries w a b :
  let t1 := trace w ++ [EPrint [Lit "📞 Creating BEFORE presentation (default fonts)..."]] in
  let reply1 := http_post E t1 web_app_url before_payload in
  answered reply1 a ->
  (forall line,
     answered
       (http_post E
          (t1 ++ [EPost web_app_url before_payload (Some 30) reply1;
                  EPrint line; ESleep 2;
                  EPrint [Lit "📞 Creating AFTER presentation (Merriweather/Inter fonts)..."]])
          web_app_url after_payload) b) ->
  fst (create_font_comparison E w) =
    Ret (entries E "BEFORE" "Default Fonts (Before)" a ++
         entries E "AFTER" "Merriweather/Inter Fonts (After)" b) /\
  posts (new_events (create_font_comparison E) w) = [before_payload; after_payload].
Proof.
  intros t1 reply1 Ha Hb. unfold new_events.
  destruct (comparison_run w) as (t & r & Htrace & Hr & Hposts & Hans).
  rewrite Htrace, <- app_assoc, drop_length_app, Hr. cbn [app posts].
  specialize (Hans a b Ha Hb). split; [exact Hans|].
  destruct Hposts as [[_ [e He]]|Hp]; [congruence | rewrite Hp; reflexivity].
Qed.

End Comparison.

(** C1, witness: the BEFORE creation is answered with a 500, the AFTER
    creation succeeds. *)
Lemma comparison_returns_created_entries_witness :
  fst (create_font_comparison.create_font_comparison Scenario.before_500 world0) =
    Ret ([] ++ [create_font_comparison.entry Scenario.before_500 "AFTER"
                  "Merriweather/Inter Fonts (After)" (PStr "abc")]) /\
  posts (new_events (create_font_comparison.create_font_comparison Scenario.before_500) world0) =
    [create_font_comparison.before_payload; create_font_comparison.after_payload].
Proof.
  apply (comparison_returns_created_entries Scenario.before_500 world0 None (Some (PStr "abc"))).
  - apply answered_status. simpl. lia.
  - intros line. eapply answered_success; reflexivity.
Defined.

(** C1, counterexample. A failed BEFORE creation leaves no baseline entry in
    the result; and a run whose baseline request was answered (here with a
    success) still fails as a whole when the styled request cannot reach the
    service. *)
Lemma comparison_omits_failed_creation :
  (exists ps,
     fst (create_font_comparison.create_font_comparison Scenario.before_500 world0) = Ret ps /\
     ~ has_type "BEFORE" ps) /\
  (In (EPost web_app_url create_font_comparison.before_payload (Some 30)
             (Ret (Scenario.created "abc")))
      (trace (snd (create_font_comparison.create_font_comparison
                     Scenario.after_unreachable world0))) /\
   fst (create_font_comparison.create_font_comparison Scenario.after_unreachable world0) =
     Raise Scenario.ConnectionError).
Proof.
  split.
  - eexists. split; [vm_compute; reflexivity|].
    intros (p & Hin & Hty). simpl in Hin. destruct Hin as [<-|[]].
    vm_compute in Hty. discriminate.
  - split; [|vm_compute; reflexivity].
    vm_compute. right. left. reflexivity.
Qed.

(** ** The creation call: test_api.py and screenshot_presentation.py *)

Lemma try_except_returns (m : M unit) (h : exn -> M unit) :
  (forall e, returns (h e) tt) -> returns (try_except m h) tt.
Proof.
  intros Hh w. unfold try_except.
  destruct (m w) as [[[]|e] w1]; [reflexivity | apply Hh].
Qed.

Lemma test_api_main_returns E : returns (test_api.main E) PNone.
Proof.
  unfold test_api.main.
  eapply returns_bind; [apply returns_print|].
  eapply returns_bind; [|apply returns_ret].
  apply try_except_returns. intros e. apply returns_print.
Qed.

(** C2, as amended. A creation request answered with a status other than
    200 makes [create_presentation_via_api] (and [test_api.main]) print the
    status and return [None], without raising: no result record and no
    "transport:" error string is built.  [test_api.main] returns [None]
    whatever the service answers, a malformed body and an unreachable service
    included. *)
Theorem bad_status_gives_None E w r :
  http_post E (trace w ++ [EPrint [Lit "📞 Calling Web API to create presentation..."]])
            web_app_url screenshot_presentation.payload = Ret r ->
  status_code r <> 200 ->
  screenshot_presentation.create_presentation_via_api E w =
    (Ret PNone,
     World (trace w ++
              [EPrint [Lit "📞 Calling Web API to create presentation..."];
               EPost web_app_url screenshot_presentation.payload None (Ret r);
               EPrint [Lit "❌ HTTP Error: "; Val (PInt (status_code r))]])
           (files w) (engines w) (driver w)) /\
  test_api.main E w =
    (Ret PNone,
     World (trace w ++
              [EPrint [Lit "📞 Calling Web API to create presentation..."];
               EPost web_app_url test_api.payload (Some 30) (Ret r);
               EPrint [Lit "❌ HTTP Error: "; Val (PInt (status_code r))];
               EPrint [Val (PStr (text r))]])
           (files w) (engines w) (driver w)) /\
  returns (test_api.main E) PNone.
Proof.
  intros Hreply Hst. apply Z.eqb_neq in Hst.
  split; [|split; [|apply test_api_main_returns]].
  - unfold screenshot_presentation.create_presentation_via_api.
    prim_step. prim_step. rewrite Hreply. cbv iota. rewrite Hst. drive.
    rewrite <- !app_assoc. reflexivity.
  - unfold test_api.main.
    change test_api.payload with screenshot_presentation.payload.
    prim_step. prim_step. prim_step. prim_step. rewrite Hreply. cbv iota.
    rewrite Hst. drive.
    rewrite <- !app_assoc. reflexivity.
Qed.

(** C2, witness: the service answers 500. *)
Lemma bad_status_gives_None_witness :
  fst (screenshot_presentation.create_presentation_via_api Scenario.all_500 world0) = Ret PNone.
Proof.
  refine (f_equal fst
            (proj1 (bad_status_gives_None Scenario.all_500 world0 Scenario.server_error _ _))).
  - reflexivity.
  - simpl. lia.
Defined.

(** C2, counterexample. On a 500 the result is [None], which is no record
    with [success] false and a "transport:" error; and a 200 whose body is
    not JSON makes [create_presentation_via_api] raise. *)
Lemma create_gives_no_transport_record :
  fst (screenshot_presentation.create_presentation_via_api Scenario.all_500 world0) = Ret PNone /\
  ~ is_transport_failure PNone /\
  fst (screenshot_presentation.create_presentation_via_api Scenario.all_not_json world0) =
    Raise JSONDecodeError.
Proof.
  split; [reflexivity|]. split; [|reflexivity].
  intros [H _]. discriminate.
Qed.

(** ** The capture scripts *)

Ltac close_capture :=
  unfold capture_run_ok; read_trace; unfold reported, single_attempt;
  cbn [launches faults length In];
  repeat split; try lia; try reflexivity;
  try (intros ? [<-|[]]); try (intros ? []);
  try (repeat first [left; reflexivity | right]); eauto.

Lemma quick_screenshot_attempt E w :
  capture_run_ok w (quick_screenshot.main E w) /\
  fst (quick_screenshot.main E w) = Ret PNone /\
  engines (snd (quick_screenshot.main E w)) = engines w.
Proof.
  run_main. unfold quick_screenshot.main.
  drive; intros <-; (split; [close_capture | split; reflexivity]).
Qed.

Lemma final_screenshot_attempt E w : capture_run_ok w (final_screenshot.main E w).
Proof.
  run_main. unfold final_screenshot.main.
  drive; intros <-; close_capture.
Qed.

Lemma debug_screenshot_attempt E w : capture_run_ok w (debug_screenshot.main E w).
Proof.
  run_main. unfold debug_screenshot.main.
  drive; intros <-; close_capture.
Qed.

(** C6, as amended. Each capture script tries its one strategy once: a
    fault raised by an automation step (driver install or launch, page load,
    capture) is caught and printed with its reason, and the script returns
    [None] without starting the browser a second time; without a fault it
    returns normally.  No script goes on to another strategy. *)
Theorem capture_scripts_try_one_strategy E w :
  capture_run_ok w (quick_screenshot.main E w) /\
  capture_run_ok w (final_screenshot.main E w) /\
  capture_run_ok w (debug_screenshot.main E w).
Proof.
  split; [apply quick_screenshot_attempt|].
  split; [apply final_screenshot_attempt | apply debug_screenshot_attempt].
Qed.

(** C6, counterexample. The explicit-driver script whose browser cannot be
    started reports the fault and ends: the managed driver is never
    installed or launched, and the value returned is [None]. *)
Lemma no_fallback_after_driver_fault :
  quick_screenshot.main Scenario.launch_fault world0 =
    (Ret PNone,
     World [EPrint [Lit "📸 Taking screenshot of: ";
                    Val (PStr (pub_url_of demo_presentation_id))];
            ELaunch (Some "/opt/homebrew/bin/chromedriver"%string)
                    quick_screenshot.chrome_options (Some Scenario.SessionNotCreated);
            EPrint [Lit "❌ Error: "; Val (PStr "session not created")]]
           ∅ 0 false).
Proof. reflexivity. Qed.

(** The scripts with a [finally] release the browser on every path. *)
Lemma quick_screenshot_releases E w :
  engines (snd (quick_screenshot.main E w)) = engines w.
Proof. apply quick_screenshot_attempt. Qed.

Lemma screenshot_presentation_releases E pd w :
  engines (snd (screenshot_presentation.screenshot_presentation E pd w)) = engines w.
Proof.
  run_main. unfold screenshot_presentation.screenshot_presentation.
  drive; intros <-; reflexivity.
Qed.

Lemma simple_screenshot_releases E w :
  engines (snd (simple_screenshot.screenshot_presentation E w)) = engines w.
Proof.
  run_main. unfold simple_screenshot.screenshot_presentation.
  drive; intros <-; reflexivity.
Qed.

Ltac close_leak :=
  unfold leaks_after_fault; read_trace; cbn [faults];
  intros (service & options & Hin) Hfault; cbn [In] in Hin |- *;
  first [ exfalso; intuition discriminate
        | exfalso; apply Hfault; reflexivity
        | split; [reflexivity | intuition discriminate] ].

Lemma final_screenshot_leaks E w : leaks_after_fault w (final_screenshot.main E w).
Proof.
  run_main. unfold final_screenshot.main.
  drive; intros <-; close_leak.
Qed.

Lemma debug_screenshot_leaks E w : leaks_after_fault w (debug_screenshot.main E w).
Proof.
  run_main. unfold debug_screenshot.main.
  drive; intros <-; close_leak.
Qed.

(** C7, the failing run. When the page load times out, final_screenshot.py
    (and debug_screenshot.py, which has the same shape) returns with the
    browser engine still running: [driver.quit()] is only on the success
    path. *)
Theorem final_screenshot_leaves_engine_running :
  let x := final_screenshot.main Scenario.navigation_timeout world0 in
  let y := debug_screenshot.main Scenario.navigation_timeout world0 in
  fst x = Ret PNone /\ engines (snd x) = 1%nat /\ ~ In EQuit (trace (snd x)) /\
  fst y = Ret PNone /\ engines (snd y) = 1%nat /\ ~ In EQuit (trace (snd y)).
Proof.
  cbv zeta. repeat split; try reflexivity.
  - vm_compute. intuition discriminate.
  - vm_compute. intuition discriminate.
Qed.


(** ** Settle waits *)

Lemma screenshot_presentation_settles E w pd pub edit :
  py_getitem pd "pub_url" = Ret (PStr pub) ->
  py_getitem pd "edit_url" = Ret (PStr edit) ->
  let t := new_events (screenshot_presentation.screenshot_presentation E pd) w in
  settles t = [] \/ settles t = [(pub, 5)] \/ settles t = [(pub, 5); (edit, 8)].
Proof.
  intros Hpub Hedit. unfold new_events. cbv zeta.
  run_main. unfold screenshot_presentation.screenshot_presentation.
  drive; intros <-; read_trace; cbn [settles next_sleep]; auto.
Qed.

(** C9, as amended. In [screenshot_presentation], the one function that
    captures both views of a deck, the wait before capturing the public view
    (5 s) is strictly shorter than the wait before capturing the edit view
    (8 s); both are constants of the code. *)
Theorem public_settle_shorter_than_edit E w pd pub edit :
  py_getitem pd "pub_url" = Ret (PStr pub) ->
  py_getitem pd "edit_url" = Ret (PStr edit) ->
  pub <> edit ->
  let t := new_events (screenshot_presentation.screenshot_presentation E pd) w in
  (settles t = [] \/ settles t = [(pub, 5)] \/ settles t = [(pub, 5); (edit, 8)]) /\
  forall n m, In (pub, n) (settles t) -> In (edit, m) (settles t) -> n < m.
Proof.
  intros Hpub Hedit Hne t.
  pose proof (screenshot_presentation_settles E w pd pub edit Hpub Hedit) as H.
  fold t in H. split; [exact H|].
  intros n m Hn Hm.
  destruct H as [H|[H|H]]; rewrite H in Hn, Hm; simpl in Hn, Hm.
  - destruct Hn.
  - destruct Hm as [Hm|[]]. congruence.
  - destruct Hn as [Hn|[Hn|[]]]; destruct Hm as [Hm|[Hm|[]]]; try congruence.
    injection Hn as <-. injection Hm as <-. lia.
Qed.

(** C9, witness: the deck [abc], as [create_presentation_via_api] describes
    it. *)
Lemma public_settle_shorter_than_edit_witness :
  let t := new_events (screenshot_presentation.screenshot_presentation
                         Scenario.all_fine Scenario.deck_abc) world0 in
  (settles t = [] \/ settles t = [(pub_url_of "abc", 5)] \/
   settles t = [(pub_url_of "abc", 5); (edit_url_of "abc", 8)]) /\
  forall n m, In (pub_url_of "abc", n) (settles t) ->
              In (edit_url_of "abc", m) (settles t) -> n < m.
Proof.
  apply (public_settle_shorter_than_edit Scenario.all_fine world0 Scenario.deck_abc
           (pub_url_of "abc") (edit_url_of "abc")).
  - reflexivity.
  - reflexivity.
  - vm_compute. discriminate.
Defined.

(** C9, counterexample. debug_screenshot.py captures the public view after a
    10 s wait and simple_screenshot.py after 8 s, neither of which is shorter
    than the 8 s that [screenshot_presentation] waits before capturing the
    edit view. *)
Lemma public_capture_waits_as_long_as_edit :
  settles (new_events (debug_screenshot.main Scenario.all_fine) world0) =
    [(pub_url_of demo_presentation_id, 10)] /\
  settles (new_events (simple_screenshot.screenshot_presentation Scenario.all_fine) world0) =
    [(pub_url_of demo_presentation_id, 8)] /\
  settles (new_events (screenshot_presentation.screenshot_presentation
                         Scenario.all_fine Scenario.deck_abc) world0) =
    [(pub_url_of "abc", 5); (edit_url_of "abc", 8)] /\
  ~ (10 < 8) /\ ~ (8 < 8).
Proof.
  repeat split; try (vm_compute; reflexivity); lia.
Qed.


(** ** Exports *)

Lemma saved_200 path r fs :
  status_code r = 200 -> saved path (Ret r) fs !! path = Some (text r).
Proof.
  intros H. unfold saved. apply Z.eqb_eq in H. rewrite H. apply lookup_insert_eq.
Qed.

Lemma saved_not_200 path reply fs :
  (forall r, reply = Ret r -> status_code r <> 200) -> saved path reply fs = fs.
Proof.
  intros H. unfold saved. destruct reply as [r|e]; [|reflexivity].
  specialize (H r eq_refl). apply Z.eqb_neq in H. rewrite H. reflexivity.
Qed.

Ltac close_export :=
  unfold saved;
  repeat match goal with
         | H : (_ =? _) = _ |- _ => rewrite H
         end;
  cbv beta iota.

(** One pass of the loop of test_export_direct.py. *)
Lemma export_one_run E format_name export_url w :
  exists reply t,
    test_export_direct.export_one E (format_name, export_url) w =
      (Ret tt, World (trace w ++ t)
                     (saved (test_export_direct.export_path_of format_name) reply (files w))
                     (engines w) (driver w)) /\
    gets t = [(export_url, reply)].
Proof.
  exists (http_get E (trace w ++ [EPrint [Lit "📸 Testing "; Val (PStr format_name);
                                          Lit " export: "; Val (PStr export_url)]])
                   export_url).
  run_main. unfold test_export_direct.export_one.
  drive; intros <-; eexists; close_export;
    (split; [rewrite <- !app_assoc; reflexivity | reflexivity]).
Qed.

Lemma export_loop_run E w :
  exists r1 r2 r3 t,
    for_each (test_export_direct.export_one E) test_export_direct.export_urls w =
      (Ret tt,
       World (trace w ++ t)
             (saved "screenshots/working_font_demo.pdf" r3
                (saved "screenshots/working_font_demo.svg" r2
                   (saved "screenshots/working_font_demo.png" r1 (files w))))
             (engines w) (driver w)) /\
    gets t = [(export_url_of test_export_direct.presentation_id "png", r1);
              (export_url_of test_export_direct.presentation_id "svg", r2);
              (export_url_of test_export_direct.presentation_id "pdf", r3)].
Proof.
  unfold test_export_direct.export_urls.
  rewrite !for_each_cons, for_each_nil.
  destruct (export_one_run E "PNG" (export_url_of test_export_direct.presentation_id "png") w)
    as (r1 & t1 & Hrun1 & Hg1).
  rewrite (bind_run _ _ _ _ _ Hrun1).
  match goal with |- context [bind (test_export_direct.export_one E (?f, ?u)) ?k ?w'] =>
    destruct (export_one_run E f u w') as (r2 & t2 & Hrun2 & Hg2);
    rewrite (bind_run _ k _ _ _ Hrun2); tidy
  end.
  match goal with |- context [bind (test_export_direct.export_one E (?f, ?u)) ?k ?w'] =>
    destruct (export_one_run E f u w') as (r3 & t3 & Hrun3 & Hg3);
    rewrite (bind_run _ k _ _ _ Hrun3); tidy
  end.
  exists r1, r2, r3, (t1 ++ t2 ++ t3). rewrite ret_run. split.
  - rewrite <- !app_assoc. reflexivity.
  - rewrite !gets_app, Hg1, Hg2, Hg3. reflexivity.
Qed.

Lemma test_export_direct_files E w :
  let x := test_export_direct.test_export_direct E w in
  exists r1 r2 r3,
    gets (drop (length (trace w)) (trace (snd x))) =
      [(export_url_of test_export_direct.presentation_id "png", r1);
       (export_url_of test_export_direct.presentation_id "svg", r2);
       (export_url_of test_export_direct.presentation_id "pdf", r3)] /\
    files (snd x) =
      saved "screenshots/working_font_demo.pdf" r3
        (saved "screenshots/working_font_demo.svg" r2
           (saved "screenshots/working_font_demo.png" r1 (files w))).
Proof.
  cbv zeta. run_main. unfold test_export_direct.test_export_direct.
  repeat (progress prim_step).
  match goal with |- context [for_each _ _ ?w'] =>
    destruct (export_loop_run E w') as (r1 & r2 & r3 & t & Hrun & Hg);
    rewrite Hrun; tidy
  end.
  drive. intros <-. exists r1, r2, r3. read_trace.
  split; [|reflexivity].
  cbn [gets]. rewrite ?gets_app, Hg. cbn [gets]. reflexivity.
Qed.

Lemma export_screenshot_files E w :
  let x := export_screenshot.export_presentation_screenshots E w in
  let ts := now E (trace (snd (export_preamble w))) in
  exists r1,
    (gets (drop (length (trace w)) (trace (snd x))) = [(export_screenshot.png_export_url, r1)] /\
     (exists e, r1 = Raise e) /\ files (snd x) = files w) \/
    (exists r2,
       gets (drop (length (trace w)) (trace (snd x))) =
         [(export_screenshot.png_export_url, r1); (export_screenshot.svg_export_url, r2)] /\
       files (snd x) =
         saved (export_screenshot.svg_path_of ts) r2
           (saved (export_screenshot.png_path_of ts) r1 (files w))).
Proof.
  cbv zeta. run_main. unfold export_preamble. drive.
  unfold export_screenshot.export_presentation_screenshots.
  drive; intros <-; read_trace; cbn [gets]; eexists;
    first [ left; split; [reflexivity | split; [eexists; reflexivity | reflexivity]]
          | right; eexists; split; [reflexivity | close_export; reflexivity] ].
Qed.

Lemma open_run E path data w :
  open_write E path data w =
    match fs_open E path with
    | None => (Ret tt, World (trace w ++ [EWrite path]) (<[path := data]> (files w))
                             (engines w) (driver w))
    | Some e => (Raise e, w)
    end.
Proof. reflexivity. Qed.

(** Ask the file system. *)
Ltac open_step :=
  match goal with
  | |- context [open_write ?E ?p ?d ?w] =>
      rewrite (open_run E p d w); destruct (fs_open E p) eqn:?
  end; tidy.

Ltac drive_open := repeat first [progress prim_step | oracle | open_step].

Lemma test_create_and_export_files E w :
  let x := test_export_after_create.test_create_and_export E w in
  (gets (drop (length (trace w)) (trace (snd x))) = [] /\ files (snd x) = files w) \/
  (exists id reply,
     gets (drop (length (trace w)) (trace (snd x))) =
       [(export_url_of (py_str E id) "png", reply)] /\
     files (snd x) =
       stored E (test_export_after_create.export_path_of (py_str E id)) reply (files w)).
Proof.
  cbv zeta. run_main. unfold test_export_after_create.test_create_and_export.
  drive_open; intros <-; read_trace; cbn [gets];
    first [ left; split; reflexivity
          | right; eexists _, _; split; [reflexivity|];
            unfold stored;
            repeat match goal with H : fs_open _ _ = _ |- _ => rewrite H end;
            try match goal with |- context [fs_open ?E' ?p] => destruct (fs_open E' p) end;
            close_export; reflexivity ].
Qed.

(** C10, as amended. A download that is not answered with status 200 (or
    is not answered at all) never writes a file: the files stay as they were.
    A download answered with status 200 writes the body of the answer at the
    export's path: always in export_screenshot.py and test_export_direct.py,
    whose paths the script fixes or builds from the clock ([saved]), and in
    test_export_after_create.py, whose file name is built from the
    [presentationId] of the service's answer, exactly when the file system
    lets that file be opened ([stored]); when it does not, [open] raises and
    nothing is written. *)
Theorem export_file_written_when_200_and_opened E w :
  (let x := export_screenshot.export_presentation_screenshots E w in
   let ts := now E (trace (snd (export_preamble w))) in
   exists r1,
     (gets (drop (length (trace w)) (trace (snd x))) =
        [(export_screenshot.png_export_url, r1)] /\
      (exists e, r1 = Raise e) /\ files (snd x) = files w) \/
     (exists r2,
        gets (drop (length (trace w)) (trace (snd x))) =
          [(export_screenshot.png_export_url, r1); (export_screenshot.svg_export_url, r2)] /\
        files (snd x) =
          saved (export_screenshot.svg_path_of ts) r2
            (saved (export_screenshot.png_path_of ts) r1 (files w)))) /\
  (let x := test_export_after_create.test_create_and_export E w in
   (gets (drop (length (trace w)) (trace (snd x))) = [] /\ files (snd x) = files w) \/
   (exists id reply,
      gets (drop (length (trace w)) (trace (snd x))) =
        [(export_url_of (py_str E id) "png", reply)] /\
      files (snd x) =
        stored E (test_export_after_create.export_path_of (py_str E id)) reply (files w))) /\
  (let x := test_export_direct.test_export_direct E w in
   exists r1 r2 r3,
     gets (drop (length (trace w)) (trace (snd x))) =
       [(export_url_of test_export_direct.presentation_id "png", r1);
        (export_url_of test_export_direct.presentation_id "svg", r2);
        (export_url_of test_export_direct.presentation_id "pdf", r3)] /\
     files (snd x) =
       saved "screenshots/working_font_demo.pdf" r3
         (saved "screenshots/working_font_demo.svg" r2
            (saved "screenshots/working_font_demo.png" r1 (files w)))).
Proof.
  split; [apply export_screenshot_files|].
  split; [apply test_create_and_export_files | apply test_export_direct_files].
Qed.

(** C10, counterexample. The service names the presentation [a/b] and the
    export is answered with status 200; [screenshots/export_test_a] is no
    directory, so [open] raises [FileNotFoundError]: the download succeeded
    and no file was written. *)
Lemma export_answered_200_is_not_written :
  let x := test_export_after_create.test_create_and_export Cases.slash_id world0 in
  gets (trace (snd x)) = [(export_url_of "a/b" "png", Ret Scenario.png)] /\
  status_code Scenario.png = 200 /\
  files (snd x) = ∅ /\
  fst x = Raise FileNotFoundError.
Proof. cbv zeta. repeat split; vm_compute; reflexivity. Qed.

(** Every export is written under the output directory. *)
Lemma export_paths_under_screenshots ts id format_name :
  String.prefix "screenshots/" (export_screenshot.png_path_of ts) = true /\
  String.prefix "screenshots/" (export_screenshot.svg_path_of ts) = true /\
  String.prefix "screenshots/" (test_export_after_create.export_path_of id) = true /\
  String.prefix "screenshots/" (test_export_direct.export_path_of format_name) = true.
Proof. repeat split; reflexivity. Qed.

(** A run of test_export_direct.py in which only the PNG export is served:
    one file appears. *)
Example only_png_is_written :
  files (snd (test_export_direct.test_export_direct Scenario.only_png world0)) =
    {[ "screenshots/working_font_demo.png"%string := "PNG-bytes"%string ]}.
Proof. vm_compute. reflexivity. Qed.


(** ** SpecExtractor *)
Section Extractor.
Import SpecExtractor.
Local Open Scope nat_scope.

(** *** The left-to-right scan *)



(** *** Characters *)






(** *** Font names *)





(** *** The word "fonts" *)




(** *** The body *)




(** *** Strings and character lists *)




(** *** Palettes *)















End Extractor.


(** Why the body may hold no further word "fonts": the scan ends the body at
    the first one.  And a longer word that starts with "fonts" is not the
    word. *)
Example body_ends_at_the_first_fonts :
  fst (SpecExtractor.extract "use Abc/Open Fonts fonts") =
    Some (SpecExtractor.mkFontPair "Abc" "Open") /\
  fst (SpecExtractor.extract "use Abc/Inter fontsize 12") = None.
Proof. split; reflexivity. Qed.


(** * Further properties of the scripts *)

(** ** Capture scripts: what the returned value says about the file *)

Ltac close_outcome :=
  unfold capture_outcome; read_trace; cbn [In];
  first [ right; split; reflexivity
        | left; eexists; split; [reflexivity|];
          split; [repeat first [left; reflexivity | right] | split; reflexivity] ].

(** X1. final_screenshot.py and debug_screenshot.py return the path of the
    screenshot exactly when the file was written: either the path is
    returned, the file holds the image the browser produced and the browser
    has been quit, or [None] is returned and the files are as before. *)
Theorem managed_capture_returns_path_of_written_file E w :
  capture_outcome "screenshots/working_presentation_demo.png" w (final_screenshot.main E w) /\
  capture_outcome "screenshots/debug_presentation.png" w (debug_screenshot.main E w).
Proof.
  split.
  - run_main. unfold final_screenshot.main. drive; intros <-; close_outcome.
  - run_main. unfold debug_screenshot.main. drive; intros <-; close_outcome.
Qed.

(** X2. simple_screenshot.py names its screenshot after the time read once
    the browser is up; it returns that path exactly when the file was
    written, never raises, and on every path the browser it started has been
    closed again. *)
Theorem simple_capture_returns_path_of_written_file E w :
  let x := simple_screenshot.screenshot_presentation E w in
  let ts := now E (trace w ++ [EPrint [Lit "🌐 Starting Chrome browser..."];
                               ELaunch None simple_screenshot.chrome_options None;
                               EMakedirs "screenshots"]) in
  capture_outcome ("screenshots/working_presentation_" +:+ ts +:+ ".png") w x /\
  engines (snd x) = engines w.
Proof.
  cbv zeta. run_main. unfold simple_screenshot.screenshot_presentation.
  drive; intros <-; (split; [close_outcome | reflexivity]).
Qed.

(** X3. quick_screenshot.py returns [None] on every path, also when the
    screenshot was taken: the file is written exactly when no automation step
    faulted, and the caller cannot tell from the value returned.  The browser
    it started is closed on every path. *)
Theorem quick_capture_result_is_always_None E w :
  let x := quick_screenshot.main E w in
  let t := drop (length (trace w)) (trace (snd x)) in
  let path := "screenshots/font_pair_demo_working.png"%string in
  fst x = Ret PNone /\
  engines (snd x) = engines w /\
  match faults t with
  | [] => exists png, In (EScreenshot path (Ret png)) t /\
                      files (snd x) = <[path := png]> (files w)
  | _ => files (snd x) = files w
  end.
Proof.
  cbv zeta. run_main. unfold quick_screenshot.main.
  drive; intros <-; read_trace; cbn [faults]; (split; [reflexivity|]); (split; [reflexivity|]);
    first [ reflexivity
          | eexists; split; [cbn [In]; repeat first [left; reflexivity | right] | reflexivity] ].
Qed.

(** ** The creation call of scripts/screenshot_presentation.py *)

Ltac data_step :=
  match goal with
  | |- context [match py_in ?k ?v with _ => _ end] =>
      destruct (py_in k v) as [[|]|] eqn:?
  end; tidy.

Ltac drive_data := repeat first [progress prim_step | oracle | data_step].

Lemma getitem_dict v k x : py_getitem v k = Ret x -> exists d, v = PDict d /\ assoc k d = Some x.
Proof.
  destruct v; try discriminate. simpl. destruct (assoc k d) eqn:H; [|discriminate].
  intros [= <-]. eauto.
Qed.

Lemma get_dict v k dflt x :
  py_get v k dflt = Ret x -> exists d, v = PDict d /\ x = default dflt (assoc k d).
Proof. destruct v; try discriminate. simpl. intros [= <-]. eauto. Qed.

Lemma create_presentation_via_api_run E w :
  let reply := http_post E (trace w ++ [EPrint [Lit "📞 Calling Web API to create presentation..."]])
                 web_app_url screenshot_presentation.payload in
  exists r t,
    forallb is_print t = true /\
    screenshot_presentation.create_presentation_via_api E w =
      (r, World (trace w ++ EPrint [Lit "📞 Calling Web API to create presentation..."]
                   :: EPost web_app_url screenshot_presentation.payload None reply :: t)
                (files w) (engines w) (driver w)) /\
    (forall inner, success_answer reply inner -> r = Ret (deck_of E inner)) /\
    (forall v, r = Ret v -> v <> PNone ->
       exists inner, success_answer reply inner /\ v = deck_of E inner).
Proof.
  intros reply. unfold screenshot_presentation.create_presentation_via_api, result_success.
  prim_step. prim_step. fold reply.
  destruct reply as [resp|e] eqn:Hreply.
  2:{ exists (Raise e), []. rewrite <- app_assoc. split; [reflexivity|].
      split; [reflexivity|]. split.
      - intros inner (r & result & [=] & _).
      - intros v [=]. }
  match goal with |- context [(if _ then ?m1 else ?m2) ?w'] =>
    assert (Hq : quiet (if status_code resp =? 200 then m1 else m2)) by quiet_tac;
    destruct (quiet_run _ w' Hq) as (r & t & Ht & Hrun)
  end.
  cbn [trace files engines driver] in Hrun.
  exists r, t. rewrite Hrun. rewrite <- !app_assoc.
  split; [exact Ht|]. split; [reflexivity|]. clear Hq.
  apply (f_equal fst) in Hrun. cbn [fst] in Hrun. subst r.
  split.
  - intros inner (r & result & [= <-] & Hs & Hj & Hres & Htr).
    apply Z.eqb_eq in Hs. rewrite Hs.
    destruct (getitem_dict _ _ _ Hres) as (d & -> & Hd).
    assert (Hin : py_in "result" (PDict d) = Ret true).
    { unfold py_in. rewrite Hd. reflexivity. }
    unfold json. rewrite Hj.
    repeat first [ progress prim_step
                 | progress (rewrite ?Hin, ?Hres; cbv beta iota;
                             cbn [py_get from_option id]; rewrite ?Htr) ].
    reflexivity.
  - intros v Hv Hnone. revert Hv. run_main.
    drive_data; intros <-; cbn [fst]; try (intros [= <-]; congruence).
    match goal with
    | H : py_get ?a "success" PNone = Ret _ |- _ => destruct a; try discriminate H
    end.
    repeat match goal with
           | H : py_get (PDict _) _ _ = Ret _ |- _ => cbn [py_get] in H; injection H as <-
           | H : (_ =? _) = true |- _ => apply Z.eqb_eq in H
           end.
    intros [= <-]. eexists. split; [|reflexivity].
    eexists _, _. repeat split; eauto.
Qed.


(** X4. [create_presentation_via_api] returns a value other than [None]
    exactly when the service answered the request with a success (status 200
    and a truthy [result.success]); the value is then the deck built from the
    answer's [result], with [.get] reads: an answer that names no
    [presentationId] is not rejected, it gives a deck whose id is [None] and
    whose URLs are built from the text of [None]. *)
Theorem creation_returns_deck_iff_success E w v :
  let reply := http_post E (trace w ++ [EPrint [Lit "📞 Calling Web API to create presentation..."]])
                 web_app_url screenshot_presentation.payload in
  v <> PNone ->
  (fst (screenshot_presentation.create_presentation_via_api E w) = Ret v <->
   exists inner, success_answer reply inner /\ v = deck_of E inner).
Proof.
  intros reply Hv.
  destruct (create_presentation_via_api_run E w) as (r & t & _ & Hrun & Hto & Hfrom).
  fold reply in Hrun, Hto, Hfrom. rewrite Hrun. cbn [fst]. split.
  - intros ->. apply Hfrom; auto.
  - intros (inner & Hs & ->). apply Hto, Hs.
Qed.

(** X4, witness: the service reports a success without a [presentationId]. *)
Lemma creation_returns_deck_iff_success_witness :
  fst (screenshot_presentation.create_presentation_via_api Cases.no_id world0) =
    Ret (PDict [("presentation_id", PNone);
                ("edit_url", PStr "https://docs.google.com/presentation/d/None/edit");
                ("pub_url", PStr "https://docs.google.com/presentation/d/None/pub");
                ("font_pair", PNone);
                ("color_palette", PNone)]).
Proof.
  refine (proj2 (creation_returns_deck_iff_success Cases.no_id world0 _ _) _).
  - discriminate.
  - exists [("success", PBool true)]. split; [|reflexivity].
    exists Cases.created_without_id, (PDict [("result", PDict [("success", PBool true)])]).
    repeat split; reflexivity.
Defined.

(** ** scripts/screenshot_presentation.py: the capture and the whole run *)

Lemma launches_prints t : forallb is_print t = true -> launches t = [].
Proof. induction t as [|[] t IH]; simpl; intros; try discriminate; auto. Qed.

Lemma truthy_deck_of E inner : truthy (deck_of E inner) = true.
Proof. reflexivity. Qed.

Lemma screenshot_presentation_run E pd w :
  let ts := now E (trace w ++ [ELaunch None screenshot_presentation.chrome_options None;
                               EMakedirs "screenshots"]) in
  let pub_path := "screenshots/font_demo_public_" +:+ ts +:+ ".png" in
  let edit_path := "screenshots/font_demo_edit_" +:+ ts +:+ ".png" in
  exists v t fs d,
    screenshot_presentation.screenshot_presentation E pd w =
      (Ret v, World (trace w ++ t) fs (engines w) d) /\
    (if truthy pd
     then exists fault, launches t = [(None, screenshot_presentation.chrome_options, fault)]
     else t = [EPrint [Lit "❌ No presentation data to screenshot"]] /\ fs = files w) /\
    (v = PNone \/
     exists png1 png2,
       v = PDict [("pub_screenshot", PStr pub_path); ("edit_screenshot", PStr edit_path)] /\
       In (EScreenshot pub_path (Ret png1)) t /\
       In (EScreenshot edit_path (Ret png2)) t /\
       fs = <[edit_path := png2]> (<[pub_path := png1]> (files w))).
Proof.
  cbv zeta. run_main. unfold screenshot_presentation.screenshot_presentation.
  drive; intros <-; eexists _, _, _, _;
    (split; [rewrite <- ?app_assoc; cbn [app]; reflexivity|]);
    (split; [first [ split; reflexivity | eexists; reflexivity ]|]);
    first [ left; reflexivity
          | right; eexists _, _; split; [reflexivity|];
            cbn [In]; split; [repeat first [left; reflexivity | right]|];
            split; [repeat first [left; reflexivity | right] | reflexivity] ].
Qed.

(** X5. [screenshot_presentation] never raises and always gives back the
    browser it started.  Without presentation data (a falsy argument) it
    starts no browser and returns [None]; with data it starts the browser
    once.  It returns either [None] or the pair of paths, and when it returns
    the paths, both captures were made and both files hold the images the
    browser produced. *)
Theorem two_view_capture_returns_written_files E pd w :
  let x := screenshot_presentation.screenshot_presentation E pd w in
  let t := drop (length (trace w)) (trace (snd x)) in
  let ts := now E (trace w ++ [ELaunch None screenshot_presentation.chrome_options None;
                               EMakedirs "screenshots"]) in
  let pub_path := "screenshots/font_demo_public_" +:+ ts +:+ ".png" in
  let edit_path := "screenshots/font_demo_edit_" +:+ ts +:+ ".png" in
  engines (snd x) = engines w /\
  (if truthy pd then length (launches t) = 1%nat else launches t = [] /\ fst x = Ret PNone) /\
  (fst x = Ret PNone \/
   exists png1 png2,
     fst x = Ret (PDict [("pub_screenshot", PStr pub_path); ("edit_screenshot", PStr edit_path)]) /\
     In (EScreenshot pub_path (Ret png1)) t /\
     In (EScreenshot edit_path (Ret png2)) t /\
     files (snd x) !! pub_path = Some png1 /\
     files (snd x) !! edit_path = Some png2).
Proof.
  cbv zeta.
  destruct (screenshot_presentation_run E pd w) as (v & t & fs & d & Hrun & Hl & Hv).
  rewrite Hrun. cbn [fst snd trace files engines]. rewrite drop_length_app.
  split; [reflexivity|]. split.
  - destruct (truthy pd).
    + destruct Hl as [fault ->]. reflexivity.
    + destruct Hl as [-> ->]. split; [reflexivity|].
      destruct Hv as [->|(png1 & png2 & _ & [[=]|[]] & _)]. reflexivity.
  - destruct Hv as [->|(png1 & png2 & -> & H1 & H2 & ->)]; [left; reflexivity|].
    right. exists png1, png2. split; [reflexivity|]. split; [exact H1|]. split; [exact H2|].
    split; [|apply lookup_insert_eq].
    rewrite lookup_insert_ne; [apply lookup_insert_eq|].
    cbn [String.append]. discriminate.
Qed.

(** X6. A run of scripts/screenshot_presentation.py starts the browser only
    after the service answered the creation request with a success, and then
    exactly once.  When the creation fails or raises, no browser is started
    and no file is written; after a successful creation the run returns
    [None] whatever the capture does.  No path leaves a browser running. *)
Theorem browser_starts_only_after_successful_creation E w :
  let x := screenshot_presentation.main E w in
  let t := drop (length (trace w)) (trace (snd x)) in
  let reply :=
    http_post E
      (trace w ++ [EPrint [Lit "🎨 Starting Font Pair Demonstration with Python Screenshots"];
                   EPrint [Lit "============================================================"];
                   EPrint [Lit "📞 Calling Web API to create presentation..."]])
      web_app_url screenshot_presentation.payload in
  engines (snd x) = engines w /\
  ((launches t = [] /\ files (snd x) = files w /\ ~ (exists inner, success_answer reply inner)) \/
   (exists inner fault,
      success_answer reply inner /\
      launches t = [(None, screenshot_presentation.chrome_options, fault)] /\
      fst x = Ret PNone)).
Proof.
  cbv zeta. run_main. unfold screenshot_presentation.main.
  repeat (progress prim_step).
  match goal with |- context [screenshot_presentation.create_presentation_via_api E ?w'] =>
    destruct (create_presentation_via_api_run E w') as (r & t & Ht & Hrun & Hto & Hfrom)
  end.
  cbn [trace files engines driver] in Hrun, Hto, Hfrom.
  rewrite <- !app_assoc in Hto, Hfrom. cbn [app] in Hto, Hfrom.
  rewrite Hrun. clear Hrun. tidy.
  destruct r as [v|e].
  2:{ intros <-. cbn [fst snd trace files engines]. split; [reflexivity|]. left.
      rewrite <- !app_assoc, drop_length_app. cbn [app launches].
      rewrite (launches_prints _ Ht). split; [reflexivity|]. split; [reflexivity|].
      intros (inner & Hs). specialize (Hto inner Hs). discriminate. }
  destruct (truthy v) eqn:Hv; tidy.
  2:{ drive. intros <-. cbn [fst snd trace files engines]. split; [reflexivity|]. left.
      rewrite <- !app_assoc, drop_length_app. cbn [app launches].
      rewrite launches_app, (launches_prints _ Ht). split; [reflexivity|]. split; [reflexivity|].
      intros (inner & Hs). specialize (Hto inner Hs). injection Hto as ->.
      rewrite truthy_deck_of in Hv. discriminate. }
  destruct (Hfrom v eq_refl) as (inner & Hs & ->); [intros ->; discriminate|].
  match goal with |- context [bind (screenshot_presentation.screenshot_presentation E ?pd) _ ?w'] =>
    destruct (screenshot_presentation_run E pd w') as (v' & t' & fs & d & Hrun & Hl & _)
  end.
  rewrite truthy_deck_of in Hl. destruct Hl as [fault Hl].
  cbn [trace files engines driver] in Hrun.
  rewrite (bind_run _ _ _ _ _ Hrun). clear Hrun.
  assert (Hend : forall (m : M unit) w1,
            quiet m -> returns m tt ->
            exists t2, forallb is_print t2 = true /\
              bind m (fun _ => ret PNone) w1 =
                (Ret PNone, World (trace w1 ++ t2) (files w1) (engines w1) (driver w1))).
  { intros m w1 Hq Hr. destruct (quiet_run m w1 Hq) as (r1 & t2 & Ht2 & Hm).
    exists t2. split; [exact Ht2|]. rewrite (bind_run _ _ _ _ _ Hm).
    specialize (Hr w1). rewrite Hm in Hr. cbn [fst] in Hr. subst r1. reflexivity. }
  match goal with |- context [bind ?m _ ?w1] =>
    destruct (Hend m w1) as (t2 & Ht2 & Hrun2);
      [ destruct (truthy v'); quiet_tac | destruct (truthy v'); returns_tac | rewrite Hrun2 ]
  end.
  intros <-.
  cbn [fst snd trace files engines]. split; [reflexivity|]. right.
  exists inner, fault. split; [exact Hs|]. split; [|reflexivity].
  rewrite <- !app_assoc, drop_length_app. cbn [app launches].
  rewrite !launches_app, (launches_prints _ Ht), (launches_prints _ Ht2), Hl. reflexivity.
Qed.

(** ** Exports: what the returned value says about the files *)

Lemma actions_app t1 t2 : actions (t1 ++ t2) = actions t1 ++ actions t2.
Proof.
  induction t1 as [|e t1 IH]; [reflexivity|].
  destruct e; simpl; rewrite ?IH; reflexivity.
Qed.

Lemma actions_prints t : forallb is_print t = true -> actions t = [].
Proof. induction t as [|[] t IH]; simpl; intros; try discriminate; auto. Qed.

Lemma append_inv_head (s a b : string) : s +:+ a = s +:+ b -> a = b.
Proof. induction s as [|c s IH]; simpl; [auto|]. intros [= H]. auto. Qed.

Lemma png_is_not_svg ts : export_screenshot.png_path_of ts <> export_screenshot.svg_path_of ts.
Proof.
  unfold export_screenshot.png_path_of, export_screenshot.svg_path_of. intros H.
  apply append_inv_head, append_inv_head in H. discriminate.
Qed.

(** X7. [export_presentation_screenshots] never raises.  It returns [None]
    exactly when one of its two downloads raised; otherwise both exports were
    requested and the dict it returns lists, for each format, the path when
    that export was answered with status 200 and [None] otherwise.  Every path
    the dict lists is a file that holds the body of that export. *)
Theorem export_result_lists_written_files E w :
  let x := export_screenshot.export_presentation_screenshots E w in
  let t := drop (length (trace w)) (trace (snd x)) in
  let ts := now E (trace (snd (export_preamble w))) in
  let png_path := export_screenshot.png_path_of ts in
  let svg_path := export_screenshot.svg_path_of ts in
  (fst x = Ret PNone /\ exists url e, In (url, Raise e) (gets t)) \/
  (exists r1 r2,
     gets t = [(export_screenshot.png_export_url, Ret r1);
               (export_screenshot.svg_export_url, Ret r2)] /\
     fst x = Ret (PDict [("png_path", listed png_path r1); ("svg_path", listed svg_path r2)]) /\
     (listed png_path r1 = PStr png_path -> files (snd x) !! png_path = Some (text r1)) /\
     (listed svg_path r2 = PStr svg_path -> files (snd x) !! svg_path = Some (text r2))).
Proof.
  cbv zeta. run_main. unfold export_preamble. drive.
  unfold export_screenshot.export_presentation_screenshots.
  drive; intros <-; read_trace; cbn [gets];
    first [ left; split; [reflexivity|]; eexists _, _; cbn [In];
            repeat first [left; reflexivity | right]
          | right; eexists _, _; split; [reflexivity|]; unfold listed; close_export;
            split; [reflexivity|]; split; intros Hl; try discriminate Hl;
            rewrite ?lookup_insert_eq; try reflexivity;
            rewrite lookup_insert_ne by (apply not_eq_sym, png_is_not_svg);
            apply lookup_insert_eq ].
Qed.

Lemma success_read result a1 a2 ar id :
  py_get result "result" (PDict []) = Ret a1 ->
  py_get a1 "success" PNone = Ret a2 ->
  truthy a2 = true ->
  py_getitem result "result" = Ret ar ->
  py_getitem ar "presentationId" = Ret id ->
  exists inner,
    ar = PDict inner /\
    truthy (default PNone (assoc "success" inner)) = true /\
    assoc "presentationId" inner = Some id.
Proof.
  intros H1 H2 Ht H3 H4.
  destruct (getitem_dict _ _ _ H3) as (d & -> & Hd).
  destruct (getitem_dict _ _ _ H4) as (inner & -> & Hid).
  cbn [py_get] in H1. rewrite Hd in H1. injection H1 as <-.
  cbn [py_get] in H2. injection H2 as <-.
  exists inner. auto.
Qed.

(** The creation succeeded and named a presentation: collect what the run
    read from the answer. *)
Ltac note_success :=
  match goal with
  | Hs : (status_code ?a =? 200) = true,
    Hj : json_body ?a = Some ?res,
    H1 : py_get ?res "result" _ = Ret ?a1,
    H2 : py_get ?a1 "success" PNone = Ret ?a2,
    Ht : truthy ?a2 = true,
    H3 : py_getitem ?res "result" = Ret ?ar,
    H4 : py_getitem ?ar "presentationId" = Ret ?id |- _ =>
      let inner := fresh "inner" in
      let Hsu := fresh "Hsu" in
      let Hid := fresh "Hid" in
      destruct (success_read res a1 a2 ar id H1 H2 Ht H3 H4) as (inner & -> & Hsu & Hid);
      apply Z.eqb_eq in Hs;
      assert (success_answer (Ret a) inner) by (exists a, res; auto)
  end.

(** What a script has read of an answer, against [success_of]. *)
Lemma success_of_status r : (status_code r =? 200) = false -> success_of (Ret r) = None.
Proof. intros H. cbn [success_of]. rewrite H. reflexivity. Qed.

Lemma success_of_no_json r : json_body r = None -> success_of (Ret r) = None.
Proof. intros H. cbn [success_of]. rewrite H. destruct (_ =? _); reflexivity. Qed.

Lemma success_of_no_object r result e :
  json_body r = Some result ->
  py_get result "result" (PDict []) = Raise e ->
  success_of (Ret r) = None.
Proof.
  intros Hj H. cbn [success_of]. rewrite Hj.
  destruct result; try (destruct (_ =? _); reflexivity). discriminate H.
Qed.

Lemma success_of_no_result r result a1 e :
  json_body r = Some result ->
  py_get result "result" (PDict []) = Ret a1 ->
  py_get a1 "success" PNone = Raise e ->
  success_of (Ret r) = None.
Proof.
  intros Hj H1 H2. cbn [success_of]. rewrite Hj.
  destruct result; try discriminate H1. cbn [py_get] in H1. injection H1 as <-.
  destruct (assoc "result" d) as [v|]; [|discriminate H2]. cbn [from_option id] in H2.
  destruct v; try (destruct (_ =? _); reflexivity). discriminate H2.
Qed.

Lemma success_of_failure r result a1 a2 :
  json_body r = Some result ->
  py_get result "result" (PDict []) = Ret a1 ->
  py_get a1 "success" PNone = Ret a2 ->
  truthy a2 = false ->
  success_of (Ret r) = None.
Proof.
  intros Hj H1 H2 Ht. cbn [success_of]. rewrite Hj.
  destruct result; try discriminate H1. cbn [py_get] in H1. injection H1 as <-.
  destruct (assoc "result" d) as [v|]; [|destruct (_ =? _); reflexivity].
  cbn [from_option id] in H2.
  destruct v; try discriminate H2. cbn [py_get] in H2. injection H2 as <-.
  rewrite Ht. destruct (_ =? _); reflexivity.
Qed.

Lemma success_of_success r result a1 a2 :
  (status_code r =? 200) = true ->
  json_body r = Some result ->
  py_get result "result" (PDict []) = Ret a1 ->
  py_get a1 "success" PNone = Ret a2 ->
  truthy a2 = true ->
  exists inner,
    success_of (Ret r) = Some inner /\ py_getitem result "result" = Ret (PDict inner).
Proof.
  intros Hs Hj H1 H2 Ht. cbn [success_of]. rewrite Hs, Hj.
  destruct result; try discriminate H1. cbn [py_get] in H1. injection H1 as <-.
  cbn [py_getitem].
  destruct (assoc "result" d) as [v|]; cbn [from_option id] in H2.
  - destruct v; try discriminate H2. cbn [py_get] in H2. injection H2 as <-.
    rewrite Ht. eauto.
  - cbn [py_get assoc from_option] in H2. injection H2 as <-. discriminate Ht.
Qed.

(** Settle [success_of] at the answer the run has read. *)
Ltac read_answer :=
  match goal with
  | |- context [success_of (Raise ?e)] => cbn [success_of]
  | Hs : (status_code ?a =? 200) = false |- context [success_of (Ret ?a)] =>
      rewrite (success_of_status a Hs)
  | Hj : json_body ?a = None |- context [success_of (Ret ?a)] =>
      rewrite (success_of_no_json a Hj)
  | Hj : json_body ?a = Some ?res, H1 : py_get ?res "result" _ = Raise _
    |- context [success_of (Ret ?a)] =>
      rewrite (success_of_no_object a res _ Hj H1)
  | Hj : json_body ?a = Some ?res, H1 : py_get ?res "result" _ = Ret ?a1,
    H2 : py_get ?a1 "success" PNone = Raise _ |- context [success_of (Ret ?a)] =>
      rewrite (success_of_no_result a res a1 _ Hj H1 H2)
  | Hj : json_body ?a = Some ?res, H1 : py_get ?res "result" _ = Ret ?a1,
    H2 : py_get ?a1 "success" PNone = Ret ?a2, Ht : truthy ?a2 = false
    |- context [success_of (Ret ?a)] =>
      rewrite (success_of_failure a res a1 a2 Hj H1 H2 Ht)
  | Hs : (status_code ?a =? 200) = true,
    Hj : json_body ?a = Some ?res, H1 : py_get ?res "result" _ = Ret ?a1,
    H2 : py_get ?a1 "success" PNone = Ret ?a2, Ht : truthy ?a2 = true
    |- context [success_of (Ret ?a)] =>
      let inner := fresh "inner" in
      let Hso := fresh "Hso" in
      let Hres := fresh "Hres" in
      destruct (success_of_success a res a1 a2 Hs Hj H1 H2 Ht) as (inner & Hso & Hres);
      rewrite Hso;
      try match goal with
          | H3 : py_getitem res "result" = _ |- _ =>
              assert_fails (constr_eq H3 Hres); rewrite Hres in H3; simplify_eq
          end;
      clear Hso Hres H1 H2
  end.

(** What the run has read of the object [d]. *)
Ltac read_key :=
  match goal with
  | H : py_getitem (PDict ?d) ?k = _ |- _ =>
      cbn [py_getitem] in H; destruct (assoc k d) eqn:?; simplify_eq
  end.

(** X8. test_export_after_create.py asks for one creation.  Unless the
    answer is a success that names the presentation, nothing else happens.
    Otherwise the export of the presentation the service named is requested,
    once, after a 5 s wait.  A download that raises is not caught; one
    answered with another status than 200 writes nothing and gives [None];
    one answered with status 200 makes the directory and opens the file
    named after the presentation: when the file system lets the file be
    opened, the file then holds the body and its path is returned; when it
    does not, the fault of [open] leaves the function and nothing is
    written. *)
Theorem export_follows_creation_and_wait E w :
  let x := test_export_after_create.test_create_and_export E w in
  let t := drop (length (trace w)) (trace (snd x)) in
  let reply :=
    http_post E (trace w ++ [EPrint [Lit "📞 Creating presentation with sharing enabled..."]])
      web_app_url test_export_after_create.payload in
  let create := EPost web_app_url test_export_after_create.payload (Some 30) reply in
  match success_of reply with
  | None =>
      actions t = [create] /\ files (snd x) = files w /\
      (fst x = Ret PNone \/ exists e, fst x = Raise e)
  | Some inner =>
      match assoc "presentationId" inner with
      | None =>
          actions t = [create] /\ files (snd x) = files w /\
          fst x = Raise (KeyError "presentationId")
      | Some id =>
          let url := export_url_of (py_str E id) "png" in
          let path := test_export_after_create.export_path_of (py_str E id) in
          exists export,
            match export with
            | Raise e =>
                actions t = [create; ESleep 5; EGet url (Some 30) export] /\
                files (snd x) = files w /\ fst x = Raise e
            | Ret r =>
                if status_code r =? 200 then
                  match fs_open E path with
                  | None =>
                      actions t = [create; ESleep 5; EGet url (Some 30) export;
                                   EMakedirs "screenshots"; EWrite path] /\
                      files (snd x) = <[path := text r]> (files w) /\
                      fst x = Ret (PStr path)
                  | Some e =>
                      actions t = [create; ESleep 5; EGet url (Some 30) export;
                                   EMakedirs "screenshots"] /\
                      files (snd x) = files w /\ fst x = Raise e
                  end
                else
                  actions t = [create; ESleep 5; EGet url (Some 30) export] /\
                  files (snd x) = files w /\ fst x = Ret PNone
            end
      end
  end.
Proof.
  cbv zeta. run_main. unfold test_export_after_create.test_create_and_export.
  drive_open; intros <-; read_trace; cbn [actions fst snd files];
    read_answer; repeat read_key.
  all: try (split; [reflexivity|]; split; [reflexivity|]; eauto; fail).
  all: match goal with H : http_get _ _ _ = ?o |- _ => exists o end.
  all: cbv beta iota;
    repeat match goal with H : (_ =? _) = _ |- _ => rewrite H end;
    repeat match goal with H : fs_open _ _ = _ |- _ => rewrite H end;
    repeat split; reflexivity.
Qed.

Ltac branch_step :=
  match goal with
  | |- context [(if ?b then _ else _) ?w] =>
      match type of w with world => destruct b eqn:? end
  end; tidy.

Ltac drive_all := repeat first [progress prim_step | oracle | data_step | branch_step].

(** X9. test_pub_access.py only looks: it writes no file and starts no
    browser.  The public page is requested only after the service answered
    the creation with a success that names the presentation, and after a 10 s
    wait; whatever that request gives, a raised exception included, the
    script then returns [None]. *)
Theorem public_page_probe_only_reads E w :
  let x := test_pub_access.test_pub_access E w in
  let t := drop (length (trace w)) (trace (snd x)) in
  let reply :=
    http_post E (trace w ++ [EPrint [Lit "📞 Creating presentation with Drive API publishing..."]])
      web_app_url test_pub_access.payload in
  let create := EPost web_app_url test_pub_access.payload (Some 30) reply in
  files (snd x) = files w /\ engines (snd x) = engines w /\
  ((actions t = [create] /\ (fst x = Ret PNone \/ exists e, fst x = Raise e)) \/
   (exists inner id probe,
      success_answer reply inner /\ assoc "presentationId" inner = Some id /\
      actions t = [create; ESleep 10; EGet (pub_url_of (py_str E id)) (Some 30) probe] /\
      fst x = Ret PNone)).
Proof.
  cbv zeta. run_main. unfold test_pub_access.test_pub_access.
  drive_all; intros <-; read_trace; cbn [actions fst snd files];
    (split; [reflexivity|]); (split; [reflexivity|]).
  all: try (left; split; [reflexivity|]; eauto; fail).
  all: note_success; right; eexists _, _, _; (split; [eassumption|]); (split; [eassumption|]);
    split; reflexivity.
Qed.

(** ** Probes of the service: one guarded request each *)

(** A request inside [try: ... except Exception], followed and handled by
    printing only: one request is made, nothing is raised. *)
Lemma guarded_post_run E url payload timeout (k : response -> M unit) (h : exn -> M unit) w :
  (forall r, quiet (k r)) -> (forall e, quiet (h e)) -> (forall e, returns (h e) tt) ->
  exists t,
    forallb is_print t = true /\
    try_except (bind (requests_post E url payload timeout) k) h w =
      (Ret tt, World (trace w ++ EPost url payload timeout (http_post E (trace w) url payload) :: t)
                     (files w) (engines w) (driver w)).
Proof.
  intros Hk Hq Hr. rewrite try_except_unfold.
  rewrite (bind_eq _ k w _ (post_run E url payload timeout w)).
  destruct (http_post E (trace w) url payload) as [resp|e].
  - match goal with |- context [k resp ?w'] =>
      destruct (quiet_run (try_except (k resp) h) w') as (r & t & Ht & Hrun);
        [apply quiet_try_except; auto|];
      pose proof (try_except_returns (k resp) h Hr w') as Hret
    end.
    rewrite Hrun in Hret. cbn [fst] in Hret. subst r.
    rewrite try_except_unfold in Hrun. cbn [trace files engines driver] in Hrun.
    exists t. split; [exact Ht|]. rewrite Hrun, <- app_assoc. reflexivity.
  - match goal with |- context [h e ?w'] =>
      destruct (quiet_run (h e) w' (Hq e)) as (r & t & Ht & Hrun);
      pose proof (Hr e w') as Hret
    end.
    rewrite Hrun in Hret. cbn [fst] in Hret. subst r.
    cbn [trace files engines driver] in Hrun.
    exists t. split; [exact Ht|]. cbv beta iota. rewrite Hrun, <- app_assoc. reflexivity.
Qed.

(** Read the requests off a trace whose unknown parts are printed lines. *)
Ltac read_requests :=
  repeat first
    [ progress cbn [posts gets actions app map combine fst snd]
    | rewrite posts_app
    | rewrite gets_app
    | rewrite actions_app
    | match goal with
      | H : forallb is_print ?t = true |- _ =>
          first [ rewrite (posts_prints t H) | rewrite (gets_prints t H)
                | rewrite (actions_prints t H) ]
      end ].

Lemma test_one_run E i prompt w :
  exists reply t,
    forallb is_print t = true /\
    test_font_parsing_final.test_one E (i, prompt) w =
      (Ret tt,
       World (trace w ++
                EPrint [Lit "
🧪 Test "; Val (PInt i); Lit ": "; Val (PStr prompt)]
                :: EPost web_app_url (prompt_payload "testFontParsing" prompt) (Some 30) reply :: t)
             (files w) (engines w) (driver w)).
Proof.
  unfold test_font_parsing_final.test_one. prim_step.
  match goal with |- context [try_except (bind (requests_post E ?u ?p ?to) ?k) ?h ?w'] =>
    destruct (guarded_post_run E u p to k h w') as (t & Ht & Hrun);
      [ intros r; quiet_tac | intros e; quiet_tac | intros e; returns_tac | ]
  end.
  rewrite Hrun. cbn [trace files engines driver]. rewrite <- app_assoc.
  eexists _, t. split; [exact Ht | reflexivity].
Qed.

(** X10. test_font_parsing_final.py never raises and never stops early:
    whatever the service answers (error statuses, bodies that are not JSON,
    answers without the expected fields, requests that raise), the run sends
    its five requests in order - the four parsing prompts, then the basic
    creation - touches no file and no browser, and returns [None]. *)
Theorem parsing_probe_sends_all_requests E w :
  let x := test_font_parsing_final.test_font_parsing E w in
  let t := drop (length (trace w)) (trace (snd x)) in
  fst x = Ret PNone /\
  posts t = map (prompt_payload "testFontParsing") test_font_parsing_final.test_prompts ++
            [test_font_parsing_final.basic_payload] /\
  (exists r1 r2 r3 r4 r5,
     actions t =
       map (fun p => EPost web_app_url (fst p) (Some 30) (snd p))
           (combine (map (prompt_payload "testFontParsing") test_font_parsing_final.test_prompts ++
                     [test_font_parsing_final.basic_payload])
                    [r1; r2; r3; r4; r5])) /\
  files (snd x) = files w /\ engines (snd x) = engines w.
Proof.
  cbv zeta. run_main. unfold test_font_parsing_final.test_font_parsing.
  unfold test_font_parsing_final.test_prompts.
  cbn [test_font_parsing_final.enumerate Z.add Pos.add Pos.succ].
  match goal with |- context [try_except (bind (requests_post E ?u ?p ?to) ?k) ?h] =>
    pose proof (guarded_post_run E u p to k h) as Hprobe;
    set (probe := try_except (bind (requests_post E u p to) k) h) in *
  end.
  repeat (progress prim_step).
  repeat match goal with
         | |- context [test_font_parsing_final.test_one E (?i, ?p) ?w'] =>
             let r := fresh "r" in let t := fresh "t" in
             let Ht := fresh "Ht" in let Hrun := fresh "Hrun" in
             destruct (test_one_run E i p w') as (r & t & Ht & Hrun);
             rewrite Hrun; clear Hrun; tidy; repeat (progress prim_step)
         end.
  match goal with |- context [probe ?w'] =>
    destruct (Hprobe w') as (t' & Ht' & Hrun);
      [ intros r'; quiet_tac | intros e; quiet_tac | intros e; returns_tac | ]
  end.
  rewrite Hrun. clear Hrun Hprobe. tidy. drive. intros <-. read_trace.
  split; [reflexivity|]. read_requests.
  split; [reflexivity|]. split; [|split; reflexivity].
  eexists _, _, _, _, _. reflexivity.
Qed.

(** X11. test_api.py makes one attempt and only reports: a run is exactly
    one POST to the web app, with a 30 s timeout, and printed lines; it writes
    no file, starts no browser and returns [None], whatever the answer. *)
Theorem creation_probe_is_one_request E w :
  let x := test_api.main E w in
  let t := drop (length (trace w)) (trace (snd x)) in
  let reply :=
    http_post E (trace w ++ [EPrint [Lit "📞 Calling Web API to create presentation..."]])
      web_app_url test_api.payload in
  fst x = Ret PNone /\
  actions t = [EPost web_app_url test_api.payload (Some 30) reply] /\
  files (snd x) = files w /\ engines (snd x) = engines w.
Proof.
  cbv zeta. run_main. unfold test_api.main.
  match goal with |- context [try_except (bind (requests_post E ?u ?p ?to) ?k) ?h] =>
    pose proof (guarded_post_run E u p to k h) as Hprobe;
    set (probe := try_except (bind (requests_post E u p to) k) h) in *
  end.
  repeat (progress prim_step).
  match goal with |- context [probe ?w'] =>
    destruct (Hprobe w') as (t' & Ht' & Hrun);
      [ intros r'; quiet_tac; apply result_success_quiet
      | intros e; quiet_tac | intros e; returns_tac | ]
  end.
  rewrite Hrun. clear Hrun Hprobe. tidy. drive. intros <-. read_trace.
  split; [reflexivity|]. read_requests. repeat split; reflexivity.
Qed.

(** ** test_export_direct.py: three independent downloads *)

Lemma export_one_actions E format_name export_url w :
  exists reply t,
    test_export_direct.export_one E (format_name, export_url) w =
      (Ret tt, World (trace w ++ t)
                     (saved (test_export_direct.export_path_of format_name) reply (files w))
                     (engines w) (driver w)) /\
    actions t = download export_url (test_export_direct.export_path_of format_name) reply.
Proof.
  exists (http_get E (trace w ++ [EPrint [Lit "📸 Testing "; Val (PStr format_name);
                                          Lit " export: "; Val (PStr export_url)]])
                   export_url).
  run_main. unfold test_export_direct.export_one.
  drive; intros <-; eexists; unfold download; close_export;
    (split; [rewrite <- !app_assoc; reflexivity | reflexivity]).
Qed.

Lemma saved_elsewhere path reply fs p : p <> path -> saved path reply fs !! p = fs !! p.
Proof.
  intros Hp. unfold saved. destruct reply as [r|e]; [|reflexivity].
  destruct (status_code r =? 200); [|reflexivity].
  apply lookup_insert_ne. auto.
Qed.

Lemma test_export_direct_run E w :
  let x := test_export_direct.test_export_direct E w in
  let t := drop (length (trace w)) (trace (snd x)) in
  let png := "screenshots/working_font_demo.png"%string in
  let svg := "screenshots/working_font_demo.svg"%string in
  let pdf := "screenshots/working_font_demo.pdf"%string in
  fst x = Ret PNone /\
  (exists r1 r2 r3,
     actions t =
       EMakedirs "screenshots" ::
       download (export_url_of test_export_direct.presentation_id "png") png r1 ++
       download (export_url_of test_export_direct.presentation_id "svg") svg r2 ++
       download (export_url_of test_export_direct.presentation_id "pdf") pdf r3) /\
  (forall p, p <> png -> p <> svg -> p <> pdf -> files (snd x) !! p = files w !! p) /\
  engines (snd x) = engines w.
Proof.
  cbv zeta. run_main. unfold test_export_direct.test_export_direct.
  unfold test_export_direct.export_urls.
  repeat (progress prim_step).
  repeat match goal with
         | |- context [test_export_direct.export_one E (?f, ?u) ?w'] =>
             let r := fresh "r" in let t := fresh "t" in
             let Ha := fresh "Ha" in let Hrun := fresh "Hrun" in
             destruct (export_one_actions E f u w') as (r & t & Hrun & Ha);
             rewrite Hrun; clear Hrun; tidy; repeat (progress prim_step)
         end.
  intros <-. read_trace. split; [reflexivity|]. split; [|split; [|reflexivity]].
  - exists r, r0, r1.
    repeat first [ progress cbn [actions app] | rewrite actions_app ].
    rewrite Ha, Ha0, Ha1. rewrite ?app_nil_r. reflexivity.
  - intros p Hpng Hsvg Hpdf. rewrite !saved_elsewhere; auto.
Qed.

(** X12. test_export_direct.py never raises and returns [None].  Its three
    downloads are independent: PNG, SVG and PDF are each requested, in this
    order and with a 30 s timeout, whatever happened to the ones before (an
    error status or a raised exception), and a file is written right after
    the download that was answered with status 200.  No file other than the
    three export files is touched. *)
Theorem direct_exports_are_independent E w :
  let x := test_export_direct.test_export_direct E w in
  let t := drop (length (trace w)) (trace (snd x)) in
  let png := "screenshots/working_font_demo.png"%string in
  let svg := "screenshots/working_font_demo.svg"%string in
  let pdf := "screenshots/working_font_demo.pdf"%string in
  fst x = Ret PNone /\
  (exists r1 r2 r3,
     actions t =
       EMakedirs "screenshots" ::
       download (export_url_of test_export_direct.presentation_id "png") png r1 ++
       download (export_url_of test_export_direct.presentation_id "svg") svg r2 ++
       download (export_url_of test_export_direct.presentation_id "pdf") pdf r3) /\
  (forall p, p <> png -> p <> svg -> p <> pdf -> files (snd x) !! p = files w !! p) /\
  engines (snd x) = engines w.
Proof. exact (test_export_direct_run E w). Qed.

(** ** create_font_comparison.py: pacing, and an answer without an id *)

(** X13. The two creation requests of [create_font_comparison] are paced:
    the AFTER request is sent only once the BEFORE request has returned and
    the script has slept 2 s.  Both requests carry a 30 s timeout; a run does
    nothing else to the outside world (no download, no file, no browser), and
    it ends after the first request only when an exception ends it. *)
Theorem comparison_requests_are_paced E w :
  let x := create_font_comparison.create_font_comparison E w in
  let t := drop (length (trace w)) (trace (snd x)) in
  let reply1 :=
    http_post E (trace w ++ [EPrint [Lit "📞 Creating BEFORE presentation (default fonts)..."]])
      web_app_url create_font_comparison.before_payload in
  let before := EPost web_app_url create_font_comparison.before_payload (Some 30) reply1 in
  files (snd x) = files w /\ engines (snd x) = engines w /\
  ((actions t = [before] /\ exists e, fst x = Raise e) \/
   (exists reply2,
      actions t = [before; ESleep 2;
                   EPost web_app_url create_font_comparison.after_payload (Some 30) reply2])).
Proof.
  cbv zeta. run_main. unfold create_font_comparison.create_font_comparison.
  destruct (create_one_run E "BEFORE" "Default Fonts (Before)"
              "📞 Creating BEFORE presentation (default fonts)..."
              create_font_comparison.before_payload [] w)
    as (r1 & t1 & Ht1 & Hrun1 & _).
  rewrite (bind_run _ _ _ _ _ Hrun1). clear Hrun1.
  destruct r1 as [ps1|e1].
  { prim_step.
    match goal with |- context [bind (create_font_comparison.create_one _ ?ty ?ti ?an ?pl ?ps) _ ?w'] =>
      destruct (create_one_run E ty ti an pl ps w') as (r2 & t2 & Ht2 & Hrun2 & _)
    end.
    cbn [trace files engines driver] in Hrun2.
    rewrite (bind_run _ _ _ _ _ Hrun2). clear Hrun2.
    destruct r2 as [ps2|e2].
    - match goal with |- context [bind (prints ?l) ?k ?w'] =>
        assert (Hq : quiet (bind (prints l) k))
          by (quiet_tac; apply show_quiet);
        destruct (quiet_run _ w' Hq) as (r & t & Ht & Hrun)
      end.
      cbn [trace files engines driver] in Hrun. rewrite Hrun.
      intros <-. read_trace. split; [reflexivity|]. split; [reflexivity|].
      right. eexists. read_requests. reflexivity.
    - intros <-. read_trace. split; [reflexivity|]. split; [reflexivity|].
      right. eexists. read_requests. reflexivity. }
  intros <-. read_trace. split; [reflexivity|]. split; [reflexivity|].
  left. read_requests. eauto.
Qed.

(** X14. [create_font_comparison] reads the id of a created presentation
    with [result['result']['presentationId']]: when the service answers the
    BEFORE request with a success that names no presentation, the function
    raises [KeyError('presentationId')]; the AFTER request is never sent and
    nothing is returned.  ([create_presentation_via_api] reads the same field
    with [.get] and goes on with [None].) *)
Theorem comparison_raises_on_success_without_id E w inner :
  let reply1 :=
    http_post E (trace w ++ [EPrint [Lit "📞 Creating BEFORE presentation (default fonts)..."]])
      web_app_url create_font_comparison.before_payload in
  success_answer reply1 inner ->
  assoc "presentationId" inner = None ->
  fst (create_font_comparison.create_font_comparison E w) = Raise (KeyError "presentationId") /\
  posts (new_events (create_font_comparison.create_font_comparison E) w) =
    [create_font_comparison.before_payload].
Proof.
  intros reply1 (r & result & Hreply & Hs & Hj & Hres & Htr) Hid. unfold new_events.
  run_main.
  unfold create_font_comparison.create_font_comparison, create_font_comparison.create_one.
  destruct (getitem_dict _ _ _ Hres) as (d & -> & Hd).
  apply Z.eqb_eq in Hs. subst reply1.
  repeat (progress prim_step). rewrite Hreply. cbv beta iota. rewrite Hs. unfold json. rewrite Hj.
  repeat first [ progress prim_step
               | progress (cbn [py_get py_getitem]; rewrite ?Hd, ?Hid;
                           cbn [from_option id]; rewrite ?Htr) ].
  intros <-. read_trace. split; reflexivity.
Qed.

(** X14, witness: every creation is answered with a success without an id. *)
Lemma comparison_raises_on_success_without_id_witness :
  fst (create_font_comparison.create_font_comparison Cases.no_id world0) =
    Raise (KeyError "presentationId") /\
  posts (new_events (create_font_comparison.create_font_comparison Cases.no_id) world0) =
    [create_font_comparison.before_payload].
Proof.
  apply (comparison_raises_on_success_without_id Cases.no_id world0 [("success", PBool true)]).
  - exists Cases.created_without_id, (PDict [("result", PDict [("success", PBool true)])]).
    repeat split; reflexivity.
  - reflexivity.
Defined.

(** ** scripts/get_before_after_authenticated.py *)

Lemma report_quiet data : quiet (get_before_after_authenticated.report data).
Proof.
  unfold get_before_after_authenticated.report, get_before_after_authenticated.field.
  quiet_tac.
Qed.

Lemma getitem_missing d k e : py_getitem (PDict d) k = Raise e -> assoc k d = None.
Proof. cbn [py_getitem]. destruct (assoc k d); [discriminate | reflexivity]. Qed.

(** What the run has read of its data. *)
Ltac read_data :=
  match goal with
  | H : py_getitem ?v ?k = Ret ?x |- _ =>
      let d := fresh "d" in
      let Hv := fresh in
      let Hk := fresh "Hkey" in
      destruct (getitem_dict v k x H) as (d & Hv & Hk); clear H; simplify_eq
  | H : py_getitem (PDict ?d) ?k = Raise ?e |- _ =>
      apply getitem_missing in H
  | H : py_getitem ?v ?k = Raise _ |- _ =>
      is_var v; destruct v; try apply getitem_missing in H
  | H : py_get (PDict ?d) ?k ?dflt = _ |- _ =>
      cbn [py_get] in H; simplify_eq
  | H : py_get ?v ?k ?dflt = _ |- _ =>
      is_var v; destruct v; cbn [py_get] in H; simplify_eq
  end.

(** The report completes exactly on a comparison that is [reportable]. *)
Lemma report_completes inner w :
  fst (get_before_after_authenticated.report (PDict inner) w) = Ret tt <->
  reportable inner = true.
Proof.
  run_main.
  unfold get_before_after_authenticated.report, get_before_after_authenticated.field.
  drive; intros <-; cbn [fst]; repeat read_data.
  all: unfold reportable, showable, font_pair_showable, palette_showable, has_keys, shown_keys.
  all: repeat first
         [ match goal with H : truthy _ = _ |- _ => rewrite H end
         | progress (cbv beta iota; cbn [forallb andb from_option id])
         | match goal with H : assoc _ _ = _ |- _ => rewrite H end ].
  all: try (split; intros Hx; first [reflexivity | discriminate Hx]; fail).
Qed.

(** A comparison that can be reported describes both presentations as
    objects. *)
Lemma reportable_objects inner :
  reportable inner = true ->
  exists before after,
    assoc "before" inner = Some (PDict before) /\
    assoc "after" inner = Some (PDict after).
Proof.
  unfold reportable, showable. intros H.
  destruct (assoc "before" inner) as [[| | | | |before]|]; try discriminate H.
  destruct (assoc "after" inner) as [[| | | | |after]|];
    try (rewrite ?andb_false_r in H; discriminate H).
  eauto.
Qed.

Lemma download_thumbnail_run E pres_type d w :
  let link := default PNone (assoc "thumbnailLink" d) in
  let path := get_before_after_authenticated.thumbnail_path pres_type in
  exists reply t,
    get_before_after_authenticated.download_thumbnail E (pres_type, PDict d) w =
      (Ret tt, World (trace w ++ t) (thumbnail_files path link reply (files w))
                     (engines w) (driver w)) /\
    actions t = thumbnail_actions path link reply.
Proof.
  cbv zeta.
  unfold get_before_after_authenticated.download_thumbnail, thumbnail_files, thumbnail_actions.
  cbn [py_get]. prim_step.
  destruct (default PNone (assoc "thumbnailLink" d)) as [|b|n|u|l|l] eqn:Hlink;
    cbn [is_link requests_get_value truthy].
  4:{ exists (http_get E (trace w ++ [EPrint [Lit "🔗 Downloading "; Val (PStr pres_type);
                                                Lit " thumbnail: "; Val (PStr u)]]) u).
      destruct (String.eqb u "") eqn:Hu; cbn [negb]; run_main;
        drive; intros <-; eexists; close_export;
        (split; [rewrite <- ?app_assoc; reflexivity | reflexivity]). }
  all: exists (Raise MissingSchema); run_main; drive_all; intros <-; eexists;
    (split; [rewrite <- ?app_assoc; reflexivity | reflexivity]).
Qed.

Lemma get_before_after_comparison_run E w :
  let x := get_before_after_authenticated.get_before_after_comparison E w in
  let t := drop (length (trace w)) (trace (snd x)) in
  let reply :=
    http_post E
      (trace w ++ [EPrint [Lit "🎯 CREATING BEFORE/AFTER FONT COMPARISON (AUTHENTICATED)"];
                   EPrint [Lit "======================================================"];
                   EPrint [Lit "📞 Calling authenticated comparison function..."]])
      web_app_url get_before_after_authenticated.payload in
  let call := EPost web_app_url get_before_after_authenticated.payload (Some 60) reply in
  let before_path := "screenshots/before_thumbnail.jpg"%string in
  let after_path := "screenshots/after_thumbnail.jpg"%string in
  match comparison_of reply with
  | None =>
      actions t = [call] /\ files (snd x) = files w /\
      (fst x = Ret PNone \/ exists e, fst x = Raise e)
  | Some inner =>
      exists before after r1 r2,
        assoc "before" inner = Some (PDict before) /\
        assoc "after" inner = Some (PDict after) /\
        let link1 := default PNone (assoc "thumbnailLink" before) in
        let link2 := default PNone (assoc "thumbnailLink" after) in
        fst x = Ret (PDict inner) /\
        actions t = call :: thumbnail_actions before_path link1 r1 ++
                            thumbnail_actions after_path link2 r2 /\
        files (snd x) =
          thumbnail_files after_path link2 r2
            (thumbnail_files before_path link1 r1 (files w))
  end.
Proof.
  cbv zeta. unfold comparison_of. run_main.
  unfold get_before_after_authenticated.get_before_after_comparison.
  repeat (progress prim_step). rewrite <- !app_assoc. cbn [app].
  drive.
  all: try (intros <-; read_trace; cbn [actions fst snd files]; read_answer;
            solve [split; [reflexivity|]; split; [reflexivity|]; eauto]).
  read_answer.
  match goal with |- context [get_before_after_authenticated.report ?data ?w'] =>
    destruct (quiet_run _ w' (report_quiet data)) as (r & t & Ht & Hrun);
    pose proof (report_completes inner w') as Hrep;
    rewrite Hrun in Hrep |- *; cbn [fst] in Hrep; tidy
  end.
  destruct (reportable inner) eqn:Hok.
  2:{ destruct r as [[]|e]; [destruct Hrep as [Hrep _]; discriminate (Hrep eq_refl)|].
      intros <-. read_trace. read_requests. split; [reflexivity|].
      split; [reflexivity|]. eauto. }
  destruct r as [[]|e]; [|destruct Hrep as [_ Hrep]; discriminate (Hrep eq_refl)].
  destruct (reportable_objects inner Hok) as (before & after & Hbefore & Hafter).
  clear Hrep Hrun.
  repeat (progress prim_step). cbn [py_getitem]. rewrite Hbefore. tidy.
  repeat (progress prim_step). rewrite Hafter. tidy.
  repeat (progress prim_step).
  repeat match goal with
         | |- context [get_before_after_authenticated.download_thumbnail E (?ty, PDict ?d) ?w'] =>
             let r := fresh "r" in let t := fresh "t" in
             let Hact := fresh "Hact" in let Hrun := fresh "Hrun" in
             destruct (download_thumbnail_run E ty d w') as (r & t & Hrun & Hact);
             rewrite Hrun; clear Hrun; tidy; repeat (progress prim_step)
         end.
  intros <-. read_trace. exists before, after, r, r0.
  split; [reflexivity|]. split; [reflexivity|]. split; [reflexivity|].
  split; [|reflexivity].
  read_requests. rewrite Hact, Hact0. rewrite ?app_nil_r. reflexivity.
Qed.

(** X15. [get_before_after_comparison] asks the service once (60 s timeout).
    When the answer is no success, or a success whose report cannot be
    printed (a presentation that is no object or lacks a key that is shown,
    a [fontPair] without heading or body, no [timestamp]), nothing is
    downloaded, no file is written, and the function gives [None] or lets the
    fault out.  When the answer is a success that can be reported, the
    function returns the answer's [result] itself, and each thumbnail is
    handled on its own, BEFORE first: a link is followed when it is a
    non-empty string, the file [screenshots/before_thumbnail.jpg] (resp.
    [after_thumbnail.jpg]) is written exactly when that download was answered
    with status 200, and a missing link or a failed download never stops the
    other thumbnail. *)
Theorem thumbnails_are_downloaded_independently E w :
  let x := get_before_after_authenticated.get_before_after_comparison E w in
  let t := drop (length (trace w)) (trace (snd x)) in
  let reply :=
    http_post E
      (trace w ++ [EPrint [Lit "🎯 CREATING BEFORE/AFTER FONT COMPARISON (AUTHENTICATED)"];
                   EPrint [Lit "======================================================"];
                   EPrint [Lit "📞 Calling authenticated comparison function..."]])
      web_app_url get_before_after_authenticated.payload in
  let call := EPost web_app_url get_before_after_authenticated.payload (Some 60) reply in
  let before_path := "screenshots/before_thumbnail.jpg"%string in
  let after_path := "screenshots/after_thumbnail.jpg"%string in
  match comparison_of reply with
  | None =>
      actions t = [call] /\ files (snd x) = files w /\
      (fst x = Ret PNone \/ exists e, fst x = Raise e)
  | Some inner =>
      exists before after r1 r2,
        assoc "before" inner = Some (PDict before) /\
        assoc "after" inner = Some (PDict after) /\
        let link1 := default PNone (assoc "thumbnailLink" before) in
        let link2 := default PNone (assoc "thumbnailLink" after) in
        fst x = Ret (PDict inner) /\
        actions t = call :: thumbnail_actions before_path link1 r1 ++
                            thumbnail_actions after_path link2 r2 /\
        files (snd x) =
          thumbnail_files after_path link2 r2
            (thumbnail_files before_path link1 r1 (files w))
  end.
Proof. exact (get_before_after_comparison_run E w). Qed.

(** ** The output directory *)

Lemma disciplined_actions made t : disciplined made t = disciplined made (actions t).
Proof.
  revert made. induction t as [|e t IH]; intros made; [reflexivity|].
  destruct e; cbn [actions disciplined]; rewrite ?IH; reflexivity.
Qed.

Lemma downloads_disciplined u1 r1 u2 r2 u3 r3 :
  disciplined true
    (download u1 "screenshots/working_font_demo.png" r1 ++
     download u2 "screenshots/working_font_demo.svg" r2 ++
     download u3 "screenshots/working_font_demo.pdf" r3) = true.
Proof.
  unfold download.
  destruct r1 as [r1|]; [destruct (status_code r1 =? 200)|];
    (destruct r2 as [r2|]; [destruct (status_code r2 =? 200)|]);
    (destruct r3 as [r3|]; [destruct (status_code r3 =? 200)|]); reflexivity.
Qed.

Lemma thumbnails_disciplined made l1 r1 l2 r2 :
  disciplined made
    (thumbnail_actions "screenshots/before_thumbnail.jpg" l1 r1 ++
     thumbnail_actions "screenshots/after_thumbnail.jpg" l2 r2) = true.
Proof.
  unfold thumbnail_actions.
  destruct (is_link l1); [destruct r1 as [r1|]; [destruct (status_code r1 =? 200)|]|];
    (destruct (is_link l2); [destruct r2 as [r2|]; [destruct (status_code r2 =? 200)|]|]);
    destruct made; reflexivity.
Qed.

Ltac close_discipline := intros <-; read_trace; reflexivity.

(** X16. Every script that writes files at a path it fixes itself or builds
    from the clock keeps to the output directory: on every path of every
    run, each file written - a download saved or a screenshot saved by the
    browser - lies under [screenshots/], and [os.makedirs('screenshots')]
    was called earlier in the same run. *)
Theorem files_are_written_under_screenshots E w :
  disciplined false (new_events (quick_screenshot.main E) w) = true /\
  disciplined false (new_events (final_screenshot.main E) w) = true /\
  disciplined false (new_events (debug_screenshot.main E) w) = true /\
  disciplined false (new_events (simple_screenshot.screenshot_presentation E) w) = true /\
  (forall presentation_data,
     disciplined false
       (new_events (screenshot_presentation.screenshot_presentation E presentation_data) w) =
     true) /\
  disciplined false (new_events (export_screenshot.export_presentation_screenshots E) w) = true /\
  disciplined false (new_events (test_export_direct.test_export_direct E) w) = true /\
  disciplined false
    (new_events (get_before_after_authenticated.get_before_after_comparison E) w) = true.
Proof.
  unfold new_events. repeat apply conj.
  - run_main. unfold quick_screenshot.main. drive; close_discipline.
  - run_main. unfold final_screenshot.main. drive; close_discipline.
  - run_main. unfold debug_screenshot.main. drive; close_discipline.
  - run_main. unfold simple_screenshot.screenshot_presentation. drive; close_discipline.
  - intros pd. run_main. unfold screenshot_presentation.screenshot_presentation.
    drive; close_discipline.
  - run_main. unfold export_screenshot.export_presentation_screenshots.
    drive; close_discipline.
  - destruct (test_export_direct_run E w) as (_ & (r1 & r2 & r3 & Hact) & _).
    rewrite disciplined_actions, Hact. cbn [disciplined orb String.eqb Ascii.eqb Bool.eqb].
    apply downloads_disciplined.
  - pose proof (get_before_after_comparison_run E w) as Hrun. cbv zeta in Hrun.
    destruct (comparison_of _) as [inner|].
    + destruct Hrun as (before & after & r1 & r2 & _ & _ & _ & Hact & _).
      rewrite disciplined_actions, Hact. cbn [disciplined]. apply thumbnails_disciplined.
    + destruct Hrun as (Hact & _). rewrite disciplined_actions, Hact. reflexivity.
Qed.

(** ** scripts/screenshot_presentation.py: from the answer to the captures *)

(** X17. In a run of scripts/screenshot_presentation.py the deck that is
    captured is the deck the service created: after a success answer the
    browser is sent to the public URL and then to the edit URL built from the
    answer's [presentationId], and nowhere else.  When no browser step
    faults, both pages are visited and both screenshot files are there at the
    end of the run. *)
Theorem created_deck_is_the_one_captured E w inner :
  let x := screenshot_presentation.main E w in
  let t := drop (length (trace w)) (trace (snd x)) in
  let reply :=
    http_post E
      (trace w ++ [EPrint [Lit "🎨 Starting Font Pair Demonstration with Python Screenshots"];
                   EPrint [Lit "============================================================"];
                   EPrint [Lit "📞 Calling Web API to create presentation..."]])
      web_app_url screenshot_presentation.payload in
  let id := py_str E (default PNone (assoc "presentationId" inner)) in
  success_answer reply inner ->
  (navigations t = [] \/ navigations t = [pub_url_of id] \/
   navigations t = [pub_url_of id; edit_url_of id]) /\
  (faults t = [] ->
   exists ts png1 png2,
     navigations t = [pub_url_of id; edit_url_of id] /\
     files (snd x) !! ("screenshots/font_demo_public_" +:+ ts +:+ ".png") = Some png1 /\
     files (snd x) !! ("screenshots/font_demo_edit_" +:+ ts +:+ ".png") = Some png2).
Proof.
  cbv zeta. intros (r & result & Hreply & Hs & Hj & Hres & Htr).
  destruct (getitem_dict _ _ _ Hres) as (d & -> & Hd).
  assert (Hin : py_in "result" (PDict d) = Ret true).
  { unfold py_in. rewrite Hd. reflexivity. }
  apply Z.eqb_eq in Hs.
  run_main.
  unfold screenshot_presentation.main, screenshot_presentation.create_presentation_via_api,
    result_success, screenshot_presentation.screenshot_presentation.
  repeat (progress prim_step). rewrite <- !app_assoc. cbn [app].
  rewrite Hreply. cbv beta iota. rewrite Hs. unfold json. rewrite Hj.
  repeat first [ progress prim_step
               | progress (rewrite ?Hin, ?Hres; cbv beta iota;
                           cbn [py_get py_getitem assoc String.eqb Ascii.eqb Bool.eqb
                                from_option id truthy negb];
                           rewrite ?Htr) ].
  drive; intros <-; read_trace; cbn [navigations faults]; (split; [auto|]);
    try discriminate; intros _.
  eexists _, _, _. split; [reflexivity|].
  split; [|apply lookup_insert_eq].
  rewrite lookup_insert_ne; [apply lookup_insert_eq|].
  cbn [String.append]. discriminate.
Qed.

(** X17, witness: a run in which everything works. *)
Lemma created_deck_is_the_one_captured_witness :
  let x := screenshot_presentation.main Scenario.all_fine world0 in
  let t := drop (length (trace world0)) (trace (snd x)) in
  (navigations t = [] \/ navigations t = [pub_url_of "abc"] \/
   navigations t = [pub_url_of "abc"; edit_url_of "abc"]) /\
  (faults t = [] ->
   exists ts png1 png2,
     navigations t = [pub_url_of "abc"; edit_url_of "abc"] /\
     files (snd x) !! ("screenshots/font_demo_public_" +:+ ts +:+ ".png") = Some png1 /\
     files (snd x) !! ("screenshots/font_demo_edit_" +:+ ts +:+ ".png") = Some png2).
Proof.
  apply (created_deck_is_the_one_captured Scenario.all_fine world0
           [("success", PBool true); ("presentationId", PStr "abc")]).
  exists (Scenario.created "abc"),
    (PDict [("result", PDict [("success", PBool true); ("presentationId", PStr "abc")])]).
  repeat split; reflexivity.
Defined.


(** A run in which the comparison exists, the BEFORE deck has a thumbnail
    and the AFTER deck has none: the comparison is returned and one file is
    written. *)
Example one_thumbnail_is_written :
  let x := get_before_after_authenticated.get_before_after_comparison
             Cases.comparison_ready world0 in
  fst x = Ret Cases.comparison_data /\
  files (snd x) = {[ "screenshots/before_thumbnail.jpg"%string := "JPG-bytes"%string ]}.
Proof. vm_compute. split; reflexivity. Qed.

(** A run in which the service reports a success and leaves out the
    [timestamp]: the report stops at the missing key, before any thumbnail is
    asked for, and nothing is written. *)
Example unstamped_comparison_is_not_downloaded :
  let x := get_before_after_authenticated.get_before_after_comparison
             Cases.unstamped world0 in
  fst x = Raise (KeyError "timestamp") /\
  gets (trace (snd x)) = [] /\
  files (snd x) = ∅.
Proof. vm_compute. repeat split; reflexivity. Qed.
